(** * go-open-service-broker-client (package v2): the rotate-binding path

    A shallow embedding of the parts of the client that build a request,
    gate it on the protocol version, send it and classify the broker's
    answer: [version.go], [bind_resource_methods.go], the shared methods
    of [client.go] and [rotate_binding.go].

    Conventions.
    - A Go [string] is a sequence of bytes: [string] here (a list of
      8-bit [ascii]).
    - A Go struct [T] is the record [T.t] of the module [T], so that a
      field reads [T.f x] where the source has [x.f].
    - A nil-able pointer, map or slice is an [option].
    - A function returning [(T, error)] returns [error + T]; a function
      returning [error] returns [option error].
    - [map[string]string] and [map[string]interface{}] are [gmap string _].
    - Logging through klog and the deferred draining and closing of the
      response body leave no trace in what a call returns; they are not
      modelled. *)

From Stdlib Require Import ZArith Ascii String List Bool Lia DecimalString.
From stdpp Require Import base option strings gmap list.

Local Open Scope string_scope.

(** [simpl] unfolds an append whose first string starts with a character. *)
Local Arguments String.append !s1 s2 : simpl nomatch.

Local Unset Elimination Schemes.

(** ** JSON documents

    The value tree of a JSON text.  It also stands for the Go value that
    [encoding/json] stores in an [interface{}]: a [JString] is a Go
    [string], a [JObject] a [map[string]interface{}] (bindings in
    document order, a later binding of a key overriding an earlier one),
    a [JNumber] the [float64] its literal denotes (the literal is kept,
    the conversion is not modelled). *)
Inductive JSON : Type :=
| JNull
| JBool (b : bool)
| JNumber (literal : string)
| JString (s : string)
| JArray (elems : list JSON)
| JObject (members : list (string * JSON)).

(** ** Errors *)

(** Modelled from the spec: the error structs [HTTPStatusCodeError] (the
    spec's BrokerError, "{httpStatus: integer, errorCode: optional
    string, description: optional string, responseParseError: optional
    error}") and [OperationNotAllowedError] are declared outside the
    files embedded here; they have the fields that client.go and
    rotate_binding.go assign.  The other constructors are the errors of
    [errors.New] and [fmt.Errorf] and the two errors of
    [encoding/json]. *)
Inductive error : Type :=
| errorString (msg : string)
| SyntaxError (msg : string)
| UnmarshalTypeError (value : string) (type : string)
| OperationNotAllowedError (reason : string)
| HTTPStatusCodeError (StatusCode : Z) (ErrorMessage : option string)
    (Description : option string) (ResponseError : option error).

Local Set Elimination Schemes.

(** ** version.go *)
Module APIVersion.
(** [order] is a Go [byte]. *)
Record t := mk { label : string; order : Z }.

Definition AtLeast (v test : t) : bool := (order test <=? order v)%Z.
Definition HeaderValue (v : t) : string := label v.
Definition String (v : t) : string := label v.
Definition IsLessThan (v other : t) : bool := negb (AtLeast v other).
End APIVersion.

Definition internalAPIVersion2_11 := "2.11".
Definition internalAPIVersion2_12 := "2.12".
Definition internalAPIVersion2_13 := "2.13".
Definition internalAPIVersion2_14 := "2.14".
Definition internalAPIVersion2_15 := "2.15".
Definition internalAPIVersion2_16 := "2.16".
Definition internalAPIVersion2_17 := "2.17".

Definition Version2_11 := APIVersion.mk internalAPIVersion2_11 0.
Definition Version2_12 := APIVersion.mk internalAPIVersion2_12 1.
Definition Version2_13 := APIVersion.mk internalAPIVersion2_13 2.
Definition Version2_14 := APIVersion.mk internalAPIVersion2_14 3.
Definition Version2_15 := APIVersion.mk internalAPIVersion2_15 4.
Definition Version2_16 := APIVersion.mk internalAPIVersion2_16 5.
Definition Version2_17 := APIVersion.mk internalAPIVersion2_17 6.

Definition LatestAPIVersion := Version2_17.

Definition APIVersions : gmap string APIVersion.t :=
  <[internalAPIVersion2_17 := Version2_17]>
  (<[internalAPIVersion2_16 := Version2_16]>
  (<[internalAPIVersion2_15 := Version2_15]>
  (<[internalAPIVersion2_14 := Version2_14]>
  (<[internalAPIVersion2_13 := Version2_13]>
  (<[internalAPIVersion2_12 := Version2_12]>
  (<[internalAPIVersion2_11 := Version2_11]> ∅)))))).

(** ** types.go *)
Definition OperationKey := string.

Module OriginatingIdentity.
Record t := mk { Platform : string; Value : string }.
End OriginatingIdentity.

Module BindResource.
Record t := mk { AppGUID : option string; Route : option string }.

(** bind_resource_methods.go *)
Definition IsNotEmpty (br : t) : bool :=
  match AppGUID br with
  | Some s => negb (String.eqb s "")
  | None => false
  end
  ||
  match Route br with
  | Some s => negb (String.eqb s "")
  | None => false
  end.
End BindResource.

Module BindingMetadata.
Record t := mk { ExpiresAt : string; RenewBefore : string }.
End BindingMetadata.

Module Endpoint.
(** [Ports] is a [[]uint16], [Protocol] a [*EndpointProtocol]. *)
Record t := mk {
  Host : string;
  Ports : option (list Z);
  Protocol : option string
}.
End Endpoint.

Module VolumeMountDevice.
Record t := mk {
  VolumeID : option string;
  MountConfig : option (gmap string JSON)
}.
End VolumeMountDevice.

Module VolumeMount.
Record t := mk {
  Driver : option string;
  ContainerDir : option string;
  Mode : option string;
  DeviceType : option string;
  Device : option VolumeMountDevice.t
}.
End VolumeMount.

Module BindResponse.
Record t := mk {
  Async : bool;
  Credentials : option (gmap string JSON);
  SyslogDrainURL : option string;
  RouteServiceURL : option string;
  VolumeMounts : option (list VolumeMount.t);
  Endpoints : option (list Endpoint.t);
  Metadata : option BindingMetadata.t;
  OperationKey : option OperationKey
}.

(** The zero value, [BindResponse{}]. *)
Definition zero : t := mk false None None None None None None None.

(** [r.Endpoints = v] *)
Definition set_Endpoints (v : option (list Endpoint.t)) (r : t) : t :=
  mk (Async r) (Credentials r) (SyslogDrainURL r) (RouteServiceURL r)
     (VolumeMounts r) v (Metadata r) (OperationKey r).

(** [r.Async = v] *)
Definition set_Async (v : bool) (r : t) : t :=
  mk v (Credentials r) (SyslogDrainURL r) (RouteServiceURL r)
     (VolumeMounts r) (Endpoints r) (Metadata r) (OperationKey r).
End BindResponse.

Module RotateBindingRequest.
Record t := mk {
  InstanceID : string;
  BindingID : string;
  AcceptsIncomplete : bool;
  PredecessorBindingID : string;
  OriginatingIdentity : option OriginatingIdentity.t
}.
End RotateBindingRequest.

(** The request of [RotateBinding] is sent with this body. *)
Module rotateBindingRequestBody.
Record t := mk { PredecessorBindingId : option string }.
End rotateBindingRequestBody.

(** Modelled from the spec: the struct [bindSuccessResponseBody], which
    [RotateBinding] decodes a 202 answer into, is declared outside the
    files embedded here.  The spec calls it "the accepted-response shape
    (credentials/attributes plus an optional operation token)"; its
    fields are the ones [RotateBinding] reads, with the types of the
    [BindResponse] fields they are copied to. *)
Module bindSuccessResponseBody.
Record t := mk {
  Credentials : option (gmap string JSON);
  SyslogDrainURL : option string;
  RouteServiceURL : option string;
  VolumeMounts : option (list VolumeMount.t);
  Endpoints : option (list Endpoint.t);
  Metadata : option BindingMetadata.t;
  Operation : option string
}.
End bindSuccessResponseBody.

(** ** net/http: requests, responses and the network *)
Module http.
(** A request as the client shapes it: [URL] is the string handed to
    [http.NewRequest], [Query] the parameters the client sets on it,
    [Header] the headers set with [Header.Set] (one value per name). *)
Record Request := mkRequest {
  Method : string;
  URL : string;
  Header : gmap string string;
  Query : gmap string string;
  Body : option string
}.

(** [ResponseBody] is what reading the body to its end gives. *)
Record Response := mkResponse {
  StatusCode : Z;
  ResponseBody : error + string
}.

Definition MethodPut := "PUT".
Definition StatusOK : Z := 200.
Definition StatusCreated : Z := 201.
Definition StatusAccepted : Z := 202.

(** [http.Client], as far as [NewClient] configures it. *)
Record Config := mkConfig {
  InsecureSkipVerify : bool;
  RootCAs : option (list string)
}.
Record Client := mkClient { Timeout : Z; TLSClientConfig : Config }.
End http.

(** The world outside the client: the broker at the other end of the
    transport, which answers a request knowing the requests sent before
    it; the requests sent so far; and the supply of random UUIDs. *)
Record World := mkWorld {
  network : list http.Request -> http.Request -> error + http.Response;
  sent : list http.Request;
  uuids : nat -> string;
  drawn : nat
}.

(** Computations that act on the world. *)
Definition IO (A : Type) : Type := World -> A * World.

Definition ret {A} (a : A) : IO A := fun w => (a, w).

Definition bind {A B} (m : IO A) (k : A -> IO B) : IO B :=
  fun w => let (a, w') := m w in k a w'.

Notation "x <- m ;; k" := (bind m (fun x => k))
  (at level 100, m at next level, right associativity).

(** [uuid.New().String()] *)
Definition uuid_New : IO string :=
  fun w => (uuids w (drawn w),
            mkWorld (network w) (sent w) (uuids w) (S (drawn w))).

(** [httpClient.Do(request)]: the one place where a request leaves the
    client. *)
Definition httpClient_Do (request : http.Request)
  : IO (error + http.Response) :=
  fun w => (network w (sent w) request,
            mkWorld (network w) (sent w ++ [request]) (uuids w) (drawn w)).

(** ** Packages the client imports

    What the client takes from [encoding/json] and [net/http] is a
    parameter of the development:
    - [json_scan]: the syntax check and the scan of a JSON text;
    - [json_quote]: a Go string as a JSON string literal;
    - [json_BindResponse], [json_bindSuccessResponseBody]: the
      reflection-driven decoding of a scanned document into a zero value
      of these two structs;
    - [http_NewRequest]: the check of method and URL that makes
      [http.NewRequest] fail.
    [Module Go] below gives an instance to compute with. *)
Class Packages := {
  json_scan : string -> error + JSON;
  json_quote : string -> string;
  json_BindResponse : JSON -> error + BindResponse.t;
  json_bindSuccessResponseBody : JSON -> error + bindSuccessResponseBody.t;
  http_NewRequest : string -> string -> option error
}.

(** ** fmt, strings, strconv *)

Definition dquote : string := String (ascii_of_nat 34) "".
Definition backslash : ascii := ascii_of_nat 92.

(** [fmt.Sprintf] for formats whose verbs are [%s] and [%v] and whose
    operands are strings; an operand too few prints as Go prints it. *)
Fixpoint Sprintf (format : string) (args : list string) : string :=
  match format with
  | "" => ""
  | String "%" (String v rest) =>
      if (Ascii.eqb v "s" || Ascii.eqb v "v")%bool then
        match args with
        | a :: args' => a ++ Sprintf rest args'
        | [] => "%!" ++ String v "(MISSING)" ++ Sprintf rest []
        end
      else String "%" (String v (Sprintf rest args))
  | String c rest => String c (Sprintf rest args)
  end.

Fixpoint string_mem (c : ascii) (s : string) : bool :=
  match s with
  | "" => false
  | String d rest => Ascii.eqb c d || string_mem c rest
  end.

(** [strings.TrimRight], for a cutset of ASCII characters. *)
Fixpoint TrimRight (s cutset : string) : string :=
  match s with
  | "" => ""
  | String c rest =>
      match TrimRight rest cutset with
      | "" => if string_mem c cutset then "" else String c ""
      | r => String c r
      end
  end.

(** [strconv.Itoa] *)
Definition Itoa (n : Z) : string :=
  DecimalString.NilZero.string_of_int (Z.to_int n).

(** ** encoding/base64: [StdEncoding] *)
Module base64.
Definition encodeStd : string :=
  "ABCDEFGHIJKLMNOPQRSTUVWXYZabcdefghijklmnopqrstuvwxyz0123456789+/".
Definition StdPadding : ascii := "=".

(** [uint(b)] and [byte(v)] *)
Definition uint (b : ascii) : Z := Z.of_N (N_of_ascii b).
Definition byte (v : Z) : ascii := ascii_of_N (Z.to_N (Z.land v 255)).

(** [enc.encode[i]] *)
Definition encode (i : Z) : ascii :=
  match String.get (Z.to_nat i) encodeStd with
  | Some c => c
  | None => Ascii.zero
  end.

Fixpoint index_from (i : Z) (c : ascii) (s : string) : option Z :=
  match s with
  | "" => None
  | String d rest =>
      if Ascii.eqb c d then Some i else index_from (i + 1) c rest
  end.

(** [enc.decodeMap[c]], [None] where the table holds 0xFF *)
Definition decodeMap (c : ascii) : option Z := index_from 0 c encodeStd.

(** [StdEncoding.EncodeToString] *)
Fixpoint EncodeToString (src : string) : string :=
  match src with
  | "" => ""
  | String b0 (String b1 (String b2 rest)) =>
      let val :=
        Z.lor (Z.lor (Z.shiftl (uint b0) 16) (Z.shiftl (uint b1) 8))
              (uint b2) in
      String (encode (Z.land (Z.shiftr val 18) 63))
        (String (encode (Z.land (Z.shiftr val 12) 63))
          (String (encode (Z.land (Z.shiftr val 6) 63))
            (String (encode (Z.land val 63))
              (EncodeToString rest))))
  | String b0 (String b1 "") =>
      let val := Z.lor (Z.shiftl (uint b0) 16) (Z.shiftl (uint b1) 8) in
      String (encode (Z.land (Z.shiftr val 18) 63))
        (String (encode (Z.land (Z.shiftr val 12) 63))
          (String (encode (Z.land (Z.shiftr val 6) 63))
            (String StdPadding "")))
  | String b0 "" =>
      let val := Z.shiftl (uint b0) 16 in
      String (encode (Z.land (Z.shiftr val 18) 63))
        (String (encode (Z.land (Z.shiftr val 12) 63))
          (String StdPadding (String StdPadding "")))
  end.

Fixpoint drop_newlines (s : string) : string :=
  match s with
  | "" => ""
  | String c rest =>
      if (Ascii.eqb c (ascii_of_nat 10) || Ascii.eqb c (ascii_of_nat 13))%bool
      then drop_newlines rest
      else String c (drop_newlines rest)
  end.

(** The quanta of four characters, the last one possibly padded. *)
Fixpoint decode_quanta (s : string) : option string :=
  match s with
  | "" => Some ""
  | String c0 (String c1 (String c2 (String c3 rest))) =>
      match decodeMap c0, decodeMap c1 with
      | Some d0, Some d1 =>
          if Ascii.eqb c2 StdPadding then
            if (Ascii.eqb c3 StdPadding && String.eqb rest "")%bool then
              let val := Z.lor (Z.shiftl d0 18) (Z.shiftl d1 12) in
              Some (String (byte (Z.shiftr val 16)) "")
            else None
          else
            match decodeMap c2 with
            | Some d2 =>
                if Ascii.eqb c3 StdPadding then
                  if String.eqb rest "" then
                    let val :=
                      Z.lor (Z.lor (Z.shiftl d0 18) (Z.shiftl d1 12))
                            (Z.shiftl d2 6) in
                    Some (String (byte (Z.shiftr val 16))
                           (String (byte (Z.shiftr val 8)) ""))
                  else None
                else
                  match decodeMap c3 with
                  | Some d3 =>
                      let val :=
                        Z.lor (Z.lor (Z.lor (Z.shiftl d0 18)
                                            (Z.shiftl d1 12))
                                     (Z.shiftl d2 6)) d3 in
                      match decode_quanta rest with
                      | Some out =>
                          Some (String (byte (Z.shiftr val 16))
                                 (String (byte (Z.shiftr val 8))
                                   (String (byte val) out)))
                      | None => None
                      end
                  | None => None
                  end
            | None => None
            end
      | _, _ => None
      end
  | _ => None
  end.

(** [StdEncoding.DecodeString]; [None] is a [CorruptInputError].
    Carriage returns and line feeds are skipped. *)
Definition DecodeString (s : string) : option string :=
  decode_quanta (drop_newlines s).
End base64.

(** [strings.Split(s, sep)] for a separator of one byte *)
Fixpoint Split (s : string) (sep : ascii) : list string :=
  match s with
  | "" => [""]
  | String c rest =>
      if Ascii.eqb c sep then "" :: Split rest sep
      else match Split rest sep with
           | field :: fields => String c field :: fields
           | [] => [String c ""]
           end
  end.

(** ** The [Error] method of the error values *)

(** Modelled from the spec: the [Error] methods of [HTTPStatusCodeError]
    and [OperationNotAllowedError] are declared outside the files
    embedded here; the wording is the one that rotate_binding_test.go
    and the test of GetInstance expect ("Status: 202; ErrorMessage:
    <nil>; Description: <nil>; ResponseError: <nil>" and "operation not
    allowed: must have API version >= 2.14. Current: 2.13").  The
    message of an [UnmarshalTypeError] is given without the struct field
    that Go adds to it. *)
Fixpoint Error (e : error) : string :=
  match e with
  | errorString msg => msg
  | SyntaxError msg => msg
  | UnmarshalTypeError value type =>
      "json: cannot unmarshal " ++ value ++ " into Go value of type " ++ type
  | OperationNotAllowedError reason => "operation not allowed: " ++ reason
  | HTTPStatusCodeError StatusCode ErrorMessage Description ResponseError =>
      "Status: " ++ Itoa StatusCode
      ++ "; ErrorMessage: " ++ default "<nil>" ErrorMessage
      ++ "; Description: " ++ default "<nil>" Description
      ++ "; ResponseError: "
      ++ match ResponseError with
         | Some err => Error err
         | None => "<nil>"
         end
  end.

(** Modelled from the spec: the function [required] is declared outside
    the files embedded here.  It makes the error of a missing field
    ("absence fails with a MissingRequiredField error naming the
    field"), whose message rotate_binding_test.go expects to be
    "instanceID is required" for the field instanceID. *)
Definition required (name : string) : error :=
  errorString (Sprintf "%v is required" [name]).

(** ** client.go *)

Definition APIVersionHeader := "X-Broker-API-Version".
Definition OriginatingIdentityHeader := "X-Broker-API-Originating-Identity".
Definition RequestIdentityheader := "X-Broker-API-Request-Identity".
Definition PollingDelayHeader := "Retry-After".

Definition catalogURL := "%s/v2/catalog".
Definition serviceInstanceURLFmt := "%s/v2/service_instances/%s".
Definition lastOperationURLFmt := "%s/v2/service_instances/%s/last_operation".
Definition bindingLastOperationURLFmt :=
  "%s/v2/service_instances/%s/service_bindings/%s/last_operation".
Definition bindingURLFmt := "%s/v2/service_instances/%s/service_bindings/%s".

Definition contentType := "Content-Type".
Definition jsonType := "application/json".

(** Modelled from the spec: the constant [AcceptsIncomplete], the name of
    the "accept incomplete" query parameter, is declared outside the
    files embedded here; its value is the parameter name of the
    protocol. *)
Definition AcceptsIncomplete := "accepts_incomplete".

Module BasicAuthConfig.
Record t := mk { Username : string; Password : string }.
End BasicAuthConfig.

Module BearerConfig.
Record t := mk { Token : string }.
End BearerConfig.

Module AuthConfig.
Record t := mk {
  BasicAuthConfig : option BasicAuthConfig.t;
  BearerConfig : option BearerConfig.t
}.
End AuthConfig.

(** Modelled from the spec: the struct [ClientConfiguration] ("a
    configuration object supplying base URL, active version, alpha flag,
    credentials, TLS trust material") is declared outside the files
    embedded here; its fields are the ones [NewClient] reads. *)
Module ClientConfiguration.
Record t := mk {
  Name : string;
  URL : string;
  APIVersion : APIVersion.t;
  AuthConfig : option AuthConfig.t;
  TLSConfig : option http.Config;
  Insecure : bool;
  CAData : string;
  TimeoutSeconds : Z;
  EnableAlphaFeatures : bool;
  Verbose : bool
}.
End ClientConfiguration.

(** The struct [client].  Its field [doRequestFunc] is always the method
    [doRequest], which is [httpClient_Do] here. *)
Module client.
Record t := mk {
  Name : string;
  URL : string;
  APIVersion : APIVersion.t;
  AuthConfig : option AuthConfig.t;
  EnableAlphaFeatures : bool;
  Verbose : bool;
  httpClient : http.Client
}.

(** [c.AuthConfig = v] *)
Definition set_AuthConfig (v : option AuthConfig.t) (c : t) : t :=
  mk (Name c) (URL c) (APIVersion c) v (EnableAlphaFeatures c) (Verbose c)
     (httpClient c).
End client.

(** [time.Duration(n) * time.Second] on Go's [int64] *)
Definition seconds (n : Z) : Z :=
  ((n * 1000000000 + 2 ^ 63) mod 2 ^ 64 - 2 ^ 63)%Z.

Definition NewClient (config : ClientConfiguration.t) : error + client.t :=
  let tlsConfig :=
    match ClientConfiguration.TLSConfig config with
    | Some cfg => cfg
    | None => http.mkConfig false None
    end in
  let tlsConfig :=
    if ClientConfiguration.Insecure config
    then http.mkConfig true (http.RootCAs tlsConfig)
    else tlsConfig in
  let tlsConfig :=
    if negb (String.length (ClientConfiguration.CAData config) =? 0)%nat
    then http.mkConfig (http.InsecureSkipVerify tlsConfig)
           (Some (default [] (http.RootCAs tlsConfig)
                  ++ [ClientConfiguration.CAData config])%list)
    else tlsConfig in
  if (http.InsecureSkipVerify tlsConfig
      && bool_decide (http.RootCAs tlsConfig <> None))%bool
  then inl (errorString "Cannot specify root CAs and to skip TLS verification")
  else
    let httpClient :=
      http.mkClient (seconds (ClientConfiguration.TimeoutSeconds config))
                    tlsConfig in
    let c :=
      client.mk (ClientConfiguration.Name config)
                (TrimRight (ClientConfiguration.URL config) "/")
                (ClientConfiguration.APIVersion config)
                None
                (ClientConfiguration.EnableAlphaFeatures config)
                (ClientConfiguration.Verbose config)
                httpClient in
    match ClientConfiguration.AuthConfig config with
    | Some auth =>
        match AuthConfig.BasicAuthConfig auth, AuthConfig.BearerConfig auth with
        | None, None => inl (errorString "Non-nil AuthConfig cannot be empty")
        | Some _, Some _ =>
            inl (errorString
                   "Only one AuthConfig implementation must be set at a time")
        | _, _ => inr (client.set_AuthConfig (Some auth) c)
        end
    | None => inr c
    end.

(** [request.SetBasicAuth(username, password)] sets this value *)
Definition basicAuth (username password : string) : string :=
  "Basic " ++ base64.EncodeToString (username ++ ":" ++ password).

(** [v, ok := m[key].(string)] *)
Definition string_at (m : gmap string JSON) (key : string) : option string :=
  match m !! key with
  | Some (JString s) => Some s
  | _ => None
  end.

(** The kind of a document as [encoding/json] names it in a type error *)
Definition kind_of (doc : JSON) : string :=
  match doc with
  | JNull => "null"
  | JBool _ => "bool"
  | JNumber _ => "number"
  | JString _ => "string"
  | JArray _ => "array"
  | JObject _ => "object"
  end.

(** Decoding a document into a [map[string]interface{}]: the members of
    an object are stored in document order, [null] stores nothing, any
    other document is a type error. *)
Definition json_map (doc : JSON) : error + gmap string JSON :=
  match doc with
  | JObject members =>
      inr (fold_left (fun m kv => <[kv.1 := kv.2]> m) members ∅)
  | JNull => inr ∅
  | _ => inl (UnmarshalTypeError (kind_of doc) "map[string]interface {}")
  end.

Section Client.
Context `{Packages}.

(** [json.Unmarshal(data, obj)], [decode] being the decoding into the
    type of [obj] *)
Definition json_Unmarshal {A} (decode : JSON -> error + A) (data : string)
  : error + A :=
  match json_scan data with
  | inl err => inl err
  | inr doc => decode doc
  end.

Definition isValidJSON (s : string) : option error :=
  match json_Unmarshal (fun _ => inr tt) s with
  | inl err => Some err
  | inr _ => None
  end.

Definition buildOriginatingIdentityHeaderValue
    (i : option OriginatingIdentity.t) : error + string :=
  match i with
  | None => inr ""
  | Some i =>
      if String.eqb (OriginatingIdentity.Platform i) "" then
        inl (errorString "originating identity platform must not be empty")
      else if String.eqb (OriginatingIdentity.Value i) "" then
        inl (errorString "originating identity value must not be empty")
      else
        match isValidJSON (OriginatingIdentity.Value i) with
        | Some err =>
            inl (errorString
                   (Sprintf "originating identity value must be valid JSON: %v"
                            [Error err]))
        | None =>
            let encodedValue :=
              base64.EncodeToString (OriginatingIdentity.Value i) in
            let headerValue :=
              Sprintf "%v %v" [OriginatingIdentity.Platform i; encodedValue] in
            inr headerValue
        end
  end.

Definition validateClientVersionIsAtLeast (c : client.t)
    (version : APIVersion.t) : option error :=
  if negb (APIVersion.AtLeast (client.APIVersion c) version) then
    Some (OperationNotAllowedError
            (Sprintf "must have API version >= %s. Current: %s"
               [APIVersion.String version;
                APIVersion.label (client.APIVersion c)]))
  else None.

Definition unmarshalResponse {A} (c : client.t)
    (decode : JSON -> error + A) (response : http.Response) : error + A :=
  match http.ResponseBody response with
  | inl err => inl err
  | inr body => json_Unmarshal decode body
  end.

Definition handleFailureResponse (c : client.t) (response : http.Response)
  : error :=
  match unmarshalResponse c json_map response with
  | inl err =>
      HTTPStatusCodeError (http.StatusCode response) None None (Some err)
  | inr brokerResponse =>
      HTTPStatusCodeError (http.StatusCode response)
        (string_at brokerResponse "error")
        (string_at brokerResponse "description")
        None
  end.
End Client.

Section Requests.
Context `{Packages}.

(** [prepareAndDo]; [marshal] is [json.Marshal] on the type of [body].
    The headers are set in the order of the source. *)
Definition prepareAndDo {A} (marshal : A -> error + string) (c : client.t)
    (method URL : string) (params : option (gmap string string))
    (body : option A) (originatingIdentity : option OriginatingIdentity.t)
  : IO (error + http.Response) :=
  match
    match body with
    | Some b =>
        match marshal b with
        | inl err => inl err
        | inr bodyBytes => inr (Some bodyBytes)
        end
    | None => inr None
    end
  with
  | inl err => ret (inl err)
  | inr bodyReader =>
      match http_NewRequest method URL with
      | Some err => ret (inl err)
      | None =>
          let header : gmap string string :=
            <[APIVersionHeader :=
                APIVersion.HeaderValue (client.APIVersion c)]> ∅ in
          let header :=
            match bodyReader with
            | Some _ => <[contentType := jsonType]> header
            | None => header
            end in
          let header :=
            match client.AuthConfig c with
            | Some auth =>
                match AuthConfig.BasicAuthConfig auth with
                | Some basic =>
                    <["Authorization" :=
                        basicAuth (BasicAuthConfig.Username basic)
                                  (BasicAuthConfig.Password basic)]> header
                | None =>
                    match AuthConfig.BearerConfig auth with
                    | Some bearer =>
                        <["Authorization" :=
                            "Bearer " ++ BearerConfig.Token bearer]> header
                    | None => header
                    end
                end
            | None => header
            end in
          requestId <- uuid_New ;;
          let header := <[RequestIdentityheader := requestId]> header in
          match
            match originatingIdentity with
            | Some oi =>
                if APIVersion.AtLeast (client.APIVersion c) Version2_13 then
                  match buildOriginatingIdentityHeaderValue (Some oi) with
                  | inl err => inl err
                  | inr headerValue =>
                      inr (<[OriginatingIdentityHeader := headerValue]> header)
                  end
                else inr header
            | None => inr header
            end
          with
          | inl err => ret (inl err)
          | inr header =>
              let query : gmap string string :=
                match params with
                | Some params => params
                | None => ∅
                end in
              httpClient_Do
                (http.mkRequest method URL header query bodyReader)
          end
      end
  end.

(** Modelled from the spec: the operations that are gated on a protocol
    version (GetInstance and the like) are declared outside the files
    embedded here.  "Version gating: if the operation itself requires a
    minimum version higher than the active version, fail with
    OperationNotAllowed naming the required and actual versions, before
    any network I/O."  The operation's own error wraps the message of
    the version check, as in the message the tests expect of
    GetInstance; [operation] is what it does once the check passed. *)
Definition versionGated {A} (c : client.t) (version : APIVersion.t)
    (notAllowed : string -> error) (operation : IO (error + A))
  : IO (error + A) :=
  match validateClientVersionIsAtLeast c version with
  | Some err => ret (inl (notAllowed (Error err)))
  | None => operation
  end.

(** ** rotate_binding.go *)

(** [json.Marshal] of the request body *)
Definition marshal_rotateBindingRequestBody
    (b : rotateBindingRequestBody.t) : error + string :=
  inr ("{" ++ dquote ++ "predecessor_binding_id" ++ dquote ++ ":"
       ++ match rotateBindingRequestBody.PredecessorBindingId b with
          | Some s => json_quote s
          | None => "null"
          end
       ++ "}").

Definition validateRotateBindingRequest (request : RotateBindingRequest.t)
  : option error :=
  if String.eqb (RotateBindingRequest.InstanceID request) "" then
    Some (required "instanceID")
  else if String.eqb (RotateBindingRequest.BindingID request) "" then
    Some (required "serviceID")
  else if String.eqb (RotateBindingRequest.PredecessorBindingID request) ""
  then Some (required "predecessorBindingID")
  else None.

(** The [switch] on the status code of the response *)
Definition rotateBindingResult (c : client.t) (r : RotateBindingRequest.t)
    (response : http.Response) : error + BindResponse.t :=
  let status := http.StatusCode response in
  if ((status =? http.StatusOK) || (status =? http.StatusCreated))%Z then
    match unmarshalResponse c json_BindResponse response with
    | inl err => inl (HTTPStatusCodeError status None None (Some err))
    | inr userResponse =>
        let userResponse :=
          if negb (client.EnableAlphaFeatures c)
          then BindResponse.set_Endpoints None userResponse
          else userResponse in
        inr userResponse
    end
  else if (status =? http.StatusAccepted)%Z then
    if negb (RotateBindingRequest.AcceptsIncomplete r) then
      inl (handleFailureResponse c response)
    else
      match unmarshalResponse c json_bindSuccessResponseBody response with
      | inl err => inl (HTTPStatusCodeError status None None (Some err))
      | inr responseBodyObj =>
          let opPtr : option OperationKey :=
            match bindSuccessResponseBody.Operation responseBodyObj with
            | Some opStr => Some opStr
            | None => None
            end in
          let userResponse :=
            BindResponse.mk false
              (bindSuccessResponseBody.Credentials responseBodyObj)
              (bindSuccessResponseBody.SyslogDrainURL responseBodyObj)
              (bindSuccessResponseBody.RouteServiceURL responseBodyObj)
              (bindSuccessResponseBody.VolumeMounts responseBodyObj)
              (bindSuccessResponseBody.Endpoints responseBodyObj)
              (bindSuccessResponseBody.Metadata responseBodyObj)
              opPtr in
          let userResponse :=
            if (status =? http.StatusAccepted)%Z
            then BindResponse.set_Async true userResponse
            else userResponse in
          inr userResponse
      end
  else inl (handleFailureResponse c response).

Definition RotateBinding (c : client.t) (r : RotateBindingRequest.t)
  : IO (error + BindResponse.t) :=
  match validateRotateBindingRequest r with
  | Some err => ret (inl err)
  | None =>
      let fullURL :=
        Sprintf bindingURLFmt
          [client.URL c; RotateBindingRequest.InstanceID r;
           RotateBindingRequest.BindingID r] in
      let params : gmap string string :=
        if RotateBindingRequest.AcceptsIncomplete r
        then <[AcceptsIncomplete := "true"]> ∅
        else ∅ in
      let requestBody :=
        rotateBindingRequestBody.mk
          (Some (RotateBindingRequest.PredecessorBindingID r)) in
      response <-
        prepareAndDo marshal_rotateBindingRequestBody c http.MethodPut
          fullURL (Some params) (Some requestBody)
          (RotateBindingRequest.OriginatingIdentity r) ;;
      match response with
      | inl err => ret (inl err)
      | inr response => ret (rotateBindingResult c r response)
      end
  end.
End Requests.

(** ** An instance of the imported packages

    A scanner for JSON texts, the decoding of a document into the two
    response structs by their [json] tags, the quoting of a string and a
    check of request URLs, to compute what the client does on given
    inputs.  Where they fall short of the Go packages is said at each
    definition. *)
Module Go.
Definition eof : error := SyntaxError "unexpected end of JSON input".

(** Go's message goes on with where the character was met. *)
Definition invalid (c : ascii) : error :=
  SyntaxError ("invalid character '" ++ String c "'").

Definition ok_map {A B} (f : A -> B) (r : error + A) : error + B :=
  match r with
  | inl err => inl err
  | inr a => inr (f a)
  end.

Definition ok_bind {A B} (r : error + A) (f : A -> error + B) : error + B :=
  match r with
  | inl err => inl err
  | inr a => f a
  end.

Definition code (c : ascii) : Z := Z.of_N (N_of_ascii c).
Definition char (z : Z) : ascii := ascii_of_N (Z.to_N z).

Definition is_space (c : ascii) : bool :=
  ((code c =? 32) || (code c =? 9) || (code c =? 10) || (code c =? 13))%Z.

Definition is_digit (c : ascii) : bool :=
  ((48 <=? code c) && (code c <=? 57))%Z.

Fixpoint skip_space (s : string) : string :=
  match s with
  | String c rest => if is_space c then skip_space rest else s
  | "" => ""
  end.

Fixpoint span_digits (s : string) : string * string :=
  match s with
  | String c rest =>
      if is_digit c
      then let (digits, r) := span_digits rest in (String c digits, r)
      else ("", s)
  | "" => ("", "")
  end.

(** One digit at least *)
Definition scan_digits (s : string) : error + (string * string) :=
  match span_digits s with
  | ("", "") => inl eof
  | ("", String c _) => inl (invalid c)
  | found => inr found
  end.

Definition scan_int (s : string) : error + (string * string) :=
  match s with
  | "" => inl eof
  | String c rest =>
      if Ascii.eqb c "0" then inr ("0", rest)
      else if is_digit c
      then let (digits, r) := span_digits rest in inr (String c digits, r)
      else inl (invalid c)
  end.

Definition scan_frac (s : string) : error + (string * string) :=
  match s with
  | String "." rest =>
      ok_map (fun found => (String "." found.1, found.2)) (scan_digits rest)
  | _ => inr ("", s)
  end.

Definition scan_exp (s : string) : error + (string * string) :=
  match s with
  | String e rest =>
      if (Ascii.eqb e "e" || Ascii.eqb e "E")%bool then
        let (sign, rest) :=
          match rest with
          | String sg r =>
              if (Ascii.eqb sg "+" || Ascii.eqb sg "-")%bool
              then (String sg "", r)
              else ("", rest)
          | "" => ("", "")
          end in
        ok_map (fun found => (String e (sign ++ found.1), found.2))
               (scan_digits rest)
      else inr ("", s)
  | "" => inr ("", "")
  end.

(** A number literal and what follows it *)
Definition scan_number (s : string) : error + (string * string) :=
  let (sign, s) :=
    match s with
    | String "-" r => ("-", r)
    | _ => ("", s)
    end in
  ok_bind (scan_int s) (fun i =>
  ok_bind (scan_frac i.2) (fun f =>
  ok_bind (scan_exp f.2) (fun e =>
  inr (sign ++ i.1 ++ f.1 ++ e.1, e.2)))).

(** The rest of a literal such as [true], whose first character was
    read *)
Fixpoint expect (literal s : string) : error + string :=
  match literal with
  | "" => inr s
  | String l literal =>
      match s with
      | "" => inl eof
      | String c rest =>
          if Ascii.eqb c l then expect literal rest else inl (invalid c)
      end
  end.

(** What a string literal holds: bytes, and UTF-16 code units written
    as [\uXXXX] *)
Inductive piece := Byte (c : ascii) | Unit16 (u : Z).

Definition hex_val (c : ascii) : option Z :=
  let n := code c in
  if ((48 <=? n) && (n <=? 57))%Z then Some (n - 48)%Z
  else if ((97 <=? n) && (n <=? 102))%Z then Some (n - 87)%Z
  else if ((65 <=? n) && (n <=? 70))%Z then Some (n - 55)%Z
  else None.

Definition escape (e : ascii) : option ascii :=
  if Ascii.eqb e (ascii_of_nat 34) then Some (ascii_of_nat 34)
  else if Ascii.eqb e backslash then Some backslash
  else if Ascii.eqb e "/" then Some "/"%char
  else if Ascii.eqb e "b" then Some (ascii_of_nat 8)
  else if Ascii.eqb e "f" then Some (ascii_of_nat 12)
  else if Ascii.eqb e "n" then Some (ascii_of_nat 10)
  else if Ascii.eqb e "r" then Some (ascii_of_nat 13)
  else if Ascii.eqb e "t" then Some (ascii_of_nat 9)
  else None.

(** The characters of a string literal after its opening quote *)
Fixpoint scan_chars (s : string) : error + (list piece * string) :=
  match s with
  | "" => inl eof
  | String c rest =>
      if Ascii.eqb c (ascii_of_nat 34) then inr ([], rest)
      else if Ascii.eqb c backslash then
        match rest with
        | "" => inl eof
        | String e rest =>
            if Ascii.eqb e "u" then
              match rest with
              | String h1 (String h2 (String h3 (String h4 rest))) =>
                  match hex_val h1, hex_val h2, hex_val h3, hex_val h4 with
                  | Some d1, Some d2, Some d3, Some d4 =>
                      ok_map
                        (fun found =>
                           (Unit16 (((d1 * 16 + d2) * 16 + d3) * 16 + d4)%Z
                              :: found.1, found.2))
                        (scan_chars rest)
                  | None, _, _, _ => inl (invalid h1)
                  | _, None, _, _ => inl (invalid h2)
                  | _, _, None, _ => inl (invalid h3)
                  | _, _, _, None => inl (invalid h4)
                  end
              | _ => inl eof
              end
            else
              match escape e with
              | Some b =>
                  ok_map (fun found => (Byte b :: found.1, found.2))
                         (scan_chars rest)
              | None => inl (invalid e)
              end
        end
      else if (code c <? 32)%Z then inl (invalid c)
      else ok_map (fun found => (Byte c :: found.1, found.2))
                  (scan_chars rest)
  end.

(** UTF-8 of a code point *)
Definition utf8 (cp : Z) : string :=
  if (cp <? 128)%Z then String (char cp) ""
  else if (cp <? 2048)%Z then
    String (char (192 + cp / 64)) (String (char (128 + cp mod 64)) "")
  else if (cp <? 65536)%Z then
    String (char (224 + cp / 4096))
      (String (char (128 + (cp / 64) mod 64))
        (String (char (128 + cp mod 64)) ""))
  else
    String (char (240 + cp / 262144))
      (String (char (128 + (cp / 4096) mod 64))
        (String (char (128 + (cp / 64) mod 64))
          (String (char (128 + cp mod 64)) ""))).

Definition is_high (u : Z) : bool := ((55296 <=? u) && (u <? 56320))%Z.
Definition is_low (u : Z) : bool := ((56320 <=? u) && (u <? 57344))%Z.

(** The Go string of a literal: a surrogate pair is one code point, a
    lone surrogate the replacement character.  Bytes that are not
    UTF-8 are kept, where Go replaces them. *)
Fixpoint unquote (us : list piece) : string :=
  match us with
  | [] => ""
  | Byte c :: rest => String c (unquote rest)
  | Unit16 u :: rest =>
      if is_high u then
        match rest with
        | Unit16 lo :: rest' =>
            if is_low lo
            then utf8 (65536 + (u - 55296) * 1024 + (lo - 56320))
                 ++ unquote rest'
            else utf8 65533 ++ unquote rest
        | _ => utf8 65533 ++ unquote rest
        end
      else if is_low u then utf8 65533 ++ unquote rest
      else utf8 u ++ unquote rest
  end.

Definition depth_exceeded : error := SyntaxError "exceeded max depth".

(** A value, the elements of an array after its bracket and the members
    of an object after its brace, each with the text that follows.  The
    fuel bounds the depth of the calls. *)
Fixpoint scan_value (fuel : nat) (s : string)
  : error + (JSON * string) :=
  match fuel with
  | O => inl depth_exceeded
  | S fuel =>
      match skip_space s with
      | "" => inl eof
      | String c rest =>
          if Ascii.eqb c "{" then
            match skip_space rest with
            | String "}" rest' => inr (JObject [], rest')
            | _ =>
                ok_map (fun found => (JObject found.1, found.2))
                       (scan_members fuel rest)
            end
          else if Ascii.eqb c "[" then
            match skip_space rest with
            | String "]" rest' => inr (JArray [], rest')
            | _ =>
                ok_map (fun found => (JArray found.1, found.2))
                       (scan_elements fuel rest)
            end
          else if Ascii.eqb c (ascii_of_nat 34) then
            ok_map (fun found => (JString (unquote found.1), found.2))
                   (scan_chars rest)
          else if Ascii.eqb c "t" then
            ok_map (fun rest' => (JBool true, rest')) (expect "rue" rest)
          else if Ascii.eqb c "f" then
            ok_map (fun rest' => (JBool false, rest')) (expect "alse" rest)
          else if Ascii.eqb c "n" then
            ok_map (fun rest' => (JNull, rest')) (expect "ull" rest)
          else if (Ascii.eqb c "-" || is_digit c)%bool then
            ok_map (fun found => (JNumber found.1, found.2))
                   (scan_number (String c rest))
          else inl (invalid c)
      end
  end
with scan_elements (fuel : nat) (s : string)
  : error + (list JSON * string) :=
  match fuel with
  | O => inl depth_exceeded
  | S fuel =>
      ok_bind (scan_value fuel s) (fun elem =>
        match skip_space elem.2 with
        | "" => inl eof
        | String c rest =>
            if Ascii.eqb c "," then
              ok_map (fun found => (elem.1 :: found.1, found.2))
                     (scan_elements fuel rest)
            else if Ascii.eqb c "]" then inr ([elem.1], rest)
            else inl (invalid c)
        end)
  end
with scan_members (fuel : nat) (s : string)
  : error + (list (string * JSON) * string) :=
  match fuel with
  | O => inl depth_exceeded
  | S fuel =>
      match skip_space s with
      | "" => inl eof
      | String c rest =>
          if Ascii.eqb c (ascii_of_nat 34) then
            ok_bind (scan_chars rest) (fun key =>
              match skip_space key.2 with
              | "" => inl eof
              | String c rest =>
                  if Ascii.eqb c ":" then
                    ok_bind (scan_value fuel rest) (fun val =>
                      match skip_space val.2 with
                      | "" => inl eof
                      | String c rest =>
                          if Ascii.eqb c "," then
                            ok_map
                              (fun found =>
                                 ((unquote key.1, val.1) :: found.1,
                                  found.2))
                              (scan_members fuel rest)
                          else if Ascii.eqb c "}" then
                            inr ([(unquote key.1, val.1)], rest)
                          else inl (invalid c)
                      end)
                  else inl (invalid c)
              end)
          else inl (invalid c)
      end
  end.

(** A whole text: one value, with white space around it.  Of two
    nested calls one at least reads a character, hence the fuel. *)
Definition scan (s : string) : error + JSON :=
  ok_bind (scan_value (2 * String.length s + 2) s) (fun found =>
    match skip_space found.2 with
    | "" => inr found.1
    | String c _ => inl (invalid c)
    end).

(** *** Decoding into the structs of the package *)

Definition lower (c : ascii) : ascii :=
  if ((65 <=? code c) && (code c <=? 90))%Z then char (code c + 32) else c.

(** A member name as [encoding/json] folds it to find a field: ASCII
    letters without their case, the Kelvin sign as [k], the long s as
    [s]. *)
Fixpoint foldName (s : string) : string :=
  match s with
  | "" => ""
  | String c rest =>
      if (code c =? 197)%Z then
        match rest with
        | String d rest' =>
            if (code d =? 191)%Z then String "s" (foldName rest')
            else String c (foldName rest)
        | "" => String c ""
        end
      else if (code c =? 226)%Z then
        match rest with
        | String d (String e rest') =>
            if ((code d =? 132) && (code e =? 170))%Z
            then String "k" (foldName rest')
            else String c (foldName rest)
        | _ => String c (foldName rest)
        end
      else String (lower c) (foldName rest)
  end.

Definition mismatch {A} (doc : JSON) (type : string) : error + A :=
  inl (UnmarshalTypeError (kind_of doc) type).

(** Into a [string] and a [bool] field, [old] being what it holds *)
Definition into_string (doc : JSON) (old : string) : error + string :=
  match doc with
  | JString s => inr s
  | JNull => inr old
  | _ => mismatch doc "string"
  end.

Definition into_bool (doc : JSON) (old : bool) : error + bool :=
  match doc with
  | JBool b => inr b
  | JNull => inr old
  | _ => mismatch doc "bool"
  end.

(** Into a [*string] *)
Definition into_string_ptr (doc : JSON) : error + option string :=
  match doc with
  | JString s => inr (Some s)
  | JNull => inr None
  | _ => mismatch doc "string"
  end.

(** Into a [map[string]interface{}], which keeps the entries it has *)
Definition into_map (doc : JSON) (old : option (gmap string JSON))
  : error + option (gmap string JSON) :=
  match doc with
  | JObject members =>
      inr (Some (fold_left (fun m kv => <[kv.1 := kv.2]> m) members
                           (default ∅ old)))
  | JNull => inr None
  | _ => mismatch doc "map[string]interface {}"
  end.

Fixpoint each {A B} (f : A -> error + B) (l : list A) : error + list B :=
  match l with
  | [] => inr []
  | a :: l => ok_bind (f a) (fun b => ok_map (cons b) (each f l))
  end.

(** Into a slice, every element decoded into a zero value *)
Definition into_slice {A} (type : string) (elem : JSON -> error + A)
    (doc : JSON) : error + option (list A) :=
  match doc with
  | JArray elems => ok_map Some (each elem elems)
  | JNull => inr None
  | _ => mismatch doc type
  end.

Fixpoint digits_val (acc : Z) (s : string) : option Z :=
  match s with
  | "" => Some acc
  | String c rest =>
      if is_digit c then digits_val (acc * 10 + (code c - 48))%Z rest
      else None
  end.

(** Into a [uint16] *)
Definition into_uint16 (doc : JSON) : error + Z :=
  match doc with
  | JNumber literal =>
      match digits_val 0 literal with
      | Some n =>
          if (n <=? 65535)%Z then inr n
          else inl (UnmarshalTypeError ("number " ++ literal) "uint16")
      | None => inl (UnmarshalTypeError ("number " ++ literal) "uint16")
      end
  | JNull => inr 0%Z
  | _ => mismatch doc "uint16"
  end.

(** Into a struct: the members in document order, each into the field
    its folded name selects, a member of no field skipped; [null]
    leaves the struct as it is. *)
Definition into_struct {T} (type : string)
    (field : string -> option (JSON -> T -> error + T))
    (doc : JSON) (start : T) : error + T :=
  match doc with
  | JObject members =>
      fold_left
        (fun acc kv =>
           ok_bind acc (fun t =>
             match field (foldName kv.1) with
             | Some store => store kv.2 t
             | None => inr t
             end))
        members (inr start)
  | JNull => inr start
  | _ => mismatch doc type
  end.

(** Into a pointer to a struct: [null] is nil, an object goes into the
    struct pointed to, a new one if the pointer is nil. *)
Definition into_struct_ptr {T} (zero : T)
    (decode : JSON -> T -> error + T) (doc : JSON) (old : option T)
  : error + option T :=
  match doc with
  | JNull => inr None
  | _ => ok_map Some (decode doc (default zero old))
  end.

Definition into_BindingMetadata
  : JSON -> BindingMetadata.t -> error + BindingMetadata.t :=
  into_struct "v2.BindingMetadata" (fun name =>
    if String.eqb name "expires_at" then
      Some (fun doc t =>
        ok_map (fun v => BindingMetadata.mk v (BindingMetadata.RenewBefore t))
               (into_string doc (BindingMetadata.ExpiresAt t)))
    else if String.eqb name "renew_before" then
      Some (fun doc t =>
        ok_map (fun v => BindingMetadata.mk (BindingMetadata.ExpiresAt t) v)
               (into_string doc (BindingMetadata.RenewBefore t)))
    else None).

Definition into_Endpoint : JSON -> Endpoint.t -> error + Endpoint.t :=
  into_struct "v2.Endpoint" (fun name =>
    if String.eqb name "host" then
      Some (fun doc t =>
        ok_map (fun v => Endpoint.mk v (Endpoint.Ports t) (Endpoint.Protocol t))
               (into_string doc (Endpoint.Host t)))
    else if String.eqb name "ports" then
      Some (fun doc t =>
        ok_map (fun v => Endpoint.mk (Endpoint.Host t) v (Endpoint.Protocol t))
               (into_slice "[]uint16" into_uint16 doc))
    else if String.eqb name "protocol" then
      Some (fun doc t =>
        ok_map (fun v => Endpoint.mk (Endpoint.Host t) (Endpoint.Ports t) v)
               (into_string_ptr doc))
    else None).

Definition into_VolumeMountDevice
  : JSON -> VolumeMountDevice.t -> error + VolumeMountDevice.t :=
  into_struct "v2.VolumeMountDevice" (fun name =>
    if String.eqb name "volume_id" then
      Some (fun doc t =>
        ok_map (fun v => VolumeMountDevice.mk v (VolumeMountDevice.MountConfig t))
               (into_string_ptr doc))
    else if String.eqb name "mount_config" then
      Some (fun doc t =>
        ok_map (fun v => VolumeMountDevice.mk (VolumeMountDevice.VolumeID t) v)
               (into_map doc (VolumeMountDevice.MountConfig t)))
    else None).

Definition into_VolumeMount
  : JSON -> VolumeMount.t -> error + VolumeMount.t :=
  into_struct "v2.VolumeMount" (fun name =>
    if String.eqb name "driver" then
      Some (fun doc t =>
        ok_map (fun v =>
                  VolumeMount.mk v (VolumeMount.ContainerDir t)
                    (VolumeMount.Mode t) (VolumeMount.DeviceType t)
                    (VolumeMount.Device t))
               (into_string_ptr doc))
    else if String.eqb name "container_dir" then
      Some (fun doc t =>
        ok_map (fun v =>
                  VolumeMount.mk (VolumeMount.Driver t) v
                    (VolumeMount.Mode t) (VolumeMount.DeviceType t)
                    (VolumeMount.Device t))
               (into_string_ptr doc))
    else if String.eqb name "mode" then
      Some (fun doc t =>
        ok_map (fun v =>
                  VolumeMount.mk (VolumeMount.Driver t)
                    (VolumeMount.ContainerDir t) v
                    (VolumeMount.DeviceType t) (VolumeMount.Device t))
               (into_string_ptr doc))
    else if String.eqb name "device_type" then
      Some (fun doc t =>
        ok_map (fun v =>
                  VolumeMount.mk (VolumeMount.Driver t)
                    (VolumeMount.ContainerDir t) (VolumeMount.Mode t) v
                    (VolumeMount.Device t))
               (into_string_ptr doc))
    else if String.eqb name "device" then
      Some (fun doc t =>
        ok_map (fun v =>
                  VolumeMount.mk (VolumeMount.Driver t)
                    (VolumeMount.ContainerDir t) (VolumeMount.Mode t)
                    (VolumeMount.DeviceType t) v)
               (into_struct_ptr (VolumeMountDevice.mk None None)
                  into_VolumeMountDevice doc (VolumeMount.Device t)))
    else None).

Definition zero_VolumeMount := VolumeMount.mk None None None None None.
Definition zero_Endpoint := Endpoint.mk "" None None.
Definition zero_BindingMetadata := BindingMetadata.mk "" "".

Definition into_BindResponse
  : JSON -> BindResponse.t -> error + BindResponse.t :=
  into_struct "v2.BindResponse" (fun name =>
    if String.eqb name "async" then
      Some (fun doc '(BindResponse.mk a c s r v e m o) =>
        ok_map (fun x => BindResponse.mk x c s r v e m o) (into_bool doc a))
    else if String.eqb name "credentials" then
      Some (fun doc '(BindResponse.mk a c s r v e m o) =>
        ok_map (fun x => BindResponse.mk a x s r v e m o) (into_map doc c))
    else if String.eqb name "syslog_drain_url" then
      Some (fun doc '(BindResponse.mk a c s r v e m o) =>
        ok_map (fun x => BindResponse.mk a c x r v e m o)
               (into_string_ptr doc))
    else if String.eqb name "route_service_url" then
      Some (fun doc '(BindResponse.mk a c s r v e m o) =>
        ok_map (fun x => BindResponse.mk a c s x v e m o)
               (into_string_ptr doc))
    else if String.eqb name "volume_mounts" then
      Some (fun doc '(BindResponse.mk a c s r v e m o) =>
        ok_map (fun x => BindResponse.mk a c s r x e m o)
               (into_slice "[]v2.VolumeMount"
                  (fun d => into_VolumeMount d zero_VolumeMount) doc))
    else if String.eqb name "endpoints" then
      Some (fun doc '(BindResponse.mk a c s r v e m o) =>
        ok_map (fun x => BindResponse.mk a c s r v x m o)
               (into_slice "[]v2.Endpoint"
                  (fun d => into_Endpoint d zero_Endpoint) doc))
    else if String.eqb name "metadata" then
      Some (fun doc '(BindResponse.mk a c s r v e m o) =>
        ok_map (fun x => BindResponse.mk a c s r v e x o)
               (into_struct_ptr zero_BindingMetadata into_BindingMetadata
                  doc m))
    else if String.eqb name "operation" then
      Some (fun doc '(BindResponse.mk a c s r v e m o) =>
        ok_map (fun x => BindResponse.mk a c s r v e m x)
               (into_string_ptr doc))
    else None).

(** The fields of [bindSuccessResponseBody] are taken to carry the
    tags of the [BindResponse] fields they are copied to. *)
Definition into_bindSuccessResponseBody
  : JSON -> bindSuccessResponseBody.t -> error + bindSuccessResponseBody.t :=
  into_struct "v2.bindSuccessResponseBody" (fun name =>
    if String.eqb name "credentials" then
      Some (fun doc '(bindSuccessResponseBody.mk c s r v e m o) =>
        ok_map (fun x => bindSuccessResponseBody.mk x s r v e m o)
               (into_map doc c))
    else if String.eqb name "syslog_drain_url" then
      Some (fun doc '(bindSuccessResponseBody.mk c s r v e m o) =>
        ok_map (fun x => bindSuccessResponseBody.mk c x r v e m o)
               (into_string_ptr doc))
    else if String.eqb name "route_service_url" then
      Some (fun doc '(bindSuccessResponseBody.mk c s r v e m o) =>
        ok_map (fun x => bindSuccessResponseBody.mk c s x v e m o)
               (into_string_ptr doc))
    else if String.eqb name "volume_mounts" then
      Some (fun doc '(bindSuccessResponseBody.mk c s r v e m o) =>
        ok_map (fun x => bindSuccessResponseBody.mk c s r x e m o)
               (into_slice "[]v2.VolumeMount"
                  (fun d => into_VolumeMount d zero_VolumeMount) doc))
    else if String.eqb name "endpoints" then
      Some (fun doc '(bindSuccessResponseBody.mk c s r v e m o) =>
        ok_map (fun x => bindSuccessResponseBody.mk c s r v x m o)
               (into_slice "[]v2.Endpoint"
                  (fun d => into_Endpoint d zero_Endpoint) doc))
    else if String.eqb name "metadata" then
      Some (fun doc '(bindSuccessResponseBody.mk c s r v e m o) =>
        ok_map (fun x => bindSuccessResponseBody.mk c s r v e x o)
               (into_struct_ptr zero_BindingMetadata into_BindingMetadata
                  doc m))
    else if String.eqb name "operation" then
      Some (fun doc '(bindSuccessResponseBody.mk c s r v e m o) =>
        ok_map (fun x => bindSuccessResponseBody.mk c s r v e m x)
               (into_string_ptr doc))
    else None).

(** *** Quoting a string *)

Definition hex_digit (n : Z) : ascii :=
  if (n <? 10)%Z then char (48 + n) else char (87 + n).

Definition u00 (c : ascii) : string :=
  String backslash "u00" ++ String (hex_digit (code c / 16))
              (String (hex_digit (code c mod 16)) "").

(** The characters [encoding/json] escapes: the quote, the backslash,
    the control characters, and [<], [>] and [&].  Bytes that are not
    UTF-8 and the two Unicode line separators are kept, where Go
    escapes them. *)
Fixpoint quote_chars (s : string) : string :=
  match s with
  | "" => ""
  | String c rest =>
      (if Ascii.eqb c (ascii_of_nat 34) then String backslash dquote
       else if Ascii.eqb c backslash then String backslash (String backslash "")
       else if (code c =? 10)%Z then String backslash "n"
       else if (code c =? 13)%Z then String backslash "r"
       else if (code c =? 9)%Z then String backslash "t"
       else if ((code c <? 32) || Ascii.eqb c "<" || Ascii.eqb c ">"
                || Ascii.eqb c "&")%Z%bool then u00 c
       else String c "")
      ++ quote_chars rest
  end.

Definition quote (s : string) : string := dquote ++ quote_chars s ++ dquote.

(** *** Requests *)

Fixpoint escapes_ok (s : string) : bool :=
  match s with
  | "" => true
  | String c rest =>
      if Ascii.eqb c "%" then
        match rest with
        | String h1 (String h2 rest') =>
            match hex_val h1, hex_val h2 with
            | Some _, Some _ => escapes_ok rest'
            | _, _ => false
            end
        | _ => false
        end
      else escapes_ok rest
  end.

Fixpoint has_control (s : string) : bool :=
  match s with
  | "" => false
  | String c rest => ((code c <? 32) || (code c =? 127))%Z || has_control rest
  end.

(** [http.NewRequest] fails on a URL with a control character or a
    malformed percent escape; what else [net/url] rejects is not
    looked for. *)
Definition NewRequest (method URL : string) : option error :=
  if has_control URL then
    Some (errorString "net/url: invalid control character in URL")
  else if negb (escapes_ok URL) then
    Some (errorString "invalid URL escape")
  else None.
End Go.

#[export] Instance Go_packages : Packages := {|
  json_scan := Go.scan;
  json_quote := Go.quote;
  json_BindResponse := fun doc => Go.into_BindResponse doc BindResponse.zero;
  json_bindSuccessResponseBody := fun doc =>
    Go.into_bindSuccessResponseBody doc
      (bindSuccessResponseBody.mk None None None None None None None);
  http_NewRequest := Go.NewRequest
|}.

(** A JSON text written with apostrophes for its double quotes *)
Fixpoint js (s : string) : string :=
  match s with
  | "" => ""
  | String c rest =>
      String (if Ascii.eqb c "'" then ascii_of_nat 34 else c) (js rest)
  end.

(** ** client.go: drainReader, over a model of package io *)

Module io.
(** A reader: the bytes it has still to give and, once they are given,
    what it answers, the end of the data ([None]) or an error. *)
Record Reader := mkReader { pending : string; fault : option error }.

(** What a [Read] reports with the bytes: no error, [io.EOF], or another
    error *)
Inductive status := more | EOF | failed (err : error).

Fixpoint take_bytes (n : nat) (s : string) : string :=
  match n, s with
  | S n, String c rest => String c (take_bytes n rest)
  | _, _ => ""
  end.

Fixpoint drop_bytes (n : nat) (s : string) : string :=
  match n, s with
  | S n, String _ rest => drop_bytes n rest
  | _, _ => s
  end.

(** [r.Read(p)] for a buffer of [size] bytes: the reader gives what it
    has, up to the size of the buffer. *)
Definition Read (r : Reader) (size : nat) : (string * status) * Reader :=
  if (size =? 0)%nat then (("", more), r)
  else
    match pending r with
    | "" =>
        (("", match fault r with
              | Some err => failed err
              | None => EOF
              end), r)
    | _ =>
        ((take_bytes size (pending r), more),
         mkReader (drop_bytes size (pending r)) (fault r))
    end.

(** [io.LimitReader(r, n)] *)
Record LimitedReader := mkLimitedReader { R : Reader; N : Z }.

Definition LimitReader (r : Reader) (n : Z) : LimitedReader :=
  mkLimitedReader r n.

(** The method [Read] of a [LimitedReader] *)
Definition LimitedReader_Read (l : LimitedReader) (size : nat)
  : (string * status) * LimitedReader :=
  if (N l <=? 0)%Z then (("", EOF), l)
  else
    let size := if (N l <? Z.of_nat size)%Z then Z.to_nat (N l) else size in
    let '((data, st), r) := Read (R l) size in
    ((data, st), mkLimitedReader r (N l - Z.of_nat (String.length data))).

(** [io.Copy(io.Discard, src)], which is the method [ReadFrom] of
    [io.Discard]: it reads into a buffer of 8192 bytes until a read
    reports an error, and returns that error unless it is [io.EOF].
    [fuel] bounds the number of reads, [n] counts the bytes. *)
Fixpoint Copy_Discard (fuel : nat) (src : LimitedReader) (n : Z)
  : option ((Z * option error) * LimitedReader) :=
  match fuel with
  | O => None
  | S fuel =>
      let '((data, st), src) := LimitedReader_Read src (Z.to_nat 8192) in
      let n := (n + Z.of_nat (String.length data))%Z in
      match st with
      | more => Copy_Discard fuel src n
      | EOF => Some ((n, None), src)
      | failed err => Some ((n, Some err), src)
      end
  end.
End io.

(** [drainReader]: the error of the drain and the reader as the drain
    leaves it.  A read that reports no error gives a byte at least, so
    the reads are no more than the pending bytes and two; [None] would
    be a lack of fuel. *)
Definition drainReader (reader : option io.Reader)
  : option (option error * option io.Reader) :=
  match reader with
  | None => Some (None, None)
  | Some reader =>
      match
        io.Copy_Discard (String.length (io.pending reader) + 2)
          (io.LimitReader reader 4096) 0
      with
      | Some ((_, drainError), limited) => Some (drainError, Some (io.R limited))
      | None => None
      end
  end.

(** * Vocabulary of the properties *)

(** The message of the version check *)
Definition versionReason (required current : APIVersion.t) : string :=
  "must have API version >= " ++ APIVersion.label required
  ++ ". Current: " ++ APIVersion.label current.


(** The tokens of a header value are its fields between spaces. *)
Definition second_token (h : string) : string := nth 1 (Split h " ") "".
Definition last_token (h : string) : string := List.last (Split h " ") "".

(** The value of the originating-identity header of a request, if the
    request is to carry one *)
Definition identityHeader (v : APIVersion.t)
    (oi : option OriginatingIdentity.t) : option string :=
  match oi with
  | Some i =>
      if APIVersion.AtLeast v Version2_13
      then Some (OriginatingIdentity.Platform i ++ " "
                 ++ base64.EncodeToString (OriginatingIdentity.Value i))
      else None
  | None => None
  end.


(** [n] slashes *)
Fixpoint slashes (n : nat) : string :=
  match n with
  | O => ""
  | S n => String "/" (slashes n)
  end.


(** The status code an [HTTPStatusCodeError] carries *)
Definition statusOf (e : error) : option Z :=
  match e with
  | HTTPStatusCodeError StatusCode _ _ _ => Some StatusCode
  | _ => None
  end.

(** A result of the scanner that is not a lack of fuel and leaves less
    than [n] characters, or [n] at most *)
Definition within {A} (r : error + (A * string)) (n : nat) : Prop :=
  match r with
  | inl err => err <> Go.depth_exceeded
  | inr found => (String.length found.2 < n)%nat
  end.

Definition atmost {A} (r : error + (A * string)) (n : nat) : Prop :=
  match r with
  | inl err => err <> Go.depth_exceeded
  | inr found => (String.length found.2 <= n)%nat
  end.

(** ** NewClient: what a configuration asks for *)

(** TLS verification is skipped at the request of the configuration or
    of its TLS configuration. *)
Definition skipsVerification (config : ClientConfiguration.t) : bool :=
  ClientConfiguration.Insecure config
  || match ClientConfiguration.TLSConfig config with
     | Some cfg => http.InsecureSkipVerify cfg
     | None => false
     end.

(** Root certificates come with the TLS configuration or as CA data. *)
Definition hasRootCAs (config : ClientConfiguration.t) : bool :=
  negb (String.length (ClientConfiguration.CAData config) =? 0)%nat
  || match ClientConfiguration.TLSConfig config with
     | Some cfg => bool_decide (http.RootCAs cfg <> None)
     | None => false
     end.

(** An authentication configuration, if there is one, holds one of the
    two credentials and not the other. *)
Definition oneCredential (auth : option AuthConfig.t) : bool :=
  match auth with
  | None => true
  | Some a =>
      match AuthConfig.BasicAuthConfig a, AuthConfig.BearerConfig a with
      | Some _, None | None, Some _ => true
      | _, _ => false
      end
  end.

(** The pool of root certificates that the transport gets *)
Definition rootPool (config : ClientConfiguration.t) : option (list string) :=
  let roots :=
    match ClientConfiguration.TLSConfig config with
    | Some cfg => http.RootCAs cfg
    | None => None
    end in
  if (String.length (ClientConfiguration.CAData config) =? 0)%nat then roots
  else Some (default [] roots ++ [ClientConfiguration.CAData config])%list.

(** The client that [NewClient] makes of a configuration it accepts *)
Definition builtClient (config : ClientConfiguration.t) : client.t :=
  client.mk (ClientConfiguration.Name config)
    (TrimRight (ClientConfiguration.URL config) "/")
    (ClientConfiguration.APIVersion config)
    (ClientConfiguration.AuthConfig config)
    (ClientConfiguration.EnableAlphaFeatures config)
    (ClientConfiguration.Verbose config)
    (http.mkClient (seconds (ClientConfiguration.TimeoutSeconds config))
       (http.mkConfig (skipsVerification config) (rootPool config))).

(** The value of the header [Authorization] that a credential asks for *)
Definition authorization (auth : option AuthConfig.t) : option string :=
  match auth with
  | Some a =>
      match AuthConfig.BasicAuthConfig a, AuthConfig.BearerConfig a with
      | Some basic, _ =>
          Some ("Basic "
                ++ base64.EncodeToString
                     (BasicAuthConfig.Username basic ++ ":"
                      ++ BasicAuthConfig.Password basic))
      | None, Some bearer => Some ("Bearer " ++ BearerConfig.Token bearer)
      | None, None => None
      end
  | None => None
  end.

(** The headers of a request: the version of the protocol, the content
    type when there is a body, the credential, the identity of the
    request and, when it is to be sent, the originating identity *)
Definition requestHeader (c : client.t) (hasBody : bool)
    (requestId : string) (oiHeader : option string) : gmap string string :=
  let header : gmap string string :=
    <[APIVersionHeader := APIVersion.label (client.APIVersion c)]> ∅ in
  let header :=
    if hasBody then <[contentType := jsonType]> header else header in
  let header :=
    match authorization (client.AuthConfig c) with
    | Some credential => <["Authorization" := credential]> header
    | None => header
    end in
  let header := <[RequestIdentityheader := requestId]> header in
  match oiHeader with
  | Some value => <[OriginatingIdentityHeader := value]> header
  | None => header
  end.

(** The bytes of a body, if there is a body and it can be marshalled *)
Definition marshalled {A} (marshal : A -> error + string) (body : option A)
  : error + option string :=
  match body with
  | Some b =>
      match marshal b with
      | inl err => inl err
      | inr bodyBytes => inr (Some bodyBytes)
      end
  | None => inr None
  end.

(** A configuration with another URL *)
Definition withURL (config : ClientConfiguration.t) (url : string)
  : ClientConfiguration.t :=
  ClientConfiguration.mk (ClientConfiguration.Name config) url
    (ClientConfiguration.APIVersion config)
    (ClientConfiguration.AuthConfig config)
    (ClientConfiguration.TLSConfig config)
    (ClientConfiguration.Insecure config)
    (ClientConfiguration.CAData config)
    (ClientConfiguration.TimeoutSeconds config)
    (ClientConfiguration.EnableAlphaFeatures config)
    (ClientConfiguration.Verbose config).

(** The world after [n] more UUIDs were drawn and these requests sent *)
Definition after (w : World) (n : nat) (requests : list http.Request)
  : World :=
  mkWorld (network w) (sent w ++ requests) (uuids w) (n + drawn w).

(** ** Inputs to compute with *)

Definition testClient (v : APIVersion.t) (alpha : bool) : client.t :=
  client.mk "test-broker" "https://broker.example.com" v None alpha false
    (http.mkClient 0 (http.mkConfig false None)).

(** A world whose broker answers every request with this status and
    body, and where nothing was sent yet. *)
Definition testWorld (status : Z) (body : string) : World :=
  mkWorld (fun _ _ => inr (http.mkResponse status (inr body))) []
          (fun _ => "00000000-0000-4000-8000-000000000000") 0.

Definition testRequest (async : bool)
    (oi : option OriginatingIdentity.t) : RotateBindingRequest.t :=
  RotateBindingRequest.mk "test-instance-id" "test-binding-id" async
    "test-predecessor-binding-id" oi.

(** A client with a credential *)
Definition testClientWith (auth : AuthConfig.t) : client.t :=
  client.mk "test-broker" "https://broker.example.com" Version2_14
    (Some auth) false false (http.mkClient 0 (http.mkConfig false None)).

Definition testBasic : AuthConfig.t :=
  AuthConfig.mk (Some (BasicAuthConfig.mk "admin" "secret")) None.

(** A world whose transport fails on every request *)
Definition failingWorld (err : error) : World :=
  mkWorld (fun _ _ => inl err) []
          (fun _ => "00000000-0000-4000-8000-000000000000") 0.

(** The request that [RotateBinding] is to send for [testRequest] from
    [testClient] in [testWorld], [oiHeader] being the value of its
    originating-identity header *)
Definition testSent (v : APIVersion.t) (async : bool)
    (oiHeader : option string) : http.Request :=
  let header : gmap string string :=
    <[RequestIdentityheader := "00000000-0000-4000-8000-000000000000"]>
    (<[contentType := jsonType]>
    (<[APIVersionHeader := APIVersion.label v]> ∅)) in
  http.mkRequest "PUT"
    "https://broker.example.com/v2/service_instances/test-instance-id/service_bindings/test-binding-id"
    match oiHeader with
    | Some h => <[OriginatingIdentityHeader := h]> header
    | None => header
    end
    (if async then <[AcceptsIncomplete := "true"]> ∅ else ∅)
    (Some (js "{'predecessor_binding_id':'test-predecessor-binding-id'}")).

Definition operationBody : string := js "{'operation':'test-operation-key'}".
Definition endpointsBody : string :=
  js "{'operation':'op-1','endpoints':[{'host':'db.example.com','ports':[5432]}]}".

Definition testConfiguration : ClientConfiguration.t :=
  ClientConfiguration.mk "test-broker" "https://broker.example.com//"
    Version2_14 None None false "" 60 false false.

(** * Properties *)

(** ** Strings *)

Lemma append_nil_r (s : string) : s ++ "" = s.
Proof. induction s as [|c s IH]; simpl; [reflexivity | now rewrite IH]. Qed.

Lemma append_assoc (s1 s2 s3 : string) : (s1 ++ s2) ++ s3 = s1 ++ (s2 ++ s3).
Proof. induction s1 as [|c s1 IH]; simpl; [reflexivity | now rewrite IH]. Qed.

Lemma eqb_empty_false (s : string) : s <> "" -> String.eqb s "" = false.
Proof. intros Hs. now apply String.eqb_neq. Qed.

(** ** version.go and the version gate *)

Lemma AtLeast_spec (v w : APIVersion.t) :
  APIVersion.AtLeast v w = true <-> (APIVersion.order v >= APIVersion.order w)%Z.
Proof. unfold APIVersion.AtLeast. rewrite Z.leb_le. lia. Qed.

Lemma AtLeast_false (v w : APIVersion.t) :
  APIVersion.AtLeast v w = false <-> (APIVersion.order v < APIVersion.order w)%Z.
Proof. unfold APIVersion.AtLeast. rewrite Z.leb_gt. lia. Qed.

(** The ranks of the seven versions follow their release order. *)
Lemma versions_ordered :
  Forall (fun vw => APIVersion.AtLeast vw.2 vw.1 = true
                    /\ APIVersion.AtLeast vw.1 vw.2 = false)
    [(Version2_11, Version2_12); (Version2_12, Version2_13);
     (Version2_13, Version2_14); (Version2_14, Version2_15);
     (Version2_15, Version2_16); (Version2_16, Version2_17)].
Proof. repeat constructor. Qed.

Section VersionGate.
Context `{Packages}.

Lemma validateClientVersionIsAtLeast_eq (c : client.t) (w : APIVersion.t) :
  validateClientVersionIsAtLeast c w =
    if APIVersion.AtLeast (client.APIVersion c) w then None
    else Some (OperationNotAllowedError
                 (versionReason w (client.APIVersion c))).
Proof.
  unfold validateClientVersionIsAtLeast, versionReason, APIVersion.String.
  destruct (APIVersion.AtLeast _ _); simpl; [reflexivity |].
  now rewrite append_nil_r.
Qed.

(** C2.  [AtLeast v w] compares the ranks of the two versions; the
    version check of a client whose active version is [v] fails, with
    an [OperationNotAllowedError] whose reason names the label of the
    required version [w] and the label of the client's version,
    exactly when [AtLeast v w] is false, and returns no error
    otherwise; an operation gated on the check then fails with its
    own error around that reason and sends nothing: the world, and
    with it the list of requests sent, is as before the call. *)
Theorem C2_version_gate (c : client.t) (w : APIVersion.t) :
  let v := client.APIVersion c in
  (APIVersion.AtLeast v w = true
     <-> (APIVersion.order v >= APIVersion.order w)%Z)
  /\ (validateClientVersionIsAtLeast c w
        = Some (OperationNotAllowedError (versionReason w v))
      <-> APIVersion.AtLeast v w = false)
  /\ (validateClientVersionIsAtLeast c w = None
      <-> APIVersion.AtLeast v w = true)
  /\ (forall (A : Type) (notAllowed : string -> error)
             (operation : IO (error + A)) (world : World),
        APIVersion.AtLeast v w = false ->
        versionGated c w notAllowed operation world
          = (inl (notAllowed ("operation not allowed: " ++ versionReason w v)),
             world)
        /\ sent (versionGated c w notAllowed operation world).2 = sent world).
Proof.
  cbv zeta. rewrite validateClientVersionIsAtLeast_eq.
  split; [apply AtLeast_spec |].
  split; [destruct (APIVersion.AtLeast _ _); split; congruence |].
  split; [destruct (APIVersion.AtLeast _ _); split; congruence |].
  intros A notAllowed operation world Hlt.
  unfold versionGated. rewrite validateClientVersionIsAtLeast_eq, Hlt.
  split; reflexivity.
Qed.
End VersionGate.

(** ** bind_resource_methods.go *)

(** C10.  [IsNotEmpty] is true exactly when [AppGUID] is not nil and
    points to a string that is not empty, or [Route] is; hence it is
    false when each pointer is nil or points to the empty string. *)
Theorem C10_IsNotEmpty (br : BindResource.t) :
  (BindResource.IsNotEmpty br = true
     <-> (exists s, BindResource.AppGUID br = Some s /\ s <> "")
         \/ (exists s, BindResource.Route br = Some s /\ s <> ""))
  /\ ((BindResource.AppGUID br = None \/ BindResource.AppGUID br = Some "") ->
      (BindResource.Route br = None \/ BindResource.Route br = Some "") ->
      BindResource.IsNotEmpty br = false).
Proof.
  destruct br as [app route]. unfold BindResource.IsNotEmpty. simpl. split.
  - rewrite orb_true_iff. split.
    + intros [Ha | Hr].
      * left. destruct app as [s|]; [| discriminate].
        exists s. split; [reflexivity |].
        apply negb_true_iff, String.eqb_neq in Ha. exact Ha.
      * right. destruct route as [s|]; [| discriminate].
        exists s. split; [reflexivity |].
        apply negb_true_iff, String.eqb_neq in Hr. exact Hr.
    + intros [[s [-> Hs]] | [s [-> Hs]]]; [left | right];
        now rewrite eqb_empty_false.
  - intros [-> | ->] [-> | ->]; reflexivity.
Qed.

(** ** Validation of a rotate-binding request *)

Section Validation.
Context `{Packages}.

Lemma validateRotateBindingRequest_valid (r : RotateBindingRequest.t) :
  RotateBindingRequest.InstanceID r <> "" ->
  RotateBindingRequest.BindingID r <> "" ->
  RotateBindingRequest.PredecessorBindingID r <> "" ->
  validateRotateBindingRequest r = None.
Proof.
  intros Hi Hb Hp. unfold validateRotateBindingRequest.
  now rewrite !eqb_empty_false.
Qed.

Lemma validateRotateBindingRequest_None (r : RotateBindingRequest.t) :
  validateRotateBindingRequest r = None ->
  RotateBindingRequest.InstanceID r <> ""
  /\ RotateBindingRequest.BindingID r <> ""
  /\ RotateBindingRequest.PredecessorBindingID r <> "".
Proof.
  unfold validateRotateBindingRequest.
  destruct (String.eqb_spec (RotateBindingRequest.InstanceID r) "");
    [discriminate |].
  destruct (String.eqb_spec (RotateBindingRequest.BindingID r) "");
    [discriminate |].
  destruct (String.eqb_spec (RotateBindingRequest.PredecessorBindingID r) "");
    [discriminate |].
  auto.
Qed.

Lemma validateRotateBindingRequest_instanceID (r : RotateBindingRequest.t) :
  RotateBindingRequest.InstanceID r = "" ->
  validateRotateBindingRequest r = Some (errorString "instanceID is required").
Proof. intros Hi. unfold validateRotateBindingRequest. now rewrite Hi. Qed.

Lemma validateRotateBindingRequest_predecessor (r : RotateBindingRequest.t) :
  RotateBindingRequest.InstanceID r <> "" ->
  RotateBindingRequest.BindingID r <> "" ->
  RotateBindingRequest.PredecessorBindingID r = "" ->
  validateRotateBindingRequest r
    = Some (errorString "predecessorBindingID is required").
Proof.
  intros Hi Hb Hp. unfold validateRotateBindingRequest.
  now rewrite (eqb_empty_false _ Hi), (eqb_empty_false _ Hb), Hp.
Qed.

(** A request that fails validation is answered without a request
    being sent. *)
Lemma RotateBinding_invalid (c : client.t) (r : RotateBindingRequest.t)
    (err : error) (w : World) :
  validateRotateBindingRequest r = Some err ->
  RotateBinding c r w = (inl err, w).
Proof. intros Hv. unfold RotateBinding. now rewrite Hv. Qed.

(** C6.  At a request whose instance id and predecessor binding id
    are given and whose binding id is empty, validation fails before
    anything is sent, and the error names [serviceID], a field the
    request does not have, where the binding id is the one missing. *)
Theorem C6_missing_BindingID_named_serviceID (c : client.t) (w : World) :
  let r := RotateBindingRequest.mk "instance-1" "" false "binding-0" None in
  validateRotateBindingRequest r
    = Some (errorString "serviceID is required")
  /\ RotateBinding c r w = (inl (errorString "serviceID is required"), w).
Proof. split; reflexivity. Qed.
End Validation.

(** ** The originating identity *)

Section Identity.
Context `{Packages}.

Lemma isValidJSON_eq (s : string) :
  isValidJSON s =
    match json_scan s with
    | inl err => Some err
    | inr _ => None
    end.
Proof.
  unfold isValidJSON, json_Unmarshal. now destruct (json_scan s).
Qed.

(** The header value of an identity that passes the three checks *)
Lemma buildOriginatingIdentityHeaderValue_ok (i : OriginatingIdentity.t)
    (doc : JSON) :
  OriginatingIdentity.Platform i <> "" ->
  OriginatingIdentity.Value i <> "" ->
  json_scan (OriginatingIdentity.Value i) = inr doc ->
  buildOriginatingIdentityHeaderValue (Some i)
    = inr (OriginatingIdentity.Platform i ++ " "
           ++ base64.EncodeToString (OriginatingIdentity.Value i)).
Proof.
  intros Hp Hv Hs. unfold buildOriginatingIdentityHeaderValue.
  rewrite !eqb_empty_false, isValidJSON_eq, Hs by assumption.
  simpl. now rewrite append_nil_r.
Qed.

Lemma buildOriginatingIdentityHeaderValue_inr (i : OriginatingIdentity.t)
    (h : string) :
  buildOriginatingIdentityHeaderValue (Some i) = inr h ->
  OriginatingIdentity.Platform i <> ""
  /\ OriginatingIdentity.Value i <> ""
  /\ (exists doc, json_scan (OriginatingIdentity.Value i) = inr doc)
  /\ h = OriginatingIdentity.Platform i ++ " "
         ++ base64.EncodeToString (OriginatingIdentity.Value i).
Proof.
  unfold buildOriginatingIdentityHeaderValue.
  destruct (String.eqb_spec (OriginatingIdentity.Platform i) "") as [|Hp];
    [discriminate |].
  destruct (String.eqb_spec (OriginatingIdentity.Value i) "") as [|Hv];
    [discriminate |].
  rewrite isValidJSON_eq.
  destruct (json_scan (OriginatingIdentity.Value i)) as [err|doc] eqn:Hs;
    [discriminate |].
  simpl. rewrite append_nil_r. intros [= <-]. eauto.
Qed.

(** C8.  Building the header value of an identity fails, with an
    error and no header value, exactly when the platform is empty, or
    the value is empty, or the value is not a valid JSON text; it
    succeeds exactly when the platform and the value are not empty
    and the value is a valid JSON text. *)
Theorem C8_identity_header_fails_iff (i : OriginatingIdentity.t) :
  ((exists err, buildOriginatingIdentityHeaderValue (Some i) = inl err)
     <-> OriginatingIdentity.Platform i = ""
         \/ OriginatingIdentity.Value i = ""
         \/ exists err, json_scan (OriginatingIdentity.Value i) = inl err)
  /\ ((exists h, buildOriginatingIdentityHeaderValue (Some i) = inr h)
        <-> OriginatingIdentity.Platform i <> ""
            /\ OriginatingIdentity.Value i <> ""
            /\ exists doc, json_scan (OriginatingIdentity.Value i) = inr doc).
Proof.
  split.
  - split.
    + intros [err Herr].
      destruct (String.eqb_spec (OriginatingIdentity.Platform i) "") as [|Hp];
        [now left |].
      destruct (String.eqb_spec (OriginatingIdentity.Value i) "") as [|Hv];
        [now right; left |].
      destruct (json_scan (OriginatingIdentity.Value i)) as [e|doc] eqn:Hs;
        [right; right; now exists e |].
      rewrite (buildOriginatingIdentityHeaderValue_ok i doc Hp Hv Hs) in Herr.
      discriminate.
    + unfold buildOriginatingIdentityHeaderValue.
      intros [Hp | [Hv | [e Hs]]].
      * rewrite Hp. simpl. eauto.
      * rewrite Hv.
        destruct (String.eqb (OriginatingIdentity.Platform i) ""); simpl; eauto.
      * rewrite isValidJSON_eq, Hs.
        destruct (String.eqb (OriginatingIdentity.Platform i) ""); [eauto |].
        destruct (String.eqb (OriginatingIdentity.Value i) ""); eauto.
  - split.
    + intros [h Hh].
      destruct (buildOriginatingIdentityHeaderValue_inr i h Hh)
        as (Hp & Hv & Hs & _).
      auto.
    + intros (Hp & Hv & doc & Hs).
      rewrite (buildOriginatingIdentityHeaderValue_ok i doc Hp Hv Hs). eauto.
Qed.
End Identity.

(** ** encoding/base64: decoding what was encoded *)

Section Base64.
Local Open Scope Z_scope.

(** Bit fields that do not overlap add up. *)
Lemma lor_disjoint_add (x y k : Z) :
  0 <= k -> 0 <= x -> x mod 2 ^ k = 0 -> 0 <= y < 2 ^ k ->
  Z.lor x y = x + y.
Proof.
  intros Hk Hx Hmod Hy.
  assert (Hland : Z.land x y = 0).
  { apply Z.bits_inj'. intros n Hn. rewrite Z.land_spec, Z.bits_0.
    destruct (Z.lt_ge_cases n k) as [Hlt | Hge].
    - replace x with (Z.shiftl (x / 2 ^ k) k).
      + rewrite Z.shiftl_spec_low by assumption. reflexivity.
      + rewrite Z.shiftl_mul_pow2 by assumption.
        pose proof (Z.div_mod x (2 ^ k)). lia.
    - replace y with (y mod 2 ^ k) by (apply Z.mod_small; assumption).
      rewrite Z.mod_pow2_bits_high by lia. apply andb_false_r. }
  rewrite <- Z.lxor_lor by assumption. symmetry.
  now apply Z.add_nocarry_lxor.
Qed.

Lemma uint_range (a : ascii) : 0 <= base64.uint a < 256.
Proof. unfold base64.uint. pose proof (N_ascii_bounded a). lia. Qed.

Lemma byte_uint (a : ascii) (v : Z) :
  v mod 256 = base64.uint a -> base64.byte v = a.
Proof.
  intros Hv. unfold base64.byte. change 255 with (Z.ones 8).
  rewrite Z.land_ones by lia. change (2 ^ 8) with 256. rewrite Hv.
  unfold base64.uint. rewrite N2Z.id. apply ascii_N_embedding.
Qed.

Ltac to_arith :=
  change 63 with (Z.ones 6);
  rewrite !Z.land_ones, !Z.shiftr_div_pow2, !Z.shiftl_mul_pow2 by lia;
  change (2 ^ 6) with 64; change (2 ^ 8) with 256;
  change (2 ^ 12) with 4096; change (2 ^ 16) with 65536;
  change (2 ^ 18) with 262144.

Ltac fields k p :=
  change (2 ^ k) with p; try lia; Z.div_mod_to_equations; lia.

(** Three bytes make four sextets, and the sextets the three bytes. *)
Lemma quantum3 (a b c : Z) :
  0 <= a < 256 -> 0 <= b < 256 -> 0 <= c < 256 ->
  let val := Z.lor (Z.lor (Z.shiftl a 16) (Z.shiftl b 8)) c in
  let d0 := Z.land (Z.shiftr val 18) 63 in
  let d1 := Z.land (Z.shiftr val 12) 63 in
  let d2 := Z.land (Z.shiftr val 6) 63 in
  let d3 := Z.land val 63 in
  let val' :=
    Z.lor (Z.lor (Z.lor (Z.shiftl d0 18) (Z.shiftl d1 12)) (Z.shiftl d2 6))
          d3 in
  (0 <= d0 < 64 /\ 0 <= d1 < 64 /\ 0 <= d2 < 64 /\ 0 <= d3 < 64)
  /\ Z.shiftr val' 16 mod 256 = a
  /\ Z.shiftr val' 8 mod 256 = b
  /\ val' mod 256 = c.
Proof.
  intros Ha Hb Hc. cbv zeta. to_arith.
  rewrite (lor_disjoint_add (a * 65536) (b * 256) 16) by fields 16 65536.
  rewrite (lor_disjoint_add (a * 65536 + b * 256) c 8) by fields 8 256.
  set (val := a * 65536 + b * 256 + c).
  assert (Hval : 0 <= val < 16777216) by (unfold val; lia).
  rewrite (lor_disjoint_add (val / 262144 mod 64 * 262144)
             (val / 4096 mod 64 * 4096) 18) by fields 18 262144.
  rewrite (lor_disjoint_add _ (val / 64 mod 64 * 64) 12) by fields 12 4096.
  rewrite (lor_disjoint_add _ (val mod 64) 6) by fields 6 64.
  unfold val. repeat split; Z.div_mod_to_equations; lia.
Qed.

Lemma quantum2 (a b : Z) :
  0 <= a < 256 -> 0 <= b < 256 ->
  let val := Z.lor (Z.shiftl a 16) (Z.shiftl b 8) in
  let d0 := Z.land (Z.shiftr val 18) 63 in
  let d1 := Z.land (Z.shiftr val 12) 63 in
  let d2 := Z.land (Z.shiftr val 6) 63 in
  let val' :=
    Z.lor (Z.lor (Z.shiftl d0 18) (Z.shiftl d1 12)) (Z.shiftl d2 6) in
  (0 <= d0 < 64 /\ 0 <= d1 < 64 /\ 0 <= d2 < 64)
  /\ Z.shiftr val' 16 mod 256 = a
  /\ Z.shiftr val' 8 mod 256 = b.
Proof.
  intros Ha Hb. cbv zeta. to_arith.
  rewrite (lor_disjoint_add (a * 65536) (b * 256) 16) by fields 16 65536.
  set (val := a * 65536 + b * 256).
  assert (Hval : 0 <= val < 16777216) by (unfold val; lia).
  rewrite (lor_disjoint_add (val / 262144 mod 64 * 262144)
             (val / 4096 mod 64 * 4096) 18) by fields 18 262144.
  rewrite (lor_disjoint_add _ (val / 64 mod 64 * 64) 12) by fields 12 4096.
  unfold val. repeat split; Z.div_mod_to_equations; lia.
Qed.

Lemma quantum1 (a : Z) :
  0 <= a < 256 ->
  let val := Z.shiftl a 16 in
  let d0 := Z.land (Z.shiftr val 18) 63 in
  let d1 := Z.land (Z.shiftr val 12) 63 in
  let val' := Z.lor (Z.shiftl d0 18) (Z.shiftl d1 12) in
  (0 <= d0 < 64 /\ 0 <= d1 < 64)
  /\ Z.shiftr val' 16 mod 256 = a.
Proof.
  intros Ha. cbv zeta. to_arith.
  set (val := a * 65536).
  assert (Hval : 0 <= val < 16777216) by (unfold val; lia).
  rewrite (lor_disjoint_add (val / 262144 mod 64 * 262144)
             (val / 4096 mod 64 * 4096) 18) by fields 18 262144.
  unfold val. repeat split; Z.div_mod_to_equations; lia.
Qed.

(** The characters of the alphabet: each decodes to its index, none is
    the padding, a line break or a space. *)
Lemma encode_facts (i : Z) :
  0 <= i < 64 ->
  base64.decodeMap (base64.encode i) = Some i
  /\ Ascii.eqb (base64.encode i) base64.StdPadding = false
  /\ Ascii.eqb (base64.encode i) (ascii_of_nat 10) = false
  /\ Ascii.eqb (base64.encode i) (ascii_of_nat 13) = false
  /\ Ascii.eqb " " (base64.encode i) = false.
Proof.
  intros Hi. replace i with (Z.of_nat (Z.to_nat i)) by lia.
  assert (Hn : (Z.to_nat i < 64)%nat) by lia.
  generalize dependent (Z.to_nat i). clear. intros n Hn.
  do 64 (destruct n as [|n]; [repeat split; reflexivity |]). lia.
Qed.

(** Induction on a string, three bytes at a time *)
Lemma string_ind3 (P : string -> Prop) :
  P EmptyString ->
  (forall a, P (String a EmptyString)) ->
  (forall a b, P (String a (String b EmptyString))) ->
  (forall a b c s, P s -> P (String a (String b (String c s)))) ->
  forall s, P s.
Proof.
  intros H0 H1 H2 H3. fix IH 1.
  intros [|a [|b [|c s]]]; [apply H0 | apply H1 | apply H2 | apply H3, IH].
Qed.

Lemma decode_quanta_EncodeToString (s : string) :
  base64.decode_quanta (base64.EncodeToString s) = Some s.
Proof.
  induction s as [| a | a b | a b c s IH] using string_ind3.
  - reflexivity.
  - destruct (quantum1 (base64.uint a) (uint_range a)) as [(H0 & H1) Ha].
    cbv zeta in *.
    destruct (encode_facts _ H0) as (E0 & _).
    destruct (encode_facts _ H1) as (E1 & _).
    cbn [base64.EncodeToString base64.decode_quanta].
    rewrite E0, E1. cbn.
    now rewrite (byte_uint a).
  - destruct (quantum2 (base64.uint a) (base64.uint b)
                (uint_range a) (uint_range b))
      as [(H0 & H1 & H2) [Ha Hb]].
    cbv zeta in *.
    destruct (encode_facts _ H0) as (E0 & _).
    destruct (encode_facts _ H1) as (E1 & _).
    destruct (encode_facts _ H2) as (E2 & P2 & _).
    cbn [base64.EncodeToString base64.decode_quanta].
    rewrite E0, E1, P2, E2. cbn.
    now rewrite (byte_uint a), (byte_uint b).
  - destruct (quantum3 (base64.uint a) (base64.uint b) (base64.uint c)
                (uint_range a) (uint_range b) (uint_range c))
      as [(H0 & H1 & H2 & H3) (Ha & Hb & Hc)].
    cbv zeta in *.
    destruct (encode_facts _ H0) as (E0 & _).
    destruct (encode_facts _ H1) as (E1 & _).
    destruct (encode_facts _ H2) as (E2 & P2 & _).
    destruct (encode_facts _ H3) as (E3 & P3 & _).
    cbn [base64.EncodeToString base64.decode_quanta].
    rewrite E0, E1, P2, E2, P3, E3, IH.
    now rewrite (byte_uint a), (byte_uint b), (byte_uint c).
Qed.

Lemma drop_newlines_keep (c : ascii) (s : string) :
  Ascii.eqb c (ascii_of_nat 10) = false ->
  Ascii.eqb c (ascii_of_nat 13) = false ->
  base64.drop_newlines (String c s) = String c (base64.drop_newlines s).
Proof. intros Hn Hr. cbn [base64.drop_newlines]. now rewrite Hn, Hr. Qed.

Lemma string_mem_skip (c d : ascii) (s : string) :
  Ascii.eqb c d = false -> string_mem c (String d s) = string_mem c s.
Proof. intros Hc. cbn [string_mem]. now rewrite Hc. Qed.

Ltac alphabet H :=
  let N := fresh "N" in
  let R := fresh "R" in
  let S := fresh "S" in
  destruct (encode_facts _ H) as (_ & _ & N & R & S);
  rewrite (drop_newlines_keep _ _ N R), (string_mem_skip _ _ _ S).

(** An encoding holds no line break and no space. *)
Lemma EncodeToString_chars (s : string) :
  base64.drop_newlines (base64.EncodeToString s) = base64.EncodeToString s
  /\ string_mem " " (base64.EncodeToString s) = false.
Proof.
  induction s as [| a | a b | a b c s [IHn IHs]] using string_ind3.
  - split; reflexivity.
  - destruct (quantum1 (base64.uint a) (uint_range a)) as [(H0 & H1) _].
    cbv zeta in *. cbn [base64.EncodeToString].
    alphabet H0. alphabet H1. split; reflexivity.
  - destruct (quantum2 (base64.uint a) (base64.uint b)
                (uint_range a) (uint_range b)) as [(H0 & H1 & H2) _].
    cbv zeta in *. cbn [base64.EncodeToString].
    alphabet H0. alphabet H1. alphabet H2. split; reflexivity.
  - destruct (quantum3 (base64.uint a) (base64.uint b) (base64.uint c)
                (uint_range a) (uint_range b) (uint_range c))
      as [(H0 & H1 & H2 & H3) _].
    cbv zeta in *. cbn [base64.EncodeToString].
    alphabet H0. alphabet H1. alphabet H2. alphabet H3.
    rewrite IHn, IHs. split; reflexivity.
Qed.

(** Decoding the standard encoding of a string gives the string back. *)
Lemma DecodeString_EncodeToString (s : string) :
  base64.DecodeString (base64.EncodeToString s) = Some s.
Proof.
  unfold base64.DecodeString.
  rewrite (proj1 (EncodeToString_chars s)).
  apply decode_quanta_EncodeToString.
Qed.
End Base64.

(** ** strings.Split and strings.TrimRight *)

Lemma Split_nonempty (s : string) (sep : ascii) : Split s sep <> [].
Proof.
  destruct s as [|c s]; simpl; [discriminate |].
  destruct (Ascii.eqb c sep); [discriminate |].
  destruct (Split s sep); discriminate.
Qed.

Lemma Split_no_sep (s : string) (sep : ascii) :
  string_mem sep s = false -> Split s sep = [s].
Proof.
  induction s as [|c s IH]; simpl; [reflexivity |].
  intros Hm. apply orb_false_iff in Hm as [Hc Hs].
  rewrite Ascii.eqb_sym, Hc, (IH Hs). reflexivity.
Qed.

(** The fields of [p], a separator and [e] are the fields of [p]
    followed by the fields of [e]. *)
Lemma Split_app (p e : string) (sep : ascii) :
  Split (p ++ String sep e) sep = (Split p sep ++ Split e sep)%list.
Proof.
  induction p as [|c p IH]; simpl.
  - now rewrite Ascii.eqb_refl.
  - destruct (Ascii.eqb c sep); rewrite IH; [reflexivity |].
    pose proof (Split_nonempty p sep) as Hne.
    destruct (Split p sep) as [|f fs]; [contradiction | reflexivity].
Qed.

Lemma last_token_app (p e : string) :
  string_mem " " e = false -> last_token (p ++ " " ++ e) = e.
Proof.
  intros He. unfold last_token. simpl.
  rewrite Split_app, (Split_no_sep e " " He). apply last_last.
Qed.

Lemma second_token_app (p e : string) :
  string_mem " " p = false -> string_mem " " e = false ->
  second_token (p ++ " " ++ e) = e.
Proof.
  intros Hp He. unfold second_token. simpl.
  now rewrite Split_app, (Split_no_sep p " " Hp), (Split_no_sep e " " He).
Qed.

(** What [TrimRight] cuts off is made of characters of the cutset. *)
Lemma TrimRight_app (s cutset : string) :
  exists t, s = TrimRight s cutset ++ t
            /\ forall c, string_mem c t = true -> string_mem c cutset = true.
Proof.
  induction s as [|a s (t & Ht & Hcut)]; simpl.
  - exists "". split; [reflexivity | discriminate].
  - destruct (TrimRight s cutset) as [|b r] eqn:Hr.
    + simpl in Ht. subst t.
      destruct (string_mem a cutset) eqn:Ha.
      * exists (String a s). split; [reflexivity |].
        intros c Hc. simpl in Hc. apply orb_true_iff in Hc as [Hc | Hc].
        -- apply Ascii.eqb_eq in Hc. now subst c.
        -- now apply Hcut.
      * exists s. split; [reflexivity | exact Hcut].
    + exists t. split; [| exact Hcut]. simpl. simpl in Ht. now rewrite <- Ht.
Qed.

(** The result of [TrimRight] does not end in a character of the
    cutset. *)
Lemma TrimRight_last (s cutset p : string) (c : ascii) :
  TrimRight s cutset = p ++ String c "" -> string_mem c cutset = false.
Proof.
  revert p. induction s as [|a s IH]; intros p; simpl.
  - destruct p; discriminate.
  - destruct (TrimRight s cutset) as [|b r] eqn:Hr.
    + destruct (string_mem a cutset) eqn:Ha.
      * destruct p; discriminate.
      * destruct p as [|a' p]; simpl.
        -- intros [= <-]. exact Ha.
        -- destruct p; discriminate.
    + destruct p as [|a' p]; simpl.
      * discriminate.
      * intros [= _ Hp]. now apply (IH p).
Qed.

Lemma TrimRight_slashes (s : string) :
  exists n, s = TrimRight s "/" ++ slashes n.
Proof.
  destruct (TrimRight_app s "/") as (t & Ht & Hcut).
  assert (Hn : exists n, t = slashes n).
  { clear Ht. induction t as [|c t IH].
    - now exists O.
    - destruct IH as [n ->].
      + intros d Hd. apply Hcut. simpl. rewrite Hd. apply orb_true_r.
      + specialize (Hcut c). simpl in Hcut.
        rewrite Ascii.eqb_refl, orb_false_r in Hcut.
        specialize (Hcut eq_refl). apply Ascii.eqb_eq in Hcut. subst c.
        now exists (S n). }
  destruct Hn as [n ->]. now exists n.
Qed.

(** ** NewClient *)

Lemma NewClient_URL (config : ClientConfiguration.t) (c : client.t) :
  NewClient config = inr c ->
  client.URL c = TrimRight (ClientConfiguration.URL config) "/".
Proof.
  unfold NewClient. intros Hn.
  repeat match type of Hn with
         | (if ?b then _ else _) = _ => destruct b
         | match ?o with Some _ => _ | None => _ end = _ => destruct o
         end;
    try discriminate; now inversion Hn.
Qed.

(** ** Requests: what [prepareAndDo] sends *)

Section Exchange.
Context `{Packages}.

Lemma sent_not_grown (l : list http.Request) (req : http.Request) :
  l <> (l ++ [req])%list.
Proof.
  intros Heq. apply (f_equal (@length _)) in Heq.
  rewrite length_app in Heq. simpl in Heq. lia.
Qed.

(** [prepareAndDo] either fails with nothing sent, or sends one
    request, shaped from its arguments, and returns the answer of the
    network to it. *)
Lemma prepareAndDo_cases {A} (marshal : A -> error + string) (c : client.t)
    (method URL : string) (params : option (gmap string string))
    (body : option A) (oi : option OriginatingIdentity.t) (w : World) :
  (exists err w',
      prepareAndDo marshal c method URL params body oi w = (inl err, w')
      /\ sent w' = sent w)
  \/ (exists req,
        prepareAndDo marshal c method URL params body oi w
          = (network w (sent w) req,
             mkWorld (network w) (sent w ++ [req]) (uuids w) (S (drawn w)))
        /\ http.Method req = method
        /\ http.URL req = URL
        /\ http.Query req = default ∅ params
        /\ http.Header req !! OriginatingIdentityHeader
           = identityHeader (client.APIVersion c) oi
        /\ http.Header req !! APIVersionHeader
           = Some (APIVersion.label (client.APIVersion c))).
Proof.
  unfold prepareAndDo.
  destruct (match body with
            | Some b => match marshal b with
                        | inl err => inl err
                        | inr bodyBytes => inr (Some bodyBytes)
                        end
            | None => inr None
            end) as [err | bodyReader].
  { left. exists err, w. split; reflexivity. }
  destruct (http_NewRequest method URL) as [err |].
  { left. exists err, w. split; reflexivity. }
  unfold bind, uuid_New, identityHeader.
  destruct oi as [i |];
    [destruct (APIVersion.AtLeast (client.APIVersion c) Version2_13);
     [destruct (buildOriginatingIdentityHeaderValue (Some i))
        as [err | headerValue] eqn:Hb |] |].
  - left. eexists _, _. split; reflexivity.
  - apply buildOriginatingIdentityHeaderValue_inr in Hb
      as (_ & _ & _ & ->).
    right. eexists. split; [reflexivity |]. simpl.
    repeat split; try reflexivity.
    + apply lookup_insert_eq.
    + destruct bodyReader, (client.AuthConfig c) as [[[?|] [?|]]|];
        now simplify_map_eq.
  - right. eexists. split; [reflexivity |]. simpl.
    repeat split; try reflexivity;
      destruct bodyReader, (client.AuthConfig c) as [[[?|] [?|]]|];
      now simplify_map_eq.
  - right. eexists. split; [reflexivity |]. simpl.
    repeat split; try reflexivity;
      destruct bodyReader, (client.AuthConfig c) as [[[?|] [?|]]|];
      now simplify_map_eq.
Qed.

(** The request that a call of [prepareAndDo] sent, and its answer *)
Lemma prepareAndDo_sent {A} (marshal : A -> error + string) (c : client.t)
    (method URL : string) (params : option (gmap string string))
    (body : option A) (oi : option OriginatingIdentity.t) (w : World)
    (req : http.Request) :
  sent (prepareAndDo marshal c method URL params body oi w).2
    = (sent w ++ [req])%list ->
  (prepareAndDo marshal c method URL params body oi w).1
    = network w (sent w) req
  /\ http.Method req = method
  /\ http.URL req = URL
  /\ http.Query req = default ∅ params
  /\ http.Header req !! OriginatingIdentityHeader
     = identityHeader (client.APIVersion c) oi
  /\ http.Header req !! APIVersionHeader
     = Some (APIVersion.label (client.APIVersion c)).
Proof.
  intros Hsent.
  destruct (prepareAndDo_cases marshal c method URL params body oi w)
    as [(err & w' & Hp & Hw') | (req' & Hp & Hreq)];
    rewrite Hp in Hsent |- *; simpl in Hsent.
  - rewrite Hw' in Hsent. now apply sent_not_grown in Hsent.
  - apply app_inj_tail in Hsent as [_ ->]. split; [reflexivity | exact Hreq].
Qed.

(** [prepareAndDo] does send a request when [http.NewRequest] accepts
    the URL, the body can be marshalled, and the identity, if it is to
    be sent, passes its checks. *)
Lemma prepareAndDo_sends {A} (marshal : A -> error + string) (c : client.t)
    (method URL : string) (params : option (gmap string string))
    (body : option A) (oi : option OriginatingIdentity.t) (w : World) :
  match body with
  | Some b => exists bytes, marshal b = inr bytes
  | None => True
  end ->
  http_NewRequest method URL = None ->
  match oi with
  | Some i =>
      APIVersion.AtLeast (client.APIVersion c) Version2_13 = true ->
      exists h, buildOriginatingIdentityHeaderValue (Some i) = inr h
  | None => True
  end ->
  exists req,
    sent (prepareAndDo marshal c method URL params body oi w).2
      = (sent w ++ [req])%list.
Proof.
  intros Hbody Hurl Hoi. unfold prepareAndDo.
  replace (match body with
           | Some b => match marshal b with
                       | inl err => inl err
                       | inr bodyBytes => inr (Some bodyBytes)
                       end
           | None => inr None
           end)
    with (@inr error _ (match body with
                        | Some b => match marshal b with
                                    | inr bytes => Some bytes
                                    | inl _ => None
                                    end
                        | None => None
                        end)).
  2:{ destruct body as [b|]; [| reflexivity].
      destruct Hbody as [bytes ->]. reflexivity. }
  rewrite Hurl. unfold bind, uuid_New.
  destruct oi as [i|]; [| eexists; reflexivity].
  destruct (APIVersion.AtLeast (client.APIVersion c) Version2_13);
    [| eexists; reflexivity].
  destruct (Hoi eq_refl) as [h ->]. eexists; reflexivity.
Qed.
End Exchange.

(** ** Failure responses *)




Section Failure.
Context `{Packages}.

Lemma handleFailureResponse_status (c : client.t) (response : http.Response) :
  statusOf (handleFailureResponse c response)
    = Some (http.StatusCode response).
Proof.
  unfold handleFailureResponse.
  now destruct (unmarshalResponse c json_map response).
Qed.

Lemma handleFailureResponse_unread (c : client.t) (response : http.Response)
    (err : error) :
  http.ResponseBody response = inl err ->
  handleFailureResponse c response
    = HTTPStatusCodeError (http.StatusCode response) None None (Some err).
Proof.
  intros Hb. unfold handleFailureResponse, unmarshalResponse.
  now rewrite Hb.
Qed.



End Failure.

(** The failure responses of the tests: a body that breaks off, and a
    conventional failure body. *)
Example handleFailureResponse_malformed :
  handleFailureResponse (testClient Version2_11 false)
    (http.mkResponse 500 (inr "{"))
  = HTTPStatusCodeError 500 None None
      (Some (SyntaxError "unexpected end of JSON input")).
Proof. reflexivity. Qed.

Example handleFailureResponse_conventional :
  handleFailureResponse (testClient Version2_11 false)
    (http.mkResponse 500
       (inr (js "{'error':'BrokerError','description':'it broke','code':7}")))
  = HTTPStatusCodeError 500 (Some "BrokerError") (Some "it broke") None.
Proof. vm_compute. reflexivity. Qed.

Example handleFailureResponse_not_strings :
  handleFailureResponse (testClient Version2_11 false)
    (http.mkResponse 502 (inr (js "{'error':42,'descriptions':'plural'}")))
  = HTTPStatusCodeError 502 None None None.
Proof. vm_compute. reflexivity. Qed.

(** ** RotateBinding *)

Section Rotate.
Context `{Packages}.

(** A valid request: the call is the exchange with the broker followed
    by the switch on the status code. *)
Lemma RotateBinding_valid (c : client.t) (r : RotateBindingRequest.t)
    (w : World) :
  validateRotateBindingRequest r = None ->
  RotateBinding c r w =
    let (response, w') :=
      prepareAndDo marshal_rotateBindingRequestBody c http.MethodPut
        (Sprintf bindingURLFmt
           [client.URL c; RotateBindingRequest.InstanceID r;
            RotateBindingRequest.BindingID r])
        (Some (if RotateBindingRequest.AcceptsIncomplete r
               then <[AcceptsIncomplete := "true"]> ∅ else ∅))
        (Some (rotateBindingRequestBody.mk
                 (Some (RotateBindingRequest.PredecessorBindingID r))))
        (RotateBindingRequest.OriginatingIdentity r) w in
    (match response with
     | inl err => inl err
     | inr response => rotateBindingResult c r response
     end, w').
Proof.
  intros Hv. unfold RotateBinding, bind, ret. rewrite Hv.
  destruct (prepareAndDo _ _ _ _ _ _ _ _) as [[err | response] w'];
    reflexivity.
Qed.

(** The request that a call of [RotateBinding] sent, and what the call
    returns on the answer of the network to it. *)
Lemma RotateBinding_sent (c : client.t) (r : RotateBindingRequest.t)
    (w : World) (req : http.Request) :
  validateRotateBindingRequest r = None ->
  sent (RotateBinding c r w).2 = (sent w ++ [req])%list ->
  (RotateBinding c r w).1
    = match network w (sent w) req with
      | inl err => inl err
      | inr response => rotateBindingResult c r response
      end
  /\ http.Method req = http.MethodPut
  /\ http.URL req
     = client.URL c ++ "/v2/service_instances/"
       ++ RotateBindingRequest.InstanceID r
       ++ "/service_bindings/" ++ RotateBindingRequest.BindingID r
  /\ http.Query req
     = (if RotateBindingRequest.AcceptsIncomplete r
        then <[AcceptsIncomplete := "true"]> ∅ else ∅)
  /\ http.Header req !! OriginatingIdentityHeader
     = identityHeader (client.APIVersion c)
         (RotateBindingRequest.OriginatingIdentity r).
Proof.
  intros Hv. rewrite (RotateBinding_valid c r w Hv).
  destruct (prepareAndDo _ _ _ _ _ _ _ _) as [response w'] eqn:Hp.
  simpl. intros Hsent.
  match type of Hp with
  | prepareAndDo ?m _ ?me ?u ?p ?b ?o _ = _ =>
      pose proof (prepareAndDo_sent m c me u p b o w req) as Hs
  end.
  rewrite Hp in Hs. simpl in Hs.
  destruct (Hs Hsent) as (-> & Hm & Hu & Hq & Hh & _).
  repeat split; try assumption.
  rewrite Hu. simpl. now rewrite append_nil_r.
Qed.

(** A request that fails validation, or a call that fails before the
    exchange, sends nothing; a call never sends more than one
    request. *)
Lemma RotateBinding_sent_cases (c : client.t) (r : RotateBindingRequest.t)
    (w : World) :
  sent (RotateBinding c r w).2 = sent w
  \/ exists req, sent (RotateBinding c r w).2 = (sent w ++ [req])%list.
Proof.
  destruct (validateRotateBindingRequest r) as [err|] eqn:Hv.
  - left. now rewrite (RotateBinding_invalid c r err w Hv).
  - rewrite (RotateBinding_valid c r w Hv).
    destruct (prepareAndDo_cases marshal_rotateBindingRequestBody c
                http.MethodPut
                (Sprintf bindingURLFmt
                   [client.URL c; RotateBindingRequest.InstanceID r;
                    RotateBindingRequest.BindingID r])
                (Some (if RotateBindingRequest.AcceptsIncomplete r
                       then <[AcceptsIncomplete := "true"]> ∅ else ∅))
                (Some (rotateBindingRequestBody.mk
                         (Some (RotateBindingRequest.PredecessorBindingID r))))
                (RotateBindingRequest.OriginatingIdentity r) w)
      as [(err & w' & -> & Hw') | (req & -> & _)].
    + left. exact Hw'.
    + right. now exists req.
Qed.


Lemma rotateBindingResult_accepted_async (c : client.t)
    (r : RotateBindingRequest.t) (response : http.Response)
    (obj : bindSuccessResponseBody.t) :
  http.StatusCode response = http.StatusAccepted ->
  RotateBindingRequest.AcceptsIncomplete r = true ->
  unmarshalResponse c json_bindSuccessResponseBody response = inr obj ->
  rotateBindingResult c r response
    = inr (BindResponse.mk true
             (bindSuccessResponseBody.Credentials obj)
             (bindSuccessResponseBody.SyslogDrainURL obj)
             (bindSuccessResponseBody.RouteServiceURL obj)
             (bindSuccessResponseBody.VolumeMounts obj)
             (bindSuccessResponseBody.Endpoints obj)
             (bindSuccessResponseBody.Metadata obj)
             (bindSuccessResponseBody.Operation obj)).
Proof.
  intros Hs Ha Hu. unfold rotateBindingResult. rewrite Hs, Ha, Hu. simpl.
  now destruct (bindSuccessResponseBody.Operation obj).
Qed.

(** The switch on a 200 or a 201 *)
Lemma rotateBindingResult_sync (c : client.t) (r : RotateBindingRequest.t)
    (response : http.Response) (decoded : BindResponse.t) :
  http.StatusCode response = http.StatusOK
  \/ http.StatusCode response = http.StatusCreated ->
  unmarshalResponse c json_BindResponse response = inr decoded ->
  rotateBindingResult c r response
    = inr (if client.EnableAlphaFeatures c then decoded
           else BindResponse.set_Endpoints None decoded).
Proof.
  intros Hs Hu. unfold rotateBindingResult. rewrite Hu.
  destruct Hs as [-> | ->]; simpl; now destruct (client.EnableAlphaFeatures c).
Qed.


(** On a 200 or a 201 whose body decodes, a client without alpha
    features returns the decoded response with its endpoints set to
    nil. *)
Lemma RotateBinding_sync_scrubs (c : client.t) (r : RotateBindingRequest.t)
    (response : http.Response) (decoded : BindResponse.t) :
  http.StatusCode response = http.StatusOK
  \/ http.StatusCode response = http.StatusCreated ->
  unmarshalResponse c json_BindResponse response = inr decoded ->
  client.EnableAlphaFeatures c = false ->
  exists userResponse,
    rotateBindingResult c r response = inr userResponse
    /\ BindResponse.Endpoints userResponse = None.
Proof.
  intros Hs Hu Halpha.
  rewrite (rotateBindingResult_sync c r response decoded Hs Hu), Halpha.
  eexists. split; reflexivity.
Qed.

(** On a 202 the endpoints of the decoded body are returned as they
    are, with or without alpha features. *)
Lemma RotateBinding_accepted_keeps_endpoints (c : client.t)
    (r : RotateBindingRequest.t) (response : http.Response)
    (obj : bindSuccessResponseBody.t) :
  http.StatusCode response = http.StatusAccepted ->
  RotateBindingRequest.AcceptsIncomplete r = true ->
  unmarshalResponse c json_bindSuccessResponseBody response = inr obj ->
  exists userResponse,
    rotateBindingResult c r response = inr userResponse
    /\ BindResponse.Endpoints userResponse
       = bindSuccessResponseBody.Endpoints obj.
Proof.
  intros Hs Ha Hu.
  rewrite (rotateBindingResult_accepted_async c r response obj Hs Ha Hu).
  eexists. split; reflexivity.
Qed.

End Rotate.


(** C3.  A client without alpha features sends a request that accepts
    incomplete results, and the broker answers 202 with a body that
    holds an operation and endpoints: the response returned has the
    endpoints of the body, not nil. *)
Theorem C3_endpoints_kept_on_202 :
  let c := testClient Version2_14 false in
  let r := testRequest true None in
  let w := testWorld 202 endpointsBody in
  client.EnableAlphaFeatures c = false
  /\ (RotateBinding c r w).1
     = inr (BindResponse.mk true None None None None
              (Some [Endpoint.mk "db.example.com" (Some [5432%Z]) None])
              None (Some "op-1")).
Proof. split; vm_compute; reflexivity. Qed.

(** The same body on a 200 comes back without its endpoints. *)
Example RotateBinding_endpoints_scrubbed_on_200 :
  (RotateBinding (testClient Version2_14 false) (testRequest true None)
     (testWorld 200 endpointsBody)).1
  = inr (BindResponse.mk false None None None None None None (Some "op-1")).
Proof. vm_compute; reflexivity. Qed.

(** With alpha features they are kept. *)
Example RotateBinding_endpoints_alpha_on_200 :
  (RotateBinding (testClient Version2_14 true) (testRequest true None)
     (testWorld 200 endpointsBody)).1
  = inr (BindResponse.mk false None None None None
           (Some [Endpoint.mk "db.example.com" (Some [5432%Z]) None])
           None (Some "op-1")).
Proof. vm_compute; reflexivity. Qed.



(** ** The originating-identity header *)

Section IdentityHeader.
Context `{Packages}.

(** C4, as the code has it.  The request that [prepareAndDo] sends
    has the originating-identity header exactly when an identity is
    supplied and the active version is at least 2.13; otherwise the
    header is absent.  When set, its value is the platform, a space
    and the standard base64 encoding of the value of the identity, so
    that decoding what follows the last space of the header gives the
    value back; this is the second token of the header when the
    platform holds no space. *)
Theorem C4_identity_header {A} (marshal : A -> error + string)
    (c : client.t) (method URL : string)
    (params : option (gmap string string)) (body : option A)
    (oi : option OriginatingIdentity.t) (w : World) (req : http.Request) :
  sent (prepareAndDo marshal c method URL params body oi w).2
    = (sent w ++ [req])%list ->
  (is_Some (http.Header req !! OriginatingIdentityHeader)
     <-> is_Some oi
         /\ APIVersion.AtLeast (client.APIVersion c) Version2_13 = true)
  /\ (forall i,
        oi = Some i ->
        APIVersion.AtLeast (client.APIVersion c) Version2_13 = true ->
        let h := OriginatingIdentity.Platform i ++ " "
                 ++ base64.EncodeToString (OriginatingIdentity.Value i) in
        http.Header req !! OriginatingIdentityHeader = Some h
        /\ base64.DecodeString (last_token h)
           = Some (OriginatingIdentity.Value i)
        /\ (string_mem " " (OriginatingIdentity.Platform i) = false ->
            base64.DecodeString (second_token h)
            = Some (OriginatingIdentity.Value i))).
Proof.
  intros Hsent.
  destruct (prepareAndDo_sent marshal c method URL params body oi w req Hsent)
    as (_ & _ & _ & _ & Hh & _).
  rewrite Hh. unfold identityHeader. split.
  - destruct oi as [i|];
      [destruct (APIVersion.AtLeast (client.APIVersion c) Version2_13) |].
    + split; [intros _; split; [now exists i | reflexivity] |].
      intros _. eexists. reflexivity.
    + split; [intros [h Hs]; discriminate | intros [_ Hf]; discriminate].
    + split; [intros [h Hs]; discriminate | intros [[i Hi] _]; discriminate].
  - intros i -> ->. cbv zeta.
    pose proof (EncodeToString_chars (OriginatingIdentity.Value i))
      as [_ Hsp].
    split; [reflexivity |]. split.
    + rewrite last_token_app by assumption.
      apply DecodeString_EncodeToString.
    + intros Hp. rewrite second_token_app by assumption.
      apply DecodeString_EncodeToString.
Qed.
End IdentityHeader.

(** Against C4 as it is stated: for a platform that holds a space, the
    second token of the header is the second word of the platform, and
    does not decode to the value of the identity. *)
Lemma C4_second_token_counterexample :
  let c := testClient Version2_13 false in
  let oi := OriginatingIdentity.mk "cloud foundry" "{}" in
  let r := testRequest false (Some oi) in
  let w := testWorld 201 "{}" in
  let req := testSent Version2_13 false (Some "cloud foundry e30=") in
  sent (RotateBinding c r w).2 = [req]
  /\ http.Header req !! OriginatingIdentityHeader = Some "cloud foundry e30="
  /\ second_token "cloud foundry e30=" = "foundry"
  /\ base64.DecodeString (second_token "cloud foundry e30=")
     <> Some (OriginatingIdentity.Value oi).
Proof.
  repeat split; try (vm_compute; reflexivity).
  vm_compute. discriminate.
Qed.

Lemma C4_identity_header_witness :
  let c := testClient Version2_13 false in
  let oi := OriginatingIdentity.mk "cloud foundry" "{}" in
  let w := testWorld 201 "{}" in
  let req := testSent Version2_13 false (Some "cloud foundry e30=") in
  let body := rotateBindingRequestBody.mk (Some "test-predecessor-binding-id") in
  sent (prepareAndDo marshal_rotateBindingRequestBody c http.MethodPut
          (http.URL req) (Some ∅) (Some body) (Some oi) w).2
    = (sent w ++ [req])%list
  /\ http.Header req !! OriginatingIdentityHeader = Some "cloud foundry e30="
  /\ base64.DecodeString (last_token "cloud foundry e30=") = Some "{}".
Proof.
  intros c oi w req body.
  assert (Hsent :
            sent (prepareAndDo marshal_rotateBindingRequestBody c
                    http.MethodPut (http.URL req) (Some ∅) (Some body)
                    (Some oi) w).2
            = (sent w ++ [req])%list) by (vm_compute; reflexivity).
  split; [assumption |].
  destruct (C4_identity_header marshal_rotateBindingRequestBody c
              http.MethodPut (http.URL req) (Some ∅) (Some body) (Some oi)
              w req Hsent) as [_ Hvalue].
  destruct (Hvalue oi eq_refl eq_refl) as (Hh & Hlast & _).
  split; [exact Hh | exact Hlast].
Defined.

(** ** The base URL *)

Section BaseURL.
Context `{Packages}.

Lemma RotateBinding_sent_valid (c : client.t) (r : RotateBindingRequest.t)
    (w : World) (req : http.Request) :
  sent (RotateBinding c r w).2 = (sent w ++ [req])%list ->
  validateRotateBindingRequest r = None.
Proof.
  destruct (validateRotateBindingRequest r) as [err|] eqn:Hv;
    [| reflexivity].
  rewrite (RotateBinding_invalid c r err w Hv). simpl. intros Hsent.
  now apply sent_not_grown in Hsent.
Qed.

(** C9.  A client made by [NewClient] holds the configured URL without
    its trailing slashes: the stored URL does not end in a slash, and
    the configured URL is the stored one followed by slashes only.
    The URL of every operation is the stored URL followed by the path
    of the operation, which starts with the one slash between them;
    such is the URL of the request that [RotateBinding] sends. *)
Theorem C9_base_URL_trimmed (config : ClientConfiguration.t) (c : client.t) :
  NewClient config = inr c ->
  (forall p, client.URL c <> p ++ "/")
  /\ (exists n, ClientConfiguration.URL config = client.URL c ++ slashes n)
  /\ (forall instanceID bindingID,
        Sprintf bindingURLFmt [client.URL c; instanceID; bindingID]
          = client.URL c ++ "/v2/service_instances/" ++ instanceID
            ++ "/service_bindings/" ++ bindingID
        /\ Sprintf bindingLastOperationURLFmt
             [client.URL c; instanceID; bindingID]
           = client.URL c ++ "/v2/service_instances/" ++ instanceID
             ++ "/service_bindings/" ++ bindingID ++ "/last_operation"
        /\ Sprintf serviceInstanceURLFmt [client.URL c; instanceID]
           = client.URL c ++ "/v2/service_instances/" ++ instanceID
        /\ Sprintf lastOperationURLFmt [client.URL c; instanceID]
           = client.URL c ++ "/v2/service_instances/" ++ instanceID
             ++ "/last_operation"
        /\ Sprintf catalogURL [client.URL c] = client.URL c ++ "/v2/catalog")
  /\ (forall (r : RotateBindingRequest.t) (w : World) (req : http.Request),
        sent (RotateBinding c r w).2 = (sent w ++ [req])%list ->
        http.URL req
          = client.URL c ++ "/v2/service_instances/"
            ++ RotateBindingRequest.InstanceID r
            ++ "/service_bindings/" ++ RotateBindingRequest.BindingID r).
Proof.
  intros Hn. split; [| split; [| split]].
  - rewrite (NewClient_URL config c Hn). intros p Hp.
    pose proof (TrimRight_last _ _ _ _ Hp) as Hc. discriminate.
  - rewrite (NewClient_URL config c Hn). apply TrimRight_slashes.
  - intros instanceID bindingID. simpl. now rewrite !append_nil_r.
  - intros r w req Hsent.
    pose proof (RotateBinding_sent_valid c r w req Hsent) as Hv.
    now destruct (RotateBinding_sent c r w req Hv Hsent) as (_ & _ & Hu & _).
Qed.
End BaseURL.

Lemma C9_base_URL_trimmed_witness :
  let c :=
    client.mk "test-broker" "https://broker.example.com" Version2_14 None
      false false (http.mkClient 60000000000 (http.mkConfig false None)) in
  NewClient testConfiguration = inr c
  /\ ClientConfiguration.URL testConfiguration
     = "https://broker.example.com//"
  /\ (forall p, client.URL c <> p ++ "/")
  /\ (exists n, ClientConfiguration.URL testConfiguration
                = client.URL c ++ slashes n).
Proof.
  intros c.
  assert (Hn : NewClient testConfiguration = inr c) by reflexivity.
  split; [assumption |]. split; [reflexivity |].
  destruct (C9_base_URL_trimmed testConfiguration c Hn) as (Hno & Hsl & _).
  split; assumption.
Defined.

(** ** The cases of the tests

    The model computes what rotate_binding_test.go and the test of
    GetInstance expect. *)

(** "invalid request" *)
Example test_invalid_request :
  RotateBinding (testClient Version2_11 false)
    (RotateBindingRequest.mk "" "test-binding-id" false
       "test-predecessor-binding-id" None)
    (testWorld 201 "{}")
  = (inl (errorString "instanceID is required"), testWorld 201 "{}").
Proof. reflexivity. Qed.

(** "success - created" *)
Example test_success_created :
  (RotateBinding (testClient Version2_11 false) (testRequest false None)
     (testWorld 201
        (js "{ 'credentials': { 'uri': 'mysql://mysqlhost:3306/dbname',
                                'port': 3306 } }"))).1
  = inr (BindResponse.mk false
           (Some (<["uri" := JString "mysql://mysqlhost:3306/dbname"]>
                  (<["port" := JNumber "3306"]> ∅)))
           None None None None None None).
Proof. vm_compute; reflexivity. Qed.

(** "success - asynchronous" *)
Example test_success_asynchronous :
  let out :=
    RotateBinding (testClient Version2_14 false) (testRequest true None)
      (testWorld 202 operationBody) in
  out.1 = inr (BindResponse.mk true None None None None None None
                 (Some "test-operation-key"))
  /\ sent out.2 = [testSent Version2_14 true None].
Proof. split; vm_compute; reflexivity. Qed.

(** "http error" *)
Example test_http_error :
  (RotateBinding (testClient Version2_11 false) (testRequest false None)
     (mkWorld (fun _ _ => inl (errorString "http error")) []
              (fun _ => "") 0)).1
  = inl (errorString "http error").
Proof. vm_compute; reflexivity. Qed.

(** "202 with no async support" *)
Example test_202_with_no_async_support :
  match
    (RotateBinding (testClient Version2_11 false) (testRequest false None)
       (testWorld 202 operationBody)).1
  with
  | inl err => Error err
  | inr _ => ""
  end
  = "Status: 202; ErrorMessage: <nil>; Description: <nil>; ResponseError: <nil>".
Proof. vm_compute; reflexivity. Qed.

(** "200 with malformed response" *)
Example test_200_with_malformed_response :
  match
    (RotateBinding (testClient Version2_11 false) (testRequest false None)
       (testWorld 200 "{")).1
  with
  | inl err => Error err
  | inr _ => ""
  end
  = "Status: 200; ErrorMessage: <nil>; Description: <nil>; ResponseError: unexpected end of JSON input".
Proof. vm_compute; reflexivity. Qed.

(** "originating identity included" and "originating identity not sent
    unless API Version >= 2.13" *)
Example test_originating_identity :
  let oi := OriginatingIdentity.mk "fakeplatform" (js "{'user':'name'}") in
  sent (RotateBinding (testClient Version2_13 false)
          (testRequest false (Some oi)) (testWorld 201 "{}")).2
  = [testSent Version2_13 false (Some "fakeplatform eyJ1c2VyIjoibmFtZSJ9")]
  /\ sent (RotateBinding (testClient Version2_12 false)
             (testRequest false (Some oi)) (testWorld 201 "{}")).2
     = [testSent Version2_12 false None].
Proof. split; vm_compute; reflexivity. Qed.

(** An identity that fails its checks stops the call before anything is
    sent. *)
Example test_originating_identity_invalid :
  let oi := OriginatingIdentity.mk "fakeplatform" "{'user'" in
  let out :=
    RotateBinding (testClient Version2_13 false) (testRequest false (Some oi))
      (testWorld 201 "{}") in
  out.1 = inl (errorString
                 "originating identity value must be valid JSON: invalid character '''")
  /\ sent out.2 = [].
Proof. split; vm_compute; reflexivity. Qed.

(** "unsupported API version" of the test of GetInstance *)
Example test_unsupported_API_version :
  forall (operation : IO (error + unit)) (w : World),
    match
      (versionGated (testClient Version2_13 false) Version2_14
         (fun reason => errorString ("GetInstance not allowed: " ++ reason))
         operation w).1
    with
    | inl err => Error err
    | inr _ => ""
    end
    = "GetInstance not allowed: operation not allowed: must have API version >= 2.14. Current: 2.13".
Proof. reflexivity. Qed.

(** The header value of an identity, and the three ways it fails *)
Example identity_header_value :
  buildOriginatingIdentityHeaderValue
    (Some (OriginatingIdentity.mk "kubernetes" (js "{'username':'admin'}")))
  = inr "kubernetes eyJ1c2VybmFtZSI6ImFkbWluIn0=".
Proof. vm_compute; reflexivity. Qed.

Example identity_without_platform :
  buildOriginatingIdentityHeaderValue
    (Some (OriginatingIdentity.mk "" (js "{'username':'admin'}")))
  = inl (errorString "originating identity platform must not be empty").
Proof. reflexivity. Qed.

Example identity_without_value :
  buildOriginatingIdentityHeaderValue
    (Some (OriginatingIdentity.mk "kubernetes" ""))
  = inl (errorString "originating identity value must not be empty").
Proof. reflexivity. Qed.

Example identity_with_invalid_value :
  buildOriginatingIdentityHeaderValue
    (Some (OriginatingIdentity.mk "kubernetes" "{"))
  = inl (errorString
           "originating identity value must be valid JSON: unexpected end of JSON input").
Proof. vm_compute; reflexivity. Qed.

(** Bind resources that are and are not empty *)
Example bind_resource_with_app :
  BindResource.IsNotEmpty (BindResource.mk (Some "app-guid") None) = true.
Proof. reflexivity. Qed.

Example bind_resource_with_route :
  BindResource.IsNotEmpty (BindResource.mk (Some "") (Some "example.com"))
  = true.
Proof. reflexivity. Qed.

Example bind_resource_empty :
  BindResource.IsNotEmpty (BindResource.mk (Some "") None) = false.
Proof. reflexivity. Qed.

(** ** The scanner of the instance has fuel enough *)

Lemma within_eof {A} (n : nat) : within (A := A) (inl Go.eof) n.
Proof. simpl. discriminate. Qed.

Lemma within_invalid {A} (c : ascii) (n : nat) : within (A := A) (inl (Go.invalid c)) n.
Proof. simpl. discriminate. Qed.

Lemma within_map {A B} (f : A -> B) (r : error + (A * string)) (n : nat) :
  within r n -> within (Go.ok_map (fun found => (f found.1, found.2)) r) n.
Proof. destruct r as [err | [a rest]]; simpl; auto. Qed.

Lemma within_le {A} (r : error + (A * string)) (n m : nat) :
  within r n -> (n <= m)%nat -> within r m.
Proof. destruct r as [err | [a rest]]; simpl; [auto | lia]. Qed.

Lemma skip_space_length (s : string) :
  (String.length (Go.skip_space s) <= String.length s)%nat.
Proof.
  induction s as [|c s IH]; simpl; [lia |].
  destruct (Go.is_space c); simpl; lia.
Qed.

Lemma span_digits_length (s : string) :
  (String.length (Go.span_digits s).2 <= String.length s)%nat.
Proof.
  induction s as [|c s IH]; simpl; [lia |].
  destruct (Go.is_digit c); simpl; [| lia].
  destruct (Go.span_digits s); simpl in *; lia.
Qed.

Lemma span_digits_length_digits (s : string) :
  (String.length (Go.span_digits s).1 + String.length (Go.span_digits s).2 = String.length s)%nat.
Proof.
  induction s as [|c s IH]; simpl; [lia |].
  destruct (Go.is_digit c); simpl; [| lia].
  destruct (Go.span_digits s); simpl in *; lia.
Qed.

Lemma scan_digits_within (s : string) : within (Go.scan_digits s) (String.length s).
Proof.
  unfold Go.scan_digits.
  pose proof (span_digits_length_digits s) as Hl.
  destruct (Go.span_digits s) as [[|d ds] [|c r]]; simpl in *; try discriminate; lia.
Qed.

Lemma scan_int_within (s : string) : within (Go.scan_int s) (String.length s).
Proof.
  destruct s as [|c s]; simpl; [discriminate |].
  destruct (Ascii.eqb c "0"); simpl; [lia |].
  destruct (Go.is_digit c); [| discriminate].
  pose proof (span_digits_length s).
  destruct (Go.span_digits s); simpl in *; lia.
Qed.

Lemma scan_frac_atmost (s : string) : atmost (Go.scan_frac s) (String.length s).
Proof.
  destruct s as [|c s]; simpl; [lia |].
  destruct c as [[] [] [] [] [] [] [] []]; simpl; try lia.
  pose proof (scan_digits_within s) as Hd. 
  destruct (Go.scan_digits s) as [err | [d r]]; simpl in *; [auto | lia].
Qed.

Lemma scan_exp_atmost (s : string) : atmost (Go.scan_exp s) (String.length s).
Proof.
  destruct s as [|e s]; simpl; [lia |].
  destruct (Ascii.eqb e "e" || Ascii.eqb e "E")%bool; simpl; [| lia].
  destruct s as [|sg r]; simpl; [discriminate |].
  destruct (Ascii.eqb sg "+" || Ascii.eqb sg "-")%bool.
  - pose proof (scan_digits_within r) as Hd.
    destruct (Go.scan_digits r) as [err | [d r']]; simpl in *; [auto | lia].
  - pose proof (scan_digits_within (String sg r)) as Hd.
    destruct (Go.scan_digits (String sg r)) as [err | [d r']]; simpl in *; [auto | lia].
Qed.

Lemma scan_number_within (s : string) : within (Go.scan_number s) (String.length s).
Proof.
  unfold Go.scan_number.
  assert (Hs : forall s', (String.length s' <= String.length s)%nat ->
            within (Go.ok_bind (Go.scan_int s') (fun i =>
              Go.ok_bind (Go.scan_frac i.2) (fun f =>
              Go.ok_bind (Go.scan_exp f.2) (fun e => inr (i.1 ++ f.1 ++ e.1, e.2))))) (String.length s)).
  { intros s' Hle. pose proof (scan_int_within s') as Hi.
    destruct (Go.scan_int s') as [err | [i r1]]; simpl in *; [auto |].
    pose proof (scan_frac_atmost r1) as Hf.
    destruct (Go.scan_frac r1) as [err | [f r2]]; simpl in *; [auto |].
    pose proof (scan_exp_atmost r2) as He.
    destruct (Go.scan_exp r2) as [err | [e r3]]; simpl in *; [auto | lia]. }
  destruct s as [|c s']; [apply (Hs "")%string; simpl; lia |].
  destruct c as [[] [] [] [] [] [] [] []];
    try (apply (Hs (String _ s')); simpl; lia).
  specialize (Hs s' ltac:(simpl; lia)).
  destruct (Go.scan_int s') as [err | [i r1]]; simpl in *; [auto |].
  destruct (Go.scan_frac r1) as [err | [f r2]]; simpl in *; [auto |].
  destruct (Go.scan_exp r2) as [err | [e r3]]; simpl in *; [auto | lia].
Qed.

Lemma expect_atmost (literal s : string) :
  match Go.expect literal s with
  | inl err => err <> Go.depth_exceeded
  | inr rest => (String.length rest <= String.length s)%nat
  end.
Proof.
  revert s. induction literal as [|l literal IH]; intros s; simpl; [lia |].
  destruct s as [|c s]; simpl; [discriminate |].
  destruct (Ascii.eqb c l); [| discriminate].
  specialize (IH s). destruct (Go.expect literal s) as [err | rest]; [auto | lia].
Qed.

Lemma scan_chars_within (s : string) : within (Go.scan_chars s) (String.length s).
Proof.
  assert (Hn : forall n s, (String.length s < n)%nat ->
                           within (Go.scan_chars s) (String.length s)).
  { clear s. induction n as [|n IH]; intros s Hlt; [lia |].
    destruct s as [|c rest]; [simpl; discriminate |].
    cbn [Go.scan_chars].
    destruct (Ascii.eqb c (ascii_of_nat 34)); [simpl; lia |].
    destruct (Ascii.eqb c backslash).
    - destruct rest as [|e rest]; [simpl; discriminate |].
      destruct (Ascii.eqb e "u").
      + destruct rest as [|h1 [|h2 [|h3 [|h4 rest]]]]; try (simpl; discriminate).
        destruct (Go.hex_val h1), (Go.hex_val h2), (Go.hex_val h3),
                 (Go.hex_val h4); try (simpl; discriminate).
        specialize (IH rest ltac:(simpl in Hlt; lia)).
        destruct (Go.scan_chars rest) as [err | [us r]]; simpl in *; [auto | lia].
      + destruct (Go.escape e); [| simpl; discriminate].
        specialize (IH rest ltac:(simpl in Hlt; lia)).
        destruct (Go.scan_chars rest) as [err | [us r]]; simpl in *; [auto | lia].
    - destruct (Go.code c <? 32)%Z; [simpl; discriminate |].
      specialize (IH rest ltac:(simpl in Hlt; lia)).
      destruct (Go.scan_chars rest) as [err | [us r]]; simpl in *; [auto | lia]. }
  apply (Hn (S (String.length s))). lia.
Qed.

Lemma scan_fuel (fuel : nat) :
  (forall s, (2 * String.length s + 1 <= fuel)%nat ->
             within (Go.scan_value fuel s) (String.length s))
  /\ (forall s, (2 * String.length s + 2 <= fuel)%nat ->
                within (Go.scan_elements fuel s) (String.length s))
  /\ (forall s, (2 * String.length s + 2 <= fuel)%nat ->
                within (Go.scan_members fuel s) (String.length s)).
Proof.
  induction fuel as [|fuel (IHv & IHe & IHm)];
    [repeat split; intros s Hf; lia |].
  split; [| split]; intros s Hf.
  - cbn [Go.scan_value].
    pose proof (skip_space_length s) as Hsp.
    destruct (Go.skip_space s) as [|c rest]; [apply within_eof |].
    simpl in Hsp.
    destruct (Ascii.eqb c "{").
    { pose proof (skip_space_length rest) as Hsp'.
      assert (Hm : within (Go.ok_map (fun found => (JObject found.1, found.2))
                             (Go.scan_members fuel rest)) (String.length s)).
      { apply within_map. apply (within_le _ (String.length rest)); [| lia].
        apply IHm. lia. }
      destruct (Go.skip_space rest) as [|c' rest']; [exact Hm |].
      destruct c' as [[] [] [] [] [] [] [] []]; try exact Hm.
      simpl in *. lia. }
    destruct (Ascii.eqb c "[").
    { pose proof (skip_space_length rest) as Hsp'.
      assert (Hm : within (Go.ok_map (fun found => (JArray found.1, found.2))
                             (Go.scan_elements fuel rest)) (String.length s)).
      { apply within_map. apply (within_le _ (String.length rest)); [| lia].
        apply IHe. lia. }
      destruct (Go.skip_space rest) as [|c' rest']; [exact Hm |].
      destruct c' as [[] [] [] [] [] [] [] []]; try exact Hm.
      simpl in *. lia. }
    destruct (Ascii.eqb c (ascii_of_nat 34)).
    { apply (within_map (fun us => JString (Go.unquote us))).
      apply (within_le _ (String.length rest)); [apply scan_chars_within | lia]. }
    assert (Hlit : forall literal (v : JSON),
               within (Go.ok_map (fun rest' => (v, rest')) (Go.expect literal rest))
                      (String.length s)).
    { intros literal v. pose proof (expect_atmost literal rest) as He.
      destruct (Go.expect literal rest); simpl in *; [auto | lia]. }
    destruct (Ascii.eqb c "t"); [apply Hlit |].
    destruct (Ascii.eqb c "f"); [apply Hlit |].
    destruct (Ascii.eqb c "n"); [apply Hlit |].
    destruct (Ascii.eqb c "-" || Go.is_digit c)%bool; [| apply within_invalid].
    apply (within_map JNumber).
    apply (within_le _ (String.length (String c rest)));
      [apply scan_number_within | simpl; lia].
  - cbn [Go.scan_elements].
    pose proof (IHv s ltac:(lia)) as Hv.
    destruct (Go.scan_value fuel s) as [err | [v r1]]; simpl in *; [auto |].
    pose proof (skip_space_length r1) as Hsp.
    destruct (Go.skip_space r1) as [|c rest]; [discriminate |].
    simpl in Hsp.
    destruct (Ascii.eqb c ",").
    + pose proof (IHe rest ltac:(lia)) as He.
      destruct (Go.scan_elements fuel rest) as [err | [vs r2]]; simpl in *;
        [auto | lia].
    + destruct (Ascii.eqb c "]"); simpl; [lia | discriminate].
  - cbn [Go.scan_members].
    pose proof (skip_space_length s) as Hsp.
    destruct (Go.skip_space s) as [|c rest]; [apply within_eof |].
    simpl in Hsp.
    destruct (Ascii.eqb c (ascii_of_nat 34)); [| apply within_invalid].
    pose proof (scan_chars_within rest) as Hk.
    destruct (Go.scan_chars rest) as [err | [key r1]]; simpl in *; [auto |].
    pose proof (skip_space_length r1) as Hsp1.
    destruct (Go.skip_space r1) as [|c1 r2]; [discriminate |].
    simpl in Hsp1.
    destruct (Ascii.eqb c1 ":"); [| discriminate].
    pose proof (IHv r2 ltac:(lia)) as Hv.
    destruct (Go.scan_value fuel r2) as [err | [v r3]]; simpl in *; [auto |].
    pose proof (skip_space_length r3) as Hsp3.
    destruct (Go.skip_space r3) as [|c3 r4]; [discriminate |].
    simpl in Hsp3.
    destruct (Ascii.eqb c3 ",").
    + pose proof (IHm r4 ltac:(lia)) as Hm.
      destruct (Go.scan_members fuel r4) as [err | [ms r5]]; simpl in *;
        [auto | lia].
    + destruct (Ascii.eqb c3 "}"); simpl; [lia | discriminate].
Qed.

(** [scan] never runs out of fuel. *)
Lemma scan_total (s : string) : Go.scan s <> inl Go.depth_exceeded.
Proof.
  unfold Go.scan.
  pose proof (proj1 (scan_fuel (2 * String.length s + 2)) s ltac:(lia)) as Hv.
  destruct (Go.scan_value _ s) as [err | [v rest]]; simpl in *.
  - congruence.
  - destruct (Go.skip_space rest); discriminate.
Qed.

(** * Further properties *)

(** ** version.go: the order of the versions *)

(** X1.  [AtLeast] is a total preorder on versions: every version is at
    least itself, the relation is transitive, and of two versions one
    is at least the other.  [IsLessThan] is its complement, and a
    version less than another is passed by it. *)
Theorem X1_AtLeast_total_preorder :
  (forall v, APIVersion.AtLeast v v = true)
  /\ (forall u v w,
        APIVersion.AtLeast u v = true -> APIVersion.AtLeast v w = true ->
        APIVersion.AtLeast u w = true)
  /\ (forall v w,
        APIVersion.AtLeast v w = true \/ APIVersion.AtLeast w v = true)
  /\ (forall v w,
        APIVersion.IsLessThan v w = true <-> APIVersion.AtLeast v w = false)
  /\ (forall v w,
        APIVersion.IsLessThan v w = true -> APIVersion.AtLeast w v = true).
Proof.
  repeat split.
  - intros v. apply AtLeast_spec. lia.
  - intros u v w Huv Hvw. apply AtLeast_spec in Huv, Hvw.
    apply AtLeast_spec. lia.
  - intros v w.
    destruct (Z_le_gt_dec (APIVersion.order w) (APIVersion.order v)).
    + left. apply AtLeast_spec. lia.
    + right. apply AtLeast_spec. lia.
  - unfold APIVersion.IsLessThan. now intros ->%negb_true_iff.
  - unfold APIVersion.IsLessThan. now intros ->.
  - unfold APIVersion.IsLessThan. intros v w Hlt%negb_true_iff.
    apply AtLeast_false in Hlt. apply AtLeast_spec. lia.
Qed.

(** A version of the registry is one of the seven. *)
Lemma APIVersions_lookup (label : string) (v : APIVersion.t) :
  APIVersions !! label = Some v ->
  In (label, v)
    [("2.11", Version2_11); ("2.12", Version2_12); ("2.13", Version2_13);
     ("2.14", Version2_14); ("2.15", Version2_15); ("2.16", Version2_16);
     ("2.17", Version2_17)].
Proof.
  unfold APIVersions. intros Hl.
  repeat (apply lookup_insert_Some in Hl as [[<- <-] | [_ Hl]];
          [simpl; tauto |]).
  now rewrite lookup_empty in Hl.
Qed.

(** X2.  The registry [APIVersions] holds each of its versions under the
    label of that version; [LatestAPIVersion] is in it and is at least
    every version of it; and two versions of it that are at least one
    another are the same version, so that the ranks tell them apart. *)
Theorem X2_registry :
  (forall label v, APIVersions !! label = Some v -> APIVersion.label v = label)
  /\ APIVersions !! APIVersion.label LatestAPIVersion = Some LatestAPIVersion
  /\ (forall label v,
        APIVersions !! label = Some v ->
        APIVersion.AtLeast LatestAPIVersion v = true)
  /\ (forall label1 label2 v1 v2,
        APIVersions !! label1 = Some v1 -> APIVersions !! label2 = Some v2 ->
        APIVersion.AtLeast v1 v2 = true -> APIVersion.AtLeast v2 v1 = true ->
        v1 = v2).
Proof.
  split; [| split; [| split]].
  - intros label v Hl%APIVersions_lookup. simpl in Hl.
    repeat (destruct Hl as [[= <- <-] | Hl]; [reflexivity |]). contradiction.
  - reflexivity.
  - intros label v Hl%APIVersions_lookup. simpl in Hl.
    repeat (destruct Hl as [[= <- <-] | Hl]; [reflexivity |]). contradiction.
  - intros label1 label2 v1 v2 H1%APIVersions_lookup H2%APIVersions_lookup.
    simpl in H1, H2.
    repeat (destruct H1 as [[= <- <-] | H1]; [| try contradiction]);
      repeat (destruct H2 as [[= <- <-] | H2]; [| try contradiction]);
      intros Ha Hb; try reflexivity; discriminate.
Qed.

Section VersionCheck.
Context `{Packages}.

(** X3.  The version check is monotone in the version asked for: a
    client that passes the check for a version passes it for every
    version that this one is at least, and a client that fails it for a
    version fails it for every version that is at least this one. *)
Theorem X3_version_check_monotone (c : client.t) (w w' : APIVersion.t) :
  APIVersion.AtLeast w w' = true ->
  (validateClientVersionIsAtLeast c w = None ->
   validateClientVersionIsAtLeast c w' = None)
  /\ (validateClientVersionIsAtLeast c w' <> None ->
      validateClientVersionIsAtLeast c w <> None).
Proof.
  intros Hww. rewrite !validateClientVersionIsAtLeast_eq.
  destruct (APIVersion.AtLeast (client.APIVersion c) w) eqn:Hw;
    destruct (APIVersion.AtLeast (client.APIVersion c) w') eqn:Hw';
    split; try congruence;
    exfalso; apply AtLeast_spec in Hww, Hw; apply AtLeast_false in Hw'; lia.
Qed.
End VersionCheck.

Lemma X3_version_check_monotone_witness :
  APIVersion.AtLeast Version2_14 Version2_13 = true
  /\ validateClientVersionIsAtLeast (testClient Version2_15 false) Version2_14
     = None
  /\ validateClientVersionIsAtLeast (testClient Version2_15 false) Version2_13
     = None.
Proof.
  split; [reflexivity |]. split; [reflexivity |].
  apply (proj1 (X3_version_check_monotone (testClient Version2_15 false)
                  Version2_14 Version2_13 eq_refl)).
  reflexivity.
Defined.

(** ** rotate_binding.go: validation and the outcome of a call *)

Section RotateOutcome.
Context `{Packages}.

(** X4.  Validation passes exactly when the three identifiers are not
    empty.  The instance id is looked at first: the error names
    [instanceID] exactly when the instance id is empty, whatever the
    other two are; it names [predecessorBindingID] exactly when the
    predecessor is the only one that is empty. *)
Theorem X4_validation (r : RotateBindingRequest.t) :
  (validateRotateBindingRequest r = None
     <-> RotateBindingRequest.InstanceID r <> ""
         /\ RotateBindingRequest.BindingID r <> ""
         /\ RotateBindingRequest.PredecessorBindingID r <> "")
  /\ (validateRotateBindingRequest r
        = Some (errorString "instanceID is required")
      <-> RotateBindingRequest.InstanceID r = "")
  /\ (validateRotateBindingRequest r
        = Some (errorString "predecessorBindingID is required")
      <-> RotateBindingRequest.InstanceID r <> ""
          /\ RotateBindingRequest.BindingID r <> ""
          /\ RotateBindingRequest.PredecessorBindingID r = "").
Proof.
  split; [| split].
  - split; [apply validateRotateBindingRequest_None |].
    intros (Hi & Hb & Hp). now apply validateRotateBindingRequest_valid.
  - split; [| apply validateRotateBindingRequest_instanceID].
    unfold validateRotateBindingRequest.
    destruct (String.eqb_spec (RotateBindingRequest.InstanceID r) "");
      [auto |].
    destruct (String.eqb (RotateBindingRequest.BindingID r) "");
      [discriminate |].
    destruct (String.eqb (RotateBindingRequest.PredecessorBindingID r) "");
      discriminate.
  - split.
    + unfold validateRotateBindingRequest.
      destruct (String.eqb_spec (RotateBindingRequest.InstanceID r) "");
        [discriminate |].
      destruct (String.eqb_spec (RotateBindingRequest.BindingID r) "");
        [discriminate |].
      destruct (String.eqb_spec (RotateBindingRequest.PredecessorBindingID r) "");
        [auto | discriminate].
    + intros (Hi & Hb & Hp).
      now apply validateRotateBindingRequest_predecessor.
Qed.

(** What [prepareAndDo] leaves of the world: the network and the supply
    of UUIDs as they were, one UUID drawn at most, one request sent at
    most and none without a UUID drawn. *)
Lemma prepareAndDo_frame {A} (marshal : A -> error + string) (c : client.t)
    (method URL : string) (params : option (gmap string string))
    (body : option A) (oi : option OriginatingIdentity.t) (w : World) :
  let w' := (prepareAndDo marshal c method URL params body oi w).2 in
  w' = w \/ w' = after w 1 [] \/ exists req, w' = after w 1 [req].
Proof.
  cbv zeta. unfold prepareAndDo, after.
  destruct (match body with
            | Some b => match marshal b with
                        | inl err => inl err
                        | inr bodyBytes => inr (Some bodyBytes)
                        end
            | None => inr None
            end) as [err | bodyReader]; [now left |].
  destruct (http_NewRequest method URL) as [err |]; [now left |].
  unfold bind, uuid_New, httpClient_Do, ret. right.
  destruct oi as [i |];
    [destruct (APIVersion.AtLeast (client.APIVersion c) Version2_13);
     [destruct (buildOriginatingIdentityHeaderValue (Some i)) |] |];
    simpl; rewrite ?app_nil_r; eauto.
Qed.

(** X5.  A call of [RotateBinding] leaves the network and the supply of
    UUIDs as they are, draws one UUID at most and sends one request at
    most, after what was sent before; a request that fails validation
    leaves the world untouched. *)
Theorem X5_RotateBinding_frame (c : client.t) (r : RotateBindingRequest.t)
    (w : World) :
  let w' := (RotateBinding c r w).2 in
  (w' = w \/ w' = after w 1 [] \/ exists req, w' = after w 1 [req])
  /\ (validateRotateBindingRequest r <> None -> w' = w).
Proof.
  cbv zeta. destruct (validateRotateBindingRequest r) as [err|] eqn:Hv.
  - rewrite (RotateBinding_invalid c r err w Hv). split; [now left | reflexivity].
  - split; [| congruence]. rewrite (RotateBinding_valid c r w Hv).
    match goal with
    | |- context [prepareAndDo ?m ?c ?me ?u ?p ?b ?o ?w] =>
        pose proof (prepareAndDo_frame m c me u p b o w) as Hf;
        destruct (prepareAndDo m c me u p b o w) as [response w']
    end.
    exact Hf.
Qed.

(** X6.  A failure of the transport comes back as it is: when the
    request of a valid call was sent and the network answered it with
    an error, the call returns that error. *)
Theorem X6_transport_failure (c : client.t) (r : RotateBindingRequest.t)
    (w : World) (req : http.Request) (err : error) :
  validateRotateBindingRequest r = None ->
  sent (RotateBinding c r w).2 = (sent w ++ [req])%list ->
  network w (sent w) req = inl err ->
  (RotateBinding c r w).1 = inl err.
Proof.
  intros Hv Hsent Hnet.
  destruct (RotateBinding_sent c r w req Hv Hsent) as (-> & _).
  now rewrite Hnet.
Qed.

(** The switch returns no error but an [HTTPStatusCodeError] with the
    status code of the response. *)
Lemma rotateBindingResult_error_status (c : client.t)
    (r : RotateBindingRequest.t) (response : http.Response) (err : error) :
  rotateBindingResult c r response = inl err ->
  statusOf err = Some (http.StatusCode response).
Proof.
  unfold rotateBindingResult.
  repeat match goal with
         | |- context [if ?b then _ else _] => destruct b
         | |- context [match unmarshalResponse ?c ?d ?r with _ => _ end] =>
             destruct (unmarshalResponse c d r)
         end;
    intros [= <-]; try reflexivity; apply handleFailureResponse_status.
Qed.

(** X7.  Once a response was received, a call that returns an error
    returns an [HTTPStatusCodeError] that carries the status code of
    that response, in every branch of the switch. *)
Theorem X7_error_carries_status (c : client.t) (r : RotateBindingRequest.t)
    (w : World) (req : http.Request) (response : http.Response)
    (err : error) :
  validateRotateBindingRequest r = None ->
  sent (RotateBinding c r w).2 = (sent w ++ [req])%list ->
  network w (sent w) req = inr response ->
  (RotateBinding c r w).1 = inl err ->
  statusOf err = Some (http.StatusCode response).
Proof.
  intros Hv Hsent Hnet.
  destruct (RotateBinding_sent c r w req Hv Hsent) as (-> & _).
  rewrite Hnet. apply rotateBindingResult_error_status.
Qed.

(** X8.  A status code other than 200, 201 and 202 is a failure: the
    call returns the error of [handleFailureResponse] and no response,
    whatever the body holds. *)
Theorem X8_other_status_fails (c : client.t) (r : RotateBindingRequest.t)
    (w : World) (req : http.Request) (response : http.Response) :
  validateRotateBindingRequest r = None ->
  sent (RotateBinding c r w).2 = (sent w ++ [req])%list ->
  network w (sent w) req = inr response ->
  http.StatusCode response <> 200%Z ->
  http.StatusCode response <> 201%Z ->
  http.StatusCode response <> 202%Z ->
  (RotateBinding c r w).1 = inl (handleFailureResponse c response).
Proof.
  intros Hv Hsent Hnet H200 H201 H202.
  destruct (RotateBinding_sent c r w req Hv Hsent) as (-> & _).
  rewrite Hnet. unfold rotateBindingResult, http.StatusOK,
    http.StatusCreated, http.StatusAccepted.
  now rewrite !(proj2 (Z.eqb_neq _ _)) by assumption.
Qed.

(** X9.  A body that does not decode, under a status that announces a
    result, gives an [HTTPStatusCodeError] with that status and the
    failure of the decoding as its [ResponseError], and no messages:
    so on 200 and 201, and so on 202 for a request that accepts
    incomplete results. *)
Theorem X9_undecodable_body (c : client.t) (r : RotateBindingRequest.t)
    (w : World) (req : http.Request) (response : http.Response)
    (err : error) :
  validateRotateBindingRequest r = None ->
  sent (RotateBinding c r w).2 = (sent w ++ [req])%list ->
  network w (sent w) req = inr response ->
  ((http.StatusCode response = 200%Z \/ http.StatusCode response = 201%Z)
   /\ unmarshalResponse c json_BindResponse response = inl err)
  \/ (http.StatusCode response = 202%Z
      /\ RotateBindingRequest.AcceptsIncomplete r = true
      /\ unmarshalResponse c json_bindSuccessResponseBody response = inl err) ->
  (RotateBinding c r w).1
    = inl (HTTPStatusCodeError (http.StatusCode response) None None (Some err)).
Proof.
  intros Hv Hsent Hnet Hcase.
  destruct (RotateBinding_sent c r w req Hv Hsent) as (-> & _).
  rewrite Hnet. unfold rotateBindingResult.
  destruct Hcase as [[[Hs | Hs] Hu] | (Hs & Ha & Hu)];
    rewrite Hs in *; simpl; rewrite ?Ha, Hu; reflexivity.
Qed.

(** X10.  On a 200 or a 201 whose body decodes, the response returned is
    the decoded one when the client has alpha features; without them it
    differs from the decoded one in its endpoints only, which are
    nil. *)
Theorem X10_sync_response (c : client.t) (r : RotateBindingRequest.t)
    (w : World) (req : http.Request) (response : http.Response)
    (decoded : BindResponse.t) :
  validateRotateBindingRequest r = None ->
  sent (RotateBinding c r w).2 = (sent w ++ [req])%list ->
  network w (sent w) req = inr response ->
  http.StatusCode response = 200%Z \/ http.StatusCode response = 201%Z ->
  unmarshalResponse c json_BindResponse response = inr decoded ->
  exists userResponse,
    (RotateBinding c r w).1 = inr userResponse
    /\ (client.EnableAlphaFeatures c = true -> userResponse = decoded)
    /\ (client.EnableAlphaFeatures c = false ->
        BindResponse.Endpoints userResponse = None)
    /\ BindResponse.Async userResponse = BindResponse.Async decoded
    /\ BindResponse.Credentials userResponse = BindResponse.Credentials decoded
    /\ BindResponse.SyslogDrainURL userResponse
       = BindResponse.SyslogDrainURL decoded
    /\ BindResponse.RouteServiceURL userResponse
       = BindResponse.RouteServiceURL decoded
    /\ BindResponse.VolumeMounts userResponse
       = BindResponse.VolumeMounts decoded
    /\ BindResponse.Metadata userResponse = BindResponse.Metadata decoded
    /\ BindResponse.OperationKey userResponse
       = BindResponse.OperationKey decoded.
Proof.
  intros Hv Hsent Hnet Hs Hu.
  destruct (RotateBinding_sent c r w req Hv Hsent) as (-> & _).
  rewrite Hnet, (rotateBindingResult_sync c r response decoded Hs Hu).
  eexists. split; [reflexivity |].
  destruct (client.EnableAlphaFeatures c); repeat split; congruence.
Qed.
End RotateOutcome.

Lemma X6_transport_failure_witness :
  let c := testClient Version2_11 false in
  let r := testRequest false None in
  let w := failingWorld (errorString "http error") in
  let req := testSent Version2_11 false None in
  validateRotateBindingRequest r = None
  /\ sent (RotateBinding c r w).2 = (sent w ++ [req])%list
  /\ network w (sent w) req = inl (errorString "http error")
  /\ (RotateBinding c r w).1 = inl (errorString "http error").
Proof.
  intros c r w req.
  assert (Hv : validateRotateBindingRequest r = None) by reflexivity.
  assert (Hsent : sent (RotateBinding c r w).2 = (sent w ++ [req])%list)
    by (vm_compute; reflexivity).
  assert (Hnet : network w (sent w) req = inl (errorString "http error"))
    by reflexivity.
  repeat (split; [assumption |]).
  exact (X6_transport_failure c r w req _ Hv Hsent Hnet).
Defined.

Lemma X7_error_carries_status_witness :
  let c := testClient Version2_11 false in
  let r := testRequest false None in
  let w := testWorld 500 "{" in
  let req := testSent Version2_11 false None in
  let response := http.mkResponse 500 (inr "{") in
  let err :=
    HTTPStatusCodeError 500 None None
      (Some (SyntaxError "unexpected end of JSON input")) in
  validateRotateBindingRequest r = None
  /\ sent (RotateBinding c r w).2 = (sent w ++ [req])%list
  /\ network w (sent w) req = inr response
  /\ (RotateBinding c r w).1 = inl err
  /\ statusOf err = Some 500%Z.
Proof.
  intros c r w req response err.
  assert (Hv : validateRotateBindingRequest r = None) by reflexivity.
  assert (Hsent : sent (RotateBinding c r w).2 = (sent w ++ [req])%list)
    by (vm_compute; reflexivity).
  assert (Hnet : network w (sent w) req = inr response) by reflexivity.
  assert (Hres : (RotateBinding c r w).1 = inl err)
    by (vm_compute; reflexivity).
  repeat (split; [assumption |]).
  exact (X7_error_carries_status c r w req response err Hv Hsent Hnet Hres).
Defined.

Lemma X8_other_status_fails_witness :
  let c := testClient Version2_14 false in
  let r := testRequest true None in
  let w := testWorld 410 "{}" in
  let req := testSent Version2_14 true None in
  let response := http.mkResponse 410 (inr "{}") in
  validateRotateBindingRequest r = None
  /\ sent (RotateBinding c r w).2 = (sent w ++ [req])%list
  /\ network w (sent w) req = inr response
  /\ (RotateBinding c r w).1 = inl (handleFailureResponse c response).
Proof.
  intros c r w req response.
  assert (Hv : validateRotateBindingRequest r = None) by reflexivity.
  assert (Hsent : sent (RotateBinding c r w).2 = (sent w ++ [req])%list)
    by (vm_compute; reflexivity).
  assert (Hnet : network w (sent w) req = inr response) by reflexivity.
  repeat (split; [assumption |]).
  apply (X8_other_status_fails c r w req response Hv Hsent Hnet);
    discriminate.
Defined.

Lemma X9_undecodable_body_witness :
  let c := testClient Version2_11 false in
  let r := testRequest false None in
  let w := testWorld 200 "{" in
  let req := testSent Version2_11 false None in
  let response := http.mkResponse 200 (inr "{") in
  let err := SyntaxError "unexpected end of JSON input" in
  validateRotateBindingRequest r = None
  /\ sent (RotateBinding c r w).2 = (sent w ++ [req])%list
  /\ network w (sent w) req = inr response
  /\ unmarshalResponse c json_BindResponse response = inl err
  /\ (RotateBinding c r w).1
     = inl (HTTPStatusCodeError 200 None None (Some err)).
Proof.
  intros c r w req response err.
  assert (Hv : validateRotateBindingRequest r = None) by reflexivity.
  assert (Hsent : sent (RotateBinding c r w).2 = (sent w ++ [req])%list)
    by (vm_compute; reflexivity).
  assert (Hnet : network w (sent w) req = inr response) by reflexivity.
  assert (Hu : unmarshalResponse c json_BindResponse response = inl err)
    by reflexivity.
  repeat (split; [assumption |]).
  apply (X9_undecodable_body c r w req response err Hv Hsent Hnet).
  left. split; [left; reflexivity | exact Hu].
Defined.

Lemma X10_sync_response_witness :
  let c := testClient Version2_14 false in
  let r := testRequest false None in
  let w := testWorld 201 endpointsBody in
  let req := testSent Version2_14 false None in
  let response := http.mkResponse 201 (inr endpointsBody) in
  let decoded :=
    BindResponse.mk false None None None None
      (Some [Endpoint.mk "db.example.com" (Some [5432%Z]) None])
      None (Some "op-1") in
  validateRotateBindingRequest r = None
  /\ sent (RotateBinding c r w).2 = (sent w ++ [req])%list
  /\ network w (sent w) req = inr response
  /\ unmarshalResponse c json_BindResponse response = inr decoded
  /\ exists userResponse,
       (RotateBinding c r w).1 = inr userResponse
       /\ BindResponse.Endpoints userResponse = None
       /\ BindResponse.OperationKey userResponse = Some "op-1".
Proof.
  intros c r w req response decoded.
  assert (Hv : validateRotateBindingRequest r = None) by reflexivity.
  assert (Hsent : sent (RotateBinding c r w).2 = (sent w ++ [req])%list)
    by (vm_compute; reflexivity).
  assert (Hnet : network w (sent w) req = inr response) by reflexivity.
  assert (Hu : unmarshalResponse c json_BindResponse response = inr decoded)
    by (vm_compute; reflexivity).
  repeat (split; [assumption |]).
  destruct (X10_sync_response c r w req response decoded Hv Hsent Hnet
              (or_intror eq_refl) Hu)
    as (u & Hres & _ & Hend & _ & _ & _ & _ & _ & _ & Hop).
  exists u. split; [exact Hres |]. split; [now apply Hend | exact Hop].
Defined.

(** ** client.go: the request that [prepareAndDo] builds *)

Section PreparedRequest.
Context `{Packages}.

(** The outcome of [prepareAndDo], case by case *)
Lemma prepareAndDo_outcome {A} (marshal : A -> error + string) (c : client.t)
    (method URL : string) (params : option (gmap string string))
    (body : option A) (oi : option OriginatingIdentity.t) (w : World) :
  prepareAndDo marshal c method URL params body oi w =
    match marshalled marshal body with
    | inl err => (inl err, w)
    | inr bodyReader =>
        match http_NewRequest method URL with
        | Some err => (inl err, w)
        | None =>
            match
              match oi with
              | Some i =>
                  if APIVersion.AtLeast (client.APIVersion c) Version2_13
                  then buildOriginatingIdentityHeaderValue (Some i)
                  else inr ""
              | None => inr ""
              end
            with
            | inl err => (inl err, after w 1 [])
            | inr _ =>
                let req :=
                  http.mkRequest method URL
                    (requestHeader c (bool_decide (bodyReader <> None))
                       (uuids w (drawn w))
                       (identityHeader (client.APIVersion c) oi))
                    (default ∅ params) bodyReader in
                (network w (sent w) req, after w 1 [req])
            end
        end
    end.
Proof.
  unfold prepareAndDo, marshalled, after.
  destruct (match body with
            | Some b => match marshal b with
                        | inl err => inl err
                        | inr bodyBytes => inr (Some bodyBytes)
                        end
            | None => inr None
            end) as [err | bodyReader]; [reflexivity |].
  destruct (http_NewRequest method URL) as [err |]; [reflexivity |].
  unfold bind, uuid_New, httpClient_Do, ret, requestHeader, identityHeader,
    authorization.
  destruct oi as [i |];
    [destruct (APIVersion.AtLeast (client.APIVersion c) Version2_13);
     [destruct (buildOriginatingIdentityHeaderValue (Some i))
        as [err | headerValue] eqn:Hb |] |];
    simpl; rewrite ?app_nil_r; try reflexivity;
    try (apply buildOriginatingIdentityHeaderValue_inr in Hb
           as (_ & _ & _ & ->));
    destruct bodyReader, (client.AuthConfig c) as [[[?|] [?|]]|];
    reflexivity.
Qed.

(** X11.  [prepareAndDo] sends a request exactly when the body, if there
    is one, can be marshalled, [http.NewRequest] accepts the method and
    the URL, and the originating identity, if one is given to a client
    of version 2.13 at least, passes its checks.  Otherwise it returns
    an error and nothing is sent. *)
Theorem X11_prepareAndDo_sends_iff {A} (marshal : A -> error + string)
    (c : client.t) (method URL : string)
    (params : option (gmap string string)) (body : option A)
    (oi : option OriginatingIdentity.t) (w : World) :
  let out := prepareAndDo marshal c method URL params body oi w in
  let ready :=
    (exists bodyReader, marshalled marshal body = inr bodyReader)
    /\ http_NewRequest method URL = None
    /\ (forall i, oi = Some i ->
          APIVersion.AtLeast (client.APIVersion c) Version2_13 = true ->
          exists h, buildOriginatingIdentityHeaderValue (Some i) = inr h) in
  ((exists req, sent out.2 = (sent w ++ [req])%list) <-> ready)
  /\ (~ ready -> (exists err, out.1 = inl err) /\ sent out.2 = sent w).
Proof.
  cbv zeta. rewrite prepareAndDo_outcome.
  destruct (marshalled marshal body) as [err | bodyReader].
  { split.
    - split; [intros [req Hreq]; now apply sent_not_grown in Hreq |].
      intros [[b Hb] _]. discriminate.
    - intros _. eauto. }
  destruct (http_NewRequest method URL) as [err |].
  { split.
    - split; [intros [req Hreq]; now apply sent_not_grown in Hreq |].
      intros (_ & Hn & _). discriminate.
    - intros _. eauto. }
  destruct oi as [i |];
    [destruct (APIVersion.AtLeast (client.APIVersion c) Version2_13);
     [destruct (buildOriginatingIdentityHeaderValue (Some i))
        as [err | headerValue] eqn:Hb |] |];
    unfold after; cbn [fst snd sent].
  - rewrite app_nil_r. split.
    + split; [intros [req Hreq]; now apply sent_not_grown in Hreq |].
      intros (_ & _ & Hi). destruct (Hi i eq_refl eq_refl) as [h Hh].
      congruence.
    + intros _. eauto.
  - split.
    + split; [| eauto]. intros _.
      split; [eauto |]. split; [reflexivity |].
      intros i' [= <-] _. rewrite Hb. eauto.
    + intros Hn. exfalso. apply Hn.
      split; [eauto |]. split; [reflexivity |].
      intros i' [= <-] _. rewrite Hb. eauto.
  - split.
    + split; [| eauto]. intros _.
      split; [eauto |]. split; [reflexivity |]. intros i' _ Hf. discriminate.
    + intros Hn. exfalso. apply Hn.
      split; [eauto |]. split; [reflexivity |]. intros i' _ Hf. discriminate.
  - split.
    + split; [| eauto]. intros _.
      split; [eauto |]. split; [reflexivity |]. intros i' Hf. discriminate.
    + intros Hn. exfalso. apply Hn.
      split; [eauto |]. split; [reflexivity |]. intros i' Hf. discriminate.
Qed.

(** The request that a call sent is the one of [prepareAndDo_outcome]. *)
Lemma prepareAndDo_request {A} (marshal : A -> error + string) (c : client.t)
    (method URL : string) (params : option (gmap string string))
    (body : option A) (oi : option OriginatingIdentity.t) (w : World)
    (req : http.Request) :
  sent (prepareAndDo marshal c method URL params body oi w).2
    = (sent w ++ [req])%list ->
  exists bodyReader,
    marshalled marshal body = inr bodyReader
    /\ req = http.mkRequest method URL
               (requestHeader c (bool_decide (bodyReader <> None))
                  (uuids w (drawn w))
                  (identityHeader (client.APIVersion c) oi))
               (default ∅ params) bodyReader
    /\ (prepareAndDo marshal c method URL params body oi w).2
       = after w 1 [req].
Proof.
  rewrite prepareAndDo_outcome.
  destruct (marshalled marshal body) as [err | bodyReader];
    [intros Hs; now apply sent_not_grown in Hs |].
  destruct (http_NewRequest method URL) as [err |];
    [intros Hs; now apply sent_not_grown in Hs |].
  match goal with
  | |- context [match ?x with inl _ => _ | inr _ => _ end] => destruct x
  end; simpl.
  - rewrite app_nil_r. intros Hs. now apply sent_not_grown in Hs.
  - intros [_ <-]%app_inj_tail. eauto.
Qed.

(** The headers of a request, name by name *)
Lemma requestHeader_lookup (c : client.t) (hasBody : bool)
    (requestId : string) (oiHeader : option string) :
  let header := requestHeader c hasBody requestId oiHeader in
  header !! APIVersionHeader = Some (APIVersion.label (client.APIVersion c))
  /\ header !! contentType = (if hasBody then Some jsonType else None)
  /\ header !! "Authorization" = authorization (client.AuthConfig c)
  /\ header !! RequestIdentityheader = Some requestId
  /\ header !! OriginatingIdentityHeader = oiHeader
  /\ forall name,
       is_Some (header !! name) ->
       In name [APIVersionHeader; contentType; "Authorization";
                RequestIdentityheader; OriginatingIdentityHeader].
Proof.
  cbv zeta. unfold requestHeader.
  destruct hasBody, (authorization (client.AuthConfig c)), oiHeader;
    (repeat split; [by simplify_map_eq .. |]);
    intros name [value Hv];
    repeat (apply lookup_insert_Some in Hv as [[<- _] | [_ Hv]];
            [simpl; tauto |]);
    now rewrite lookup_empty in Hv.
Qed.
End PreparedRequest.

Section RequestHeaders.
Context `{Packages}.

(** X12.  The request that [prepareAndDo] sends has the version header
    with the label of the active version, the content type
    application/json exactly when it has a body, which is when a body
    was given, and the request-identity header with the UUID drawn for
    this call; it has no header besides these three, the credential and
    the originating identity. *)
Theorem X12_request_headers {A} (marshal : A -> error + string)
    (c : client.t) (method URL : string)
    (params : option (gmap string string)) (body : option A)
    (oi : option OriginatingIdentity.t) (w : World) (req : http.Request) :
  sent (prepareAndDo marshal c method URL params body oi w).2
    = (sent w ++ [req])%list ->
  http.Header req !! APIVersionHeader
    = Some (APIVersion.label (client.APIVersion c))
  /\ http.Header req !! contentType
     = match http.Body req with
       | Some _ => Some jsonType
       | None => None
       end
  /\ (http.Body req = None <-> body = None)
  /\ http.Header req !! RequestIdentityheader = Some (uuids w (drawn w))
  /\ forall name,
       is_Some (http.Header req !! name) ->
       In name [APIVersionHeader; contentType; "Authorization";
                RequestIdentityheader; OriginatingIdentityHeader].
Proof.
  intros Hsent.
  destruct (prepareAndDo_request marshal c method URL params body oi w req
              Hsent) as (bodyReader & Hm & -> & _).
  destruct (requestHeader_lookup c (bool_decide (bodyReader <> None))
              (uuids w (drawn w)) (identityHeader (client.APIVersion c) oi))
    as (Hv & Hc & _ & Hr & _ & Hn).
  cbn [http.Header http.Body].
  split; [exact Hv |]. split; [| split; [| split; [exact Hr | exact Hn]]].
  - rewrite Hc. now destruct bodyReader.
  - unfold marshalled in Hm.
    destruct body as [b|]; [destruct (marshal b) |];
      inversion Hm; split; congruence.
Qed.

(** X13.  The request that [prepareAndDo] sends has no header
    [Authorization] when the client has no authentication
    configuration.  With a basic credential the header is [Basic] and
    the standard base64 encoding of the user name, a colon and the
    password, which decodes to them; the basic credential is used when
    both are there.  With a bearer credential alone it is [Bearer] and
    the token. *)
Theorem X13_authorization_header {A} (marshal : A -> error + string)
    (c : client.t) (method URL : string)
    (params : option (gmap string string)) (body : option A)
    (oi : option OriginatingIdentity.t) (w : World) (req : http.Request) :
  sent (prepareAndDo marshal c method URL params body oi w).2
    = (sent w ++ [req])%list ->
  (client.AuthConfig c = None -> http.Header req !! "Authorization" = None)
  /\ (forall auth basic,
        client.AuthConfig c = Some auth ->
        AuthConfig.BasicAuthConfig auth = Some basic ->
        exists credentials,
          http.Header req !! "Authorization" = Some ("Basic " ++ credentials)
          /\ base64.DecodeString credentials
             = Some (BasicAuthConfig.Username basic ++ ":"
                     ++ BasicAuthConfig.Password basic))
  /\ (forall auth bearer,
        client.AuthConfig c = Some auth ->
        AuthConfig.BasicAuthConfig auth = None ->
        AuthConfig.BearerConfig auth = Some bearer ->
        http.Header req !! "Authorization"
          = Some ("Bearer " ++ BearerConfig.Token bearer))
  /\ (forall auth,
        client.AuthConfig c = Some auth ->
        AuthConfig.BasicAuthConfig auth = None ->
        AuthConfig.BearerConfig auth = None ->
        http.Header req !! "Authorization" = None).
Proof.
  intros Hsent.
  destruct (prepareAndDo_request marshal c method URL params body oi w req
              Hsent) as (bodyReader & _ & -> & _).
  destruct (requestHeader_lookup c (bool_decide (bodyReader <> None))
              (uuids w (drawn w)) (identityHeader (client.APIVersion c) oi))
    as (_ & _ & Ha & _).
  cbn [http.Header]. rewrite Ha. unfold authorization.
  split; [now intros -> |]. split; [| split].
  - intros auth basic -> ->. eexists. split; [reflexivity |].
    apply DecodeString_EncodeToString.
  - now intros auth bearer -> -> ->.
  - now intros auth -> -> ->.
Qed.

(** X14.  A client below version 2.13 does not look at the originating
    identity: with an identity, valid or not, [prepareAndDo] does what
    it does without one. *)
Theorem X14_identity_ignored_below_2_13 {A} (marshal : A -> error + string)
    (c : client.t) (method URL : string)
    (params : option (gmap string string)) (body : option A)
    (i : OriginatingIdentity.t) (w : World) :
  APIVersion.AtLeast (client.APIVersion c) Version2_13 = false ->
  prepareAndDo marshal c method URL params body (Some i) w
    = prepareAndDo marshal c method URL params body None w.
Proof.
  intros Hv. rewrite !prepareAndDo_outcome. unfold identityHeader.
  now rewrite Hv.
Qed.

(** X15.  Two calls of [prepareAndDo] in a row that each send a request
    give the two requests the two UUIDs drawn one after the other, and
    the log of the world holds the two requests in the order of the
    calls. *)
Theorem X15_request_identities {A B} (marshal1 : A -> error + string)
    (marshal2 : B -> error + string) (c1 c2 : client.t)
    (method1 URL1 method2 URL2 : string)
    (params1 params2 : option (gmap string string))
    (body1 : option A) (body2 : option B)
    (oi1 oi2 : option OriginatingIdentity.t) (w : World)
    (req1 req2 : http.Request) :
  let w1 := (prepareAndDo marshal1 c1 method1 URL1 params1 body1 oi1 w).2 in
  let w2 := (prepareAndDo marshal2 c2 method2 URL2 params2 body2 oi2 w1).2 in
  sent w1 = (sent w ++ [req1])%list ->
  sent w2 = (sent w1 ++ [req2])%list ->
  http.Header req1 !! RequestIdentityheader = Some (uuids w (drawn w))
  /\ http.Header req2 !! RequestIdentityheader = Some (uuids w (S (drawn w)))
  /\ sent w2 = (sent w ++ [req1; req2])%list.
Proof.
  cbv zeta. intros Hs1 Hs2.
  destruct (prepareAndDo_request marshal1 c1 method1 URL1 params1 body1 oi1
              w req1 Hs1) as (b1 & _ & Hreq1 & Hw1).
  destruct (prepareAndDo_request marshal2 c2 method2 URL2 params2 body2 oi2
              _ req2 Hs2) as (b2 & _ & Hreq2 & Hw2).
  rewrite Hw2, Hw1. rewrite Hw1 in Hreq2. cbn [after sent uuids drawn] in *.
  split; [| split].
  - rewrite Hreq1. cbn [http.Header].
    apply (requestHeader_lookup c1 _ _ _).
  - rewrite Hreq2. cbn [http.Header].
    apply (requestHeader_lookup c2 _ _ _).
  - now rewrite <- app_assoc.
Qed.

(** X16.  The request that [RotateBinding] sends is a PUT with a body:
    the JSON object whose one member, "predecessor_binding_id", is the
    predecessor binding id of the request as a JSON string; and with
    the content type application/json and the version header. *)
Theorem X16_RotateBinding_request (c : client.t) (r : RotateBindingRequest.t)
    (w : World) (req : http.Request) :
  sent (RotateBinding c r w).2 = (sent w ++ [req])%list ->
  http.Method req = "PUT"
  /\ http.Body req
     = Some ("{" ++ dquote ++ "predecessor_binding_id" ++ dquote ++ ":"
             ++ json_quote (RotateBindingRequest.PredecessorBindingID r)
             ++ "}")
  /\ http.Header req !! contentType = Some "application/json"
  /\ http.Header req !! APIVersionHeader
     = Some (APIVersion.label (client.APIVersion c)).
Proof.
  intros Hsent.
  pose proof (RotateBinding_sent_valid c r w req Hsent) as Hv.
  rewrite (RotateBinding_valid c r w Hv) in Hsent.
  match type of Hsent with
  | context [prepareAndDo ?m ?c ?me ?u ?p ?b ?o ?w] =>
      pose proof (prepareAndDo_request m c me u p b o w req) as Hr;
      destruct (prepareAndDo m c me u p b o w) as [response w']
  end.
  destruct (Hr Hsent) as (bodyReader & Hm & -> & _).
  cbn in Hm. injection Hm as <-.
  cbn [http.Method http.Body http.Header].
  split; [reflexivity |]. split; [reflexivity |].
  split; apply (requestHeader_lookup c true _ _).
Qed.
End RequestHeaders.

Lemma X12_request_headers_witness :
  let c := testClient Version2_14 false in
  let w := testWorld 200 "{}" in
  exists req,
    sent (prepareAndDo marshal_rotateBindingRequestBody c "GET"
            "https://broker.example.com/v2/catalog" None None None w).2
      = (sent w ++ [req])%list
    /\ http.Header req !! APIVersionHeader = Some "2.14"
    /\ http.Body req = None
    /\ http.Header req !! contentType = None.
Proof.
  intros c w.
  assert (Hex : exists req,
             sent (prepareAndDo marshal_rotateBindingRequestBody c "GET"
                     "https://broker.example.com/v2/catalog" None None None
                     w).2
             = (sent w ++ [req])%list) by (eexists; vm_compute; reflexivity).
  destruct Hex as [req Hsent]. exists req. split; [exact Hsent |].
  destruct (X12_request_headers marshal_rotateBindingRequestBody c "GET"
              "https://broker.example.com/v2/catalog" None None None w req
              Hsent) as (Hv & Hc & Hb & _).
  assert (Hbody : http.Body req = None) by now apply Hb.
  rewrite Hbody in Hc. repeat split; assumption.
Defined.

Lemma X13_authorization_header_witness :
  let c := testClientWith testBasic in
  let w := testWorld 200 "{}" in
  exists req,
    sent (prepareAndDo marshal_rotateBindingRequestBody c "GET"
            "https://broker.example.com/v2/catalog" None None None w).2
      = (sent w ++ [req])%list
    /\ exists credentials,
         http.Header req !! "Authorization" = Some ("Basic " ++ credentials)
         /\ base64.DecodeString credentials = Some "admin:secret".
Proof.
  intros c w.
  assert (Hex : exists req,
             sent (prepareAndDo marshal_rotateBindingRequestBody c "GET"
                     "https://broker.example.com/v2/catalog" None None None
                     w).2
             = (sent w ++ [req])%list) by (eexists; vm_compute; reflexivity).
  destruct Hex as [req Hsent]. exists req. split; [exact Hsent |].
  destruct (X13_authorization_header marshal_rotateBindingRequestBody c "GET"
              "https://broker.example.com/v2/catalog" None None None w req
              Hsent) as (_ & Hbasic & _).
  exact (Hbasic testBasic (BasicAuthConfig.mk "admin" "secret")
           eq_refl eq_refl).
Defined.

Lemma X14_identity_ignored_below_2_13_witness :
  let c := testClient Version2_12 false in
  let w := testWorld 200 "{}" in
  let i := OriginatingIdentity.mk "" "not JSON" in
  APIVersion.AtLeast (client.APIVersion c) Version2_13 = false
  /\ prepareAndDo marshal_rotateBindingRequestBody c "GET"
       "https://broker.example.com/v2/catalog" None None (Some i) w
     = prepareAndDo marshal_rotateBindingRequestBody c "GET"
         "https://broker.example.com/v2/catalog" None None None w.
Proof.
  intros c w i. split; [reflexivity |].
  apply (X14_identity_ignored_below_2_13 marshal_rotateBindingRequestBody c).
  reflexivity.
Defined.

Lemma X15_request_identities_witness :
  let c := testClient Version2_14 false in
  let w :=
    mkWorld (fun _ _ => inr (http.mkResponse 200 (inr "{}"))) []
            (fun n => Itoa (Z.of_nat n)) 7 in
  let w1 :=
    (prepareAndDo marshal_rotateBindingRequestBody c "GET"
       "https://broker.example.com/v2/catalog" None None None w).2 in
  let w2 :=
    (prepareAndDo marshal_rotateBindingRequestBody c "GET"
       "https://broker.example.com/v2/catalog" None None None w1).2 in
  exists req1 req2,
    sent w1 = (sent w ++ [req1])%list
    /\ sent w2 = (sent w1 ++ [req2])%list
    /\ http.Header req1 !! RequestIdentityheader = Some "7"
    /\ http.Header req2 !! RequestIdentityheader = Some "8".
Proof.
  intros c w w1 w2.
  assert (Hex1 : exists req1, sent w1 = (sent w ++ [req1])%list)
    by (eexists; vm_compute; reflexivity).
  destruct Hex1 as [req1 Hs1].
  assert (Hex2 : exists req2, sent w2 = (sent w1 ++ [req2])%list)
    by (eexists; vm_compute; reflexivity).
  destruct Hex2 as [req2 Hs2].
  exists req1, req2. split; [exact Hs1 |]. split; [exact Hs2 |].
  destruct (X15_request_identities marshal_rotateBindingRequestBody
              marshal_rotateBindingRequestBody c c "GET"
              "https://broker.example.com/v2/catalog" "GET"
              "https://broker.example.com/v2/catalog" None None None None
              None None w req1 req2 Hs1 Hs2) as (H1 & H2 & _).
  split; [exact H1 | exact H2].
Defined.

Lemma X16_RotateBinding_request_witness :
  let c := testClient Version2_14 false in
  let r := testRequest false None in
  let w := testWorld 200 "{}" in
  let req := testSent Version2_14 false None in
  sent (RotateBinding c r w).2 = (sent w ++ [req])%list
  /\ http.Method req = "PUT"
  /\ http.Body req
     = Some (js "{'predecessor_binding_id':'test-predecessor-binding-id'}").
Proof.
  intros c r w req.
  assert (Hsent : sent (RotateBinding c r w).2 = (sent w ++ [req])%list)
    by (vm_compute; reflexivity).
  split; [exact Hsent |].
  destruct (X16_RotateBinding_request c r w req Hsent) as (Hm & Hb & _).
  split; [exact Hm | reflexivity].
Defined.

(** ** client.go: NewClient *)

(** What [NewClient] returns, by what the configuration asks for *)
Lemma NewClient_outcome (config : ClientConfiguration.t) :
  NewClient config =
    if (skipsVerification config && hasRootCAs config)%bool then
      inl (errorString "Cannot specify root CAs and to skip TLS verification")
    else
      match ClientConfiguration.AuthConfig config with
      | Some auth =>
          match AuthConfig.BasicAuthConfig auth, AuthConfig.BearerConfig auth with
          | None, None => inl (errorString "Non-nil AuthConfig cannot be empty")
          | Some _, Some _ =>
              inl (errorString
                     "Only one AuthConfig implementation must be set at a time")
          | _, _ => inr (builtClient config)
          end
      | None => inr (builtClient config)
      end.
Proof.
  unfold NewClient, builtClient, rootPool, skipsVerification, hasRootCAs.
  destruct config as [name url version auth tls insecure cadata timeout alpha
                      verbose].
  cbn [ClientConfiguration.TLSConfig ClientConfiguration.Insecure
       ClientConfiguration.CAData ClientConfiguration.AuthConfig
       ClientConfiguration.Name ClientConfiguration.URL
       ClientConfiguration.APIVersion ClientConfiguration.TimeoutSeconds
       ClientConfiguration.EnableAlphaFeatures ClientConfiguration.Verbose].
  destruct tls as [[skip roots]|];
    [destruct skip, roots as [roots|] |];
    destruct insecure, (String.length cadata =? 0)%nat;
    cbn; try reflexivity;
    destruct auth as [[[?|] [?|]]|]; reflexivity.
Qed.

(** X17.  [NewClient] accepts a configuration exactly when it does not
    both skip the TLS verification and bring root certificates, and its
    authentication configuration, if it has one, holds one credential
    and not the other.  The TLS conflict is reported first, whatever
    the credentials; then an authentication configuration with no
    credential, and one with both, each with its own message. *)
Theorem X17_NewClient_accepts (config : ClientConfiguration.t) :
  ((exists c, NewClient config = inr c)
     <-> (skipsVerification config && hasRootCAs config)%bool = false
         /\ oneCredential (ClientConfiguration.AuthConfig config) = true)
  /\ ((skipsVerification config && hasRootCAs config)%bool = true ->
      NewClient config
        = inl (errorString
                 "Cannot specify root CAs and to skip TLS verification"))
  /\ (forall auth,
        (skipsVerification config && hasRootCAs config)%bool = false ->
        ClientConfiguration.AuthConfig config = Some auth ->
        (AuthConfig.BasicAuthConfig auth = None ->
         AuthConfig.BearerConfig auth = None ->
         NewClient config
           = inl (errorString "Non-nil AuthConfig cannot be empty"))
        /\ (AuthConfig.BasicAuthConfig auth <> None ->
            AuthConfig.BearerConfig auth <> None ->
            NewClient config
              = inl (errorString
                       "Only one AuthConfig implementation must be set at a time"))).
Proof.
  rewrite NewClient_outcome. unfold oneCredential.
  destruct (skipsVerification config && hasRootCAs config)%bool.
  - split; [| split].
    + split; [intros [c Hc]; discriminate | intros [Hf _]; discriminate].
    + reflexivity.
    + intros auth Hf. discriminate.
  - split; [| split].
    + destruct (ClientConfiguration.AuthConfig config) as [[[?|] [?|]]|];
        split; try (intros [c Hc]; discriminate);
        try (intros [_ Hf]; discriminate); eauto.
    + discriminate.
    + intros auth _ ->. split.
      * now intros -> ->.
      * destruct (AuthConfig.BasicAuthConfig auth),
          (AuthConfig.BearerConfig auth); congruence.
Qed.

(** [TrimRight] does not see the slashes at the end. *)
Lemma TrimRight_slashes_only (n : nat) : TrimRight (slashes n) "/" = "".
Proof. induction n as [|n IH]; simpl; [reflexivity | now rewrite IH]. Qed.

Lemma TrimRight_append_slashes (u : string) (n : nat) :
  TrimRight (u ++ slashes n) "/" = TrimRight u "/".
Proof.
  induction u as [|c u IH]; simpl.
  - apply TrimRight_slashes_only.
  - now rewrite IH.
Qed.

Lemma TrimRight_idempotent (u : string) :
  TrimRight (TrimRight u "/") "/" = TrimRight u "/".
Proof.
  destruct (TrimRight_slashes u) as [n Hn].
  rewrite Hn at 2. now rewrite TrimRight_append_slashes.
Qed.

(** X18.  Slashes at the end of the configured URL make no difference:
    a configuration and the same configuration with slashes added to
    its URL give the same client or the same error, and so does the
    configuration with its URL replaced by the URL that the client
    stores. *)
Theorem X18_trailing_slashes (config : ClientConfiguration.t) (n : nat) :
  NewClient
    (withURL config (ClientConfiguration.URL config ++ slashes n))
  = NewClient config
  /\ NewClient
       (withURL config (TrimRight (ClientConfiguration.URL config) "/"))
     = NewClient config.
Proof.
  rewrite !NewClient_outcome. unfold builtClient.
  destruct config as [name url version auth tls insecure cadata timeout alpha
                      verbose].
  unfold withURL, skipsVerification, hasRootCAs, rootPool.
  cbn [ClientConfiguration.TLSConfig ClientConfiguration.Insecure
       ClientConfiguration.CAData ClientConfiguration.AuthConfig
       ClientConfiguration.Name ClientConfiguration.URL
       ClientConfiguration.APIVersion ClientConfiguration.TimeoutSeconds
       ClientConfiguration.EnableAlphaFeatures ClientConfiguration.Verbose].
  now rewrite TrimRight_append_slashes, TrimRight_idempotent.
Qed.

(** X19.  A client made by [NewClient] has the name, the version, the
    alpha flag, the verbosity and the authentication configuration of
    its configuration, and a timeout of that many seconds.  Its
    authentication configuration, if it has one, holds one credential
    and not the other, and its transport does not both skip the TLS
    verification and hold root certificates. *)
Theorem X19_NewClient_client (config : ClientConfiguration.t) (c : client.t) :
  NewClient config = inr c ->
  client.Name c = ClientConfiguration.Name config
  /\ client.APIVersion c = ClientConfiguration.APIVersion config
  /\ client.EnableAlphaFeatures c
     = ClientConfiguration.EnableAlphaFeatures config
  /\ client.Verbose c = ClientConfiguration.Verbose config
  /\ client.AuthConfig c = ClientConfiguration.AuthConfig config
  /\ http.Timeout (client.httpClient c)
     = seconds (ClientConfiguration.TimeoutSeconds config)
  /\ oneCredential (client.AuthConfig c) = true
  /\ ~ (http.InsecureSkipVerify (http.TLSClientConfig (client.httpClient c))
          = true
        /\ http.RootCAs (http.TLSClientConfig (client.httpClient c)) <> None).
Proof.
  rewrite NewClient_outcome.
  destruct (skipsVerification config && hasRootCAs config)%bool eqn:Htls;
    [discriminate |].
  intros Hn.
  assert (Hone : oneCredential (ClientConfiguration.AuthConfig config) = true
                 /\ builtClient config = c).
  { unfold oneCredential.
    destruct (ClientConfiguration.AuthConfig config) as [[[?|] [?|]]|];
      try discriminate; now inversion Hn. }
  destruct Hone as [Hone <-]. cbn.
  repeat (split; [reflexivity || exact Hone |]).
  intros [Hskip Hroots]. rewrite Hskip in Htls. simpl in Htls.
  unfold hasRootCAs, rootPool in *.
  destruct (String.length (ClientConfiguration.CAData config) =? 0)%nat;
    [| discriminate].
  simpl in Htls.
  destruct (ClientConfiguration.TLSConfig config) as [cfg|]; [| congruence].
  now apply bool_decide_eq_false in Htls.
Qed.

Section NewClientRequests.
Context `{Packages}.

(** X20.  The requests of a client made by [NewClient] carry the header
    [Authorization] exactly when the configuration has an
    authentication configuration. *)
Theorem X20_NewClient_authorization {A} (config : ClientConfiguration.t)
    (c : client.t) (marshal : A -> error + string) (method URL : string)
    (params : option (gmap string string)) (body : option A)
    (oi : option OriginatingIdentity.t) (w : World) (req : http.Request) :
  NewClient config = inr c ->
  sent (prepareAndDo marshal c method URL params body oi w).2
    = (sent w ++ [req])%list ->
  is_Some (http.Header req !! "Authorization")
  <-> ClientConfiguration.AuthConfig config <> None.
Proof.
  intros Hn Hsent.
  destruct (prepareAndDo_request marshal c method URL params body oi w req
              Hsent) as (bodyReader & _ & -> & _).
  destruct (requestHeader_lookup c (bool_decide (bodyReader <> None))
              (uuids w (drawn w)) (identityHeader (client.APIVersion c) oi))
    as (_ & _ & Ha & _).
  cbn [http.Header]. rewrite Ha. clear Ha.
  rewrite NewClient_outcome in Hn.
  destruct (skipsVerification config && hasRootCAs config)%bool;
    [discriminate |].
  unfold authorization.
  destruct (ClientConfiguration.AuthConfig config) as [[[?|] [?|]]|] eqn:Hauth;
    try discriminate; injection Hn as <-; cbn; rewrite Hauth; cbn;
    split; try (intros [? ?]); try congruence; eauto.
Qed.
End NewClientRequests.

Lemma X19_NewClient_client_witness :
  let config :=
    ClientConfiguration.mk "test-broker" "https://broker.example.com/"
      Version2_13 (Some testBasic) None true "" 30 true false in
  exists c,
    NewClient config = inr c
    /\ client.APIVersion c = Version2_13
    /\ client.AuthConfig c = Some testBasic
    /\ http.Timeout (client.httpClient c) = 30000000000%Z.
Proof.
  intros config.
  assert (Hex : exists c, NewClient config = inr c)
    by (eexists; reflexivity).
  destruct Hex as [c Hn]. exists c. split; [exact Hn |].
  destruct (X19_NewClient_client config c Hn)
    as (_ & Hv & _ & _ & Ha & Ht & _).
  split; [exact Hv |]. split; [exact Ha | exact Ht].
Defined.

Lemma X20_NewClient_authorization_witness :
  let config :=
    ClientConfiguration.mk "test-broker" "https://broker.example.com/"
      Version2_13 (Some testBasic) None true "" 30 true false in
  let w := testWorld 200 "{}" in
  exists c req,
    NewClient config = inr c
    /\ sent (prepareAndDo marshal_rotateBindingRequestBody c "GET"
               "https://broker.example.com/v2/catalog" None None None w).2
       = (sent w ++ [req])%list
    /\ is_Some (http.Header req !! "Authorization").
Proof.
  intros config w.
  assert (Hex : exists c, NewClient config = inr c)
    by (eexists; reflexivity).
  destruct Hex as [c Hn]. exists c.
  assert (Hc : c = builtClient config)
    by (rewrite NewClient_outcome in Hn; now inversion Hn).
  assert (Hex : exists req,
             sent (prepareAndDo marshal_rotateBindingRequestBody c "GET"
                     "https://broker.example.com/v2/catalog" None None None
                     w).2
             = (sent w ++ [req])%list)
    by (rewrite Hc; eexists; vm_compute; reflexivity).
  destruct Hex as [req Hsent]. exists req.
  split; [exact Hn |]. split; [exact Hsent |].
  apply (X20_NewClient_authorization config c
           marshal_rotateBindingRequestBody "GET"
           "https://broker.example.com/v2/catalog" None None None w req
           Hn Hsent).
  discriminate.
Defined.

(** ** client.go: drainReader *)

Lemma take_bytes_length (n : nat) (s : string) :
  String.length (io.take_bytes n s) = Nat.min n (String.length s).
Proof.
  revert s. induction n as [|n IH]; intros [|c s]; simpl; auto.
Qed.

Lemma take_bytes_all (n : nat) (s : string) :
  (String.length s <= n)%nat -> io.take_bytes n s = s.
Proof.
  revert s. induction n as [|n IH]; intros [|c s]; simpl; intros Hl;
    try reflexivity; try lia.
  f_equal. apply IH. lia.
Qed.

Lemma drop_bytes_all (n : nat) (s : string) :
  (String.length s <= n)%nat -> io.drop_bytes n s = "".
Proof.
  revert s. induction n as [|n IH]; intros [|c s]; simpl; intros Hl;
    try reflexivity; try lia.
  apply IH. lia.
Qed.

Lemma drop_bytes_length (n : nat) (s : string) :
  String.length (io.drop_bytes n s) = (String.length s - n)%nat.
Proof.
  revert s. induction n as [|n IH]; intros [|c s]; simpl; auto.
Qed.

Lemma Read_some (r : io.Reader) (size : nat) :
  (0 < size)%nat -> io.pending r <> "" ->
  io.Read r size
  = ((io.take_bytes size (io.pending r), io.more),
     io.mkReader (io.drop_bytes size (io.pending r)) (io.fault r)).
Proof.
  intros Hs Hp. unfold io.Read.
  destruct (Nat.eqb_spec size 0); [lia |].
  destruct (io.pending r); [contradiction | reflexivity].
Qed.

Lemma Read_none (r : io.Reader) (size : nat) :
  (0 < size)%nat -> io.pending r = "" ->
  io.Read r size
  = (("", match io.fault r with
          | Some err => io.failed err
          | None => io.EOF
          end), r).
Proof.
  intros Hs Hp. unfold io.Read.
  destruct (Nat.eqb_spec size 0); [lia |].
  now rewrite Hp.
Qed.

Lemma Copy_Discard_limit (r : io.Reader) (fuel : nat) (limit : Z) :
  (0 < limit <= 8192)%Z -> (2 <= fuel)%nat ->
  io.Copy_Discard fuel (io.LimitReader r limit) 0
  = Some ((Z.of_nat (Nat.min (Z.to_nat limit) (String.length (io.pending r))),
           if (String.length (io.pending r) <? Z.to_nat limit)%nat
           then io.fault r else None),
          io.mkLimitedReader
            (io.mkReader (io.drop_bytes (Z.to_nat limit) (io.pending r))
                         (io.fault r))
            (limit - Z.of_nat (Nat.min (Z.to_nat limit)
                                 (String.length (io.pending r))))).
Proof.
  intros Hl Hf. destruct fuel as [|[|fuel]]; try lia.
  cbn [io.Copy_Discard]. unfold io.LimitedReader_Read at 1.
  unfold io.LimitReader. cbn [io.N io.R].
  destruct (Z.leb_spec limit 0); [lia |].
  assert (Hsize : (if (limit <? Z.of_nat (Z.to_nat 8192))%Z
                   then Z.to_nat limit else Z.to_nat 8192) = Z.to_nat limit).
  { destruct (Z.ltb_spec limit (Z.of_nat (Z.to_nat 8192))); [reflexivity |].
    lia. }
  rewrite Hsize.
  destruct r as [pending fault]. cbn [io.pending io.fault].
  destruct pending as [|c pending].
  - rewrite Read_none by (simpl; try reflexivity; lia). cbn [String.length].
    rewrite Nat.min_0_r.
    destruct (Nat.ltb_spec 0 (Z.to_nat limit)); [| lia].
    rewrite drop_bytes_all by (simpl; lia).
    destruct fault; cbn; reflexivity.
  - rewrite Read_some by (simpl; try discriminate; lia).
    cbn [io.pending io.fault].
    set (s := String c pending).
    unfold io.LimitedReader_Read. cbn [io.N io.R].
    rewrite take_bytes_length.
    destruct (Nat.ltb_spec (String.length s) (Z.to_nat limit)) as [Hlt | Hge].
    + rewrite Nat.min_r by lia.
      destruct (Z.leb_spec (limit - Z.of_nat (String.length s)) 0); [lia |].
      rewrite Read_none.
      * cbn [io.fault]. rewrite drop_bytes_all by lia.
        cbn [String.length]. rewrite Z.add_0_l, Z.add_0_r, Z.sub_0_r.
        destruct fault; reflexivity.
      * destruct (Z.ltb_spec (limit - Z.of_nat (String.length s))
                    (Z.of_nat (Z.to_nat 8192))); lia.
      * cbn [io.pending]. apply drop_bytes_all. lia.
    + rewrite Nat.min_l by lia.
      destruct (Z.leb_spec (limit - Z.of_nat (Z.to_nat limit)) 0); [| lia].
      cbn [String.length]. rewrite Z.add_0_l, Z.add_0_r. reflexivity.
Qed.

Lemma take_drop_bytes (n : nat) (s : string) :
  io.take_bytes n s ++ io.drop_bytes n s = s.
Proof.
  revert s. induction n as [|n IH]; intros [|c s]; simpl; try reflexivity.
  now rewrite IH.
Qed.

(** X21.  [drainReader] of no reader does nothing and reports no error.
    Of a reader it always returns: it takes bytes from the front of the
    pending ones and leaves the rest, takes all of them when they are
    4096 at most and 4096 of them otherwise, and reports the error of
    the reader exactly when fewer than 4096 bytes came before it. *)
Theorem X21_drainReader :
  drainReader None = Some (None, None)
  /\ forall r : io.Reader,
       let n := Z.of_nat (String.length (io.pending r)) in
       exists drained left,
         drainReader (Some r)
           = Some (if (n <? 4096)%Z then io.fault r else None,
                   Some (io.mkReader left (io.fault r)))
         /\ io.pending r = drained ++ left
         /\ Z.of_nat (String.length drained) = Z.min n 4096
         /\ ((n <= 4096)%Z -> left = "").
Proof.
  split; [reflexivity |]. intros r. cbv zeta.
  exists (io.take_bytes (Z.to_nat 4096) (io.pending r)),
         (io.drop_bytes (Z.to_nat 4096) (io.pending r)).
  split; [| split; [| split]].
  - unfold drainReader.
    rewrite Copy_Discard_limit by lia. cbn [io.R].
    destruct (Nat.ltb_spec (String.length (io.pending r)) (Z.to_nat 4096)),
      (Z.ltb_spec (Z.of_nat (String.length (io.pending r))) 4096);
      try lia; reflexivity.
  - symmetry. apply take_drop_bytes.
  - rewrite take_bytes_length. lia.
  - intros Hn. apply drop_bytes_all. lia.
Qed.

(** ** client.go: handleFailureResponse on bodies that are not objects *)

Section FailureDocuments.
Context `{Packages}.

(** X22.  What [handleFailureResponse] makes of a response whose body
    is not a JSON object.  A body that cannot be read gives the error
    of the read as [ResponseError]; the body [null] gives an error with
    the status code alone; a JSON text of another kind (a boolean, a
    number, a string, an array) gives as [ResponseError] the type error
    that names the kind.  In every case an error with a
    [ResponseError] has neither [ErrorMessage] nor [Description]. *)
Theorem X22_failure_response_documents (c : client.t)
    (response : http.Response) :
  (forall err,
     http.ResponseBody response = inl err ->
     handleFailureResponse c response
       = HTTPStatusCodeError (http.StatusCode response) None None (Some err))
  /\ (forall body,
        http.ResponseBody response = inr body ->
        json_scan body = inr JNull ->
        handleFailureResponse c response
          = HTTPStatusCodeError (http.StatusCode response) None None None)
  /\ (forall body doc,
        http.ResponseBody response = inr body ->
        json_scan body = inr doc ->
        doc <> JNull -> (forall members, doc <> JObject members) ->
        handleFailureResponse c response
          = HTTPStatusCodeError (http.StatusCode response) None None
              (Some (UnmarshalTypeError (kind_of doc)
                       "map[string]interface {}")))
  /\ (forall status ErrorMessage Description err,
        handleFailureResponse c response
          = HTTPStatusCodeError status ErrorMessage Description (Some err) ->
        ErrorMessage = None /\ Description = None).
Proof.
  split; [apply handleFailureResponse_unread |].
  unfold handleFailureResponse, unmarshalResponse, json_Unmarshal.
  split; [| split].
  - intros body -> ->. reflexivity.
  - intros body doc -> -> Hnull Hobj.
    destruct doc; try reflexivity; [contradiction | now elim (Hobj members)].
  - intros status ErrorMessage Description err.
    destruct (http.ResponseBody response) as [e | body];
      [intros [=]; auto |].
    destruct (json_scan body) as [e | doc]; [intros [=]; auto |].
    destruct (json_map doc); intros [=]; auto.
Qed.
End FailureDocuments.

(** ** client.go: the header value tells the identity *)

Lemma length_append (s t : string) :
  String.length (s ++ t) = (String.length s + String.length t)%nat.
Proof. induction s as [|c s IH]; simpl; [reflexivity | now rewrite IH]. Qed.


Lemma append_inj_r (s t e : string) : s ++ e = t ++ e -> s = t.
Proof.
  revert t. induction s as [|c s IH]; intros [|d t]; simpl.
  - reflexivity.
  - intros He. apply (f_equal String.length) in He. simpl in He.
    rewrite length_append in He. lia.
  - intros He. apply (f_equal String.length) in He. simpl in He.
    rewrite length_append in He. lia.
  - intros [= -> He]. now rewrite (IH t He).
Qed.


Section IdentityTold.
Context `{Packages}.

(** X23.  The header value of an originating identity tells the
    identity: two identities with the same header value have the same
    platform and the same value. *)
Theorem X23_identity_header_injective (i1 i2 : OriginatingIdentity.t)
    (h : string) :
  buildOriginatingIdentityHeaderValue (Some i1) = inr h ->
  buildOriginatingIdentityHeaderValue (Some i2) = inr h ->
  i1 = i2.
Proof.
  intros H1 H2.
  apply buildOriginatingIdentityHeaderValue_inr in H1 as (_ & _ & _ & E1).
  apply buildOriginatingIdentityHeaderValue_inr in H2 as (_ & _ & _ & E2).
  destruct i1 as [p1 v1], i2 as [p2 v2].
  cbn [OriginatingIdentity.Platform OriginatingIdentity.Value] in *.
  assert (Ee : base64.EncodeToString v1 = base64.EncodeToString v2).
  { rewrite <- (last_token_app p1 (base64.EncodeToString v1))
      by apply EncodeToString_chars.
    rewrite <- (last_token_app p2 (base64.EncodeToString v2))
      by apply EncodeToString_chars.
    now rewrite <- E1, <- E2. }
  assert (Ev : v1 = v2).
  { apply (f_equal base64.DecodeString) in Ee.
    rewrite !DecodeString_EncodeToString in Ee. congruence. }
  subst v2. f_equal.
  rewrite E1 in E2. now apply append_inj_r in E2.
Qed.
End IdentityTold.

Lemma X23_identity_header_injective_witness :
  let i := OriginatingIdentity.mk "cloudfoundry" "{}" in
  buildOriginatingIdentityHeaderValue (Some i) = inr "cloudfoundry e30="
  /\ i = i.
Proof.
  intros i.
  assert (Hh : buildOriginatingIdentityHeaderValue (Some i)
               = inr "cloudfoundry e30=") by (vm_compute; reflexivity).
  split; [exact Hh |].
  exact (X23_identity_header_injective i i _ Hh Hh).
Defined.

(** ** rotate_binding.go: the URL tells the binding *)

Section BindingURL.
Context `{Packages}.


(** X25.  The ids of a request go into the URL as they are, without
    escaping: a rotation for the binding [d] of an instance whose id is
    [a], the path segment of the bindings and [b] goes to the URL of
    the rotation for the binding of the instance [a] whose id is [b],
    the same segment and [d]. *)
Theorem X25_binding_URL_unescaped (c : client.t)
    (r1 r2 : RotateBindingRequest.t) (w1 w2 : World)
    (req1 req2 : http.Request) (b : string) :
  sent (RotateBinding c r1 w1).2 = (sent w1 ++ [req1])%list ->
  sent (RotateBinding c r2 w2).2 = (sent w2 ++ [req2])%list ->
  RotateBindingRequest.InstanceID r1
    = RotateBindingRequest.InstanceID r2 ++ "/service_bindings/" ++ b ->
  RotateBindingRequest.BindingID r2
    = b ++ "/service_bindings/" ++ RotateBindingRequest.BindingID r1 ->
  http.URL req1 = http.URL req2.
Proof.
  intros Hs1 Hs2 Hi Hb.
  pose proof (RotateBinding_sent_valid c r1 w1 req1 Hs1) as Hv1.
  pose proof (RotateBinding_sent_valid c r2 w2 req2 Hs2) as Hv2.
  destruct (RotateBinding_sent c r1 w1 req1 Hv1 Hs1) as (_ & _ & -> & _).
  destruct (RotateBinding_sent c r2 w2 req2 Hv2 Hs2) as (_ & _ & -> & _).
  rewrite Hi, Hb, !append_assoc. reflexivity.
Qed.
End BindingURL.


Lemma X25_binding_URL_unescaped_witness :
  let c := testClient Version2_14 false in
  let r1 :=
    RotateBindingRequest.mk "i-1/service_bindings/b-1" "b-2" false "b-0"
      None in
  let r2 :=
    RotateBindingRequest.mk "i-1" "b-1/service_bindings/b-2" false "b-0"
      None in
  let w := testWorld 200 "{}" in
  exists req1 req2,
    sent (RotateBinding c r1 w).2 = (sent w ++ [req1])%list
    /\ sent (RotateBinding c r2 w).2 = (sent w ++ [req2])%list
    /\ RotateBindingRequest.InstanceID r1 <> RotateBindingRequest.InstanceID r2
    /\ http.URL req1 = http.URL req2.
Proof.
  intros c r1 r2 w.
  assert (H1 : exists req,
             sent (RotateBinding c r1 w).2 = (sent w ++ [req])%list)
    by (eexists; vm_compute; reflexivity).
  assert (H2 : exists req,
             sent (RotateBinding c r2 w).2 = (sent w ++ [req])%list)
    by (eexists; vm_compute; reflexivity).
  destruct H1 as [req1 Hs1], H2 as [req2 Hs2].
  exists req1, req2.
  split; [exact Hs1 |]. split; [exact Hs2 |]. split; [discriminate |].
  exact (X25_binding_URL_unescaped c r1 r2 w w req1 req2 "b-1" Hs1 Hs2
           eq_refl eq_refl).
Defined.
